(** * c4_modelizer: the active-selection and synchronisation controller
      (src/contexts/ProjectContext.tsx), the endpoints of the API server
      that create, update, export and restore (server/src/index.ts), the
      client of the API (src/api/api.ts) and the form dialog, embedded
      shallowly.

    The controller is a React provider.  Its [useState] cells, its [useRef]
    cells and the pieces of the browser it touches (the shared diagram store,
    [window.setTimeout], the clock) are gathered in one record, [Ctl].  Every
    callback of the provider is a function over [Ctl]; an [async] callback is
    a resumption: it runs up to its [await], hands back the request it issued
    together with its continuation, and the continuation is later applied to
    the outcome of the request and to whatever the state has become in the
    meantime. *)

From Stdlib Require Import List String Ascii Bool ZArith PArith Arith Lia.
From Stdlib Require DecimalString DecimalPos.
Import ListNotations.
Local Open Scope string_scope.

(* ===================================================================== *)
(** * Part I: the controller *)
(* ===================================================================== *)

Module Controller.

(** ** Data model (src/types/projects.ts) *)

Definition Id := string.

Inductive ViewLevel := VSystem | VContainer | VComponent | VCode.

(** The blocks of a diagram are owned by the editing layer; the controller
    never looks inside one. *)
Definition Block := string.

Record FlatC4Model := mkModel {
  systems : list Block;
  containers : list Block;
  components : list Block;
  codeElements : list Block;
  viewLevel : ViewLevel;
  activeSystemId : option Id;
  activeContainerId : option Id;
  activeComponentId : option Id
}.

Definition createEmptyModel : FlatC4Model :=
  {| systems := []; containers := []; components := []; codeElements := [];
     viewLevel := VSystem;
     activeSystemId := None; activeContainerId := None;
     activeComponentId := None |}.

Record ProjectSummary := mkProject {
  id : Id;
  name : string;
  description : option string;
  createdAt : string;
  updatedAt : string;
  modelCount : Z
}.

(** [ModelSummary] and [ModelDetail] are one shape at run time: the detail
    is the summary whose optional [model] is expected to be there. *)
Record ModelSummary := mkSummary {
  m_id : Id;
  projectId : Id;
  m_name : string;
  m_description : option string;
  m_createdAt : string;
  m_updatedAt : string;
  model : option FlatC4Model
}.

Inductive SaveStatus := Idle | Saving | Error.

(** What a [catch] clause may receive, and [getErrorMessage]. *)
Inductive JsError :=
| ApiError (message : string) (status : nat)
| JsErr (message : string)
| Thrown.

Definition getErrorMessage (e : JsError) : string :=
  match e with
  | ApiError message _ => message
  | JsErr message => message
  | Thrown => "Unexpected error."
  end.

(** JavaScript truthiness of a [string | null]: null and the empty string
    are falsy. *)
Definition truthy (o : option Id) : bool :=
  match o with
  | Some s => negb (s =? "")
  | None => false
  end.

(** [if (!x) return; ... x ...]: the value the code goes on with. *)
Definition nonfalsy (o : option Id) : option Id :=
  if truthy o then o else None.

(** [a === b] on [string | null]. *)
Definition same_id (a b : option Id) : bool :=
  match a, b with
  | Some x, Some y => x =? y
  | None, None => true
  | _, _ => false
  end.

(** ** The state of the provider *)

(** The [useState] cells. *)
Record ReactState := mkReact {
  projects : list ProjectSummary;
  models : list ModelSummary;
  activeProjectId : option Id;
  activeModelId : option Id;
  isLoadingProjects : bool;
  isLoadingModels : bool;
  isLoadingModel : bool;
  saveStatus : SaveStatus;
  lastSavedAt : option string;
  error : option string
}.

(** The [useRef] cells. *)
Record Refs := mkRefs {
  activeProjectIdRef : option Id;
  activeModelIdRef : option Id;
  isHydratingRef : bool;
  saveTimeoutRef : option positive;
  loadTokenRef : nat
}.

(** A timer armed by [window.setTimeout].  The only callback the provider
    ever arms is [() => void saveModelNow(modelData)], so a timer is its
    handle, its delay and the captured snapshot. *)
Record Timer := mkTimer {
  t_id : positive;
  t_delay : nat;
  t_snapshot : FlatC4Model
}.

(** The browser side: the shared diagram store (its current model and
    whether the provider's listener is attached), the pending timers, the
    next timer handle, the clock read by [new Date().toISOString()]. *)
Record Env := mkEnv {
  storeModel : FlatC4Model;
  subscribed : bool;
  timers : list Timer;
  nextTimer : positive;
  now : string
}.

Record Ctl := mkCtl {
  st :> ReactState;
  refs :> Refs;
  env :> Env
}.

Definition upd_st (f : ReactState -> ReactState) (s : Ctl) : Ctl :=
  mkCtl (f s) s s.
Definition upd_refs (f : Refs -> Refs) (s : Ctl) : Ctl :=
  mkCtl s (f s) s.
Definition upd_env (f : Env -> Env) (s : Ctl) : Ctl :=
  mkCtl s s (f s).

(** The state setters returned by [useState]. *)
Definition setProjects (f : list ProjectSummary -> list ProjectSummary) : Ctl -> Ctl :=
  upd_st (fun r => mkReact (f (projects r)) (models r) (activeProjectId r)
    (activeModelId r) (isLoadingProjects r) (isLoadingModels r)
    (isLoadingModel r) (saveStatus r) (lastSavedAt r) (error r)).
Definition setModels (f : list ModelSummary -> list ModelSummary) : Ctl -> Ctl :=
  upd_st (fun r => mkReact (projects r) (f (models r)) (activeProjectId r)
    (activeModelId r) (isLoadingProjects r) (isLoadingModels r)
    (isLoadingModel r) (saveStatus r) (lastSavedAt r) (error r)).
Definition setActiveProjectId (v : option Id) : Ctl -> Ctl :=
  upd_st (fun r => mkReact (projects r) (models r) v
    (activeModelId r) (isLoadingProjects r) (isLoadingModels r)
    (isLoadingModel r) (saveStatus r) (lastSavedAt r) (error r)).
Definition setActiveModelId (v : option Id) : Ctl -> Ctl :=
  upd_st (fun r => mkReact (projects r) (models r) (activeProjectId r)
    v (isLoadingProjects r) (isLoadingModels r)
    (isLoadingModel r) (saveStatus r) (lastSavedAt r) (error r)).
Definition setIsLoadingProjects (v : bool) : Ctl -> Ctl :=
  upd_st (fun r => mkReact (projects r) (models r) (activeProjectId r)
    (activeModelId r) v (isLoadingModels r)
    (isLoadingModel r) (saveStatus r) (lastSavedAt r) (error r)).
Definition setIsLoadingModels (v : bool) : Ctl -> Ctl :=
  upd_st (fun r => mkReact (projects r) (models r) (activeProjectId r)
    (activeModelId r) (isLoadingProjects r) v
    (isLoadingModel r) (saveStatus r) (lastSavedAt r) (error r)).
Definition setIsLoadingModel (v : bool) : Ctl -> Ctl :=
  upd_st (fun r => mkReact (projects r) (models r) (activeProjectId r)
    (activeModelId r) (isLoadingProjects r) (isLoadingModels r)
    v (saveStatus r) (lastSavedAt r) (error r)).
Definition setSaveStatus (v : SaveStatus) : Ctl -> Ctl :=
  upd_st (fun r => mkReact (projects r) (models r) (activeProjectId r)
    (activeModelId r) (isLoadingProjects r) (isLoadingModels r)
    (isLoadingModel r) v (lastSavedAt r) (error r)).
Definition setLastSavedAt (v : option string) : Ctl -> Ctl :=
  upd_st (fun r => mkReact (projects r) (models r) (activeProjectId r)
    (activeModelId r) (isLoadingProjects r) (isLoadingModels r)
    (isLoadingModel r) (saveStatus r) v (error r)).
Definition setError (v : option string) : Ctl -> Ctl :=
  upd_st (fun r => mkReact (projects r) (models r) (activeProjectId r)
    (activeModelId r) (isLoadingProjects r) (isLoadingModels r)
    (isLoadingModel r) (saveStatus r) (lastSavedAt r) v).

(** Assignments to the [.current] of each ref. *)
Definition set_activeProjectIdRef (v : option Id) : Ctl -> Ctl :=
  upd_refs (fun r => mkRefs v (activeModelIdRef r) (isHydratingRef r)
    (saveTimeoutRef r) (loadTokenRef r)).
Definition set_activeModelIdRef (v : option Id) : Ctl -> Ctl :=
  upd_refs (fun r => mkRefs (activeProjectIdRef r) v (isHydratingRef r)
    (saveTimeoutRef r) (loadTokenRef r)).
Definition set_isHydratingRef (v : bool) : Ctl -> Ctl :=
  upd_refs (fun r => mkRefs (activeProjectIdRef r) (activeModelIdRef r) v
    (saveTimeoutRef r) (loadTokenRef r)).
Definition set_saveTimeoutRef (v : option positive) : Ctl -> Ctl :=
  upd_refs (fun r => mkRefs (activeProjectIdRef r) (activeModelIdRef r)
    (isHydratingRef r) v (loadTokenRef r)).
Definition set_loadTokenRef (v : nat) : Ctl -> Ctl :=
  upd_refs (fun r => mkRefs (activeProjectIdRef r) (activeModelIdRef r)
    (isHydratingRef r) (saveTimeoutRef r) v).

Definition set_storeModel (v : FlatC4Model) : Ctl -> Ctl :=
  upd_env (fun e => mkEnv v (subscribed e) (timers e) (nextTimer e) (now e)).
Definition set_subscribed (v : bool) : Ctl -> Ctl :=
  upd_env (fun e => mkEnv (storeModel e) v (timers e) (nextTimer e) (now e)).
Definition set_timers (v : list Timer) : Ctl -> Ctl :=
  upd_env (fun e => mkEnv (storeModel e) (subscribed e) v (nextTimer e) (now e)).
Definition set_nextTimer (v : positive) : Ctl -> Ctl :=
  upd_env (fun e => mkEnv (storeModel e) (subscribed e) (timers e) v (now e)).
Definition set_now (v : string) : Ctl -> Ctl :=
  upd_env (fun e => mkEnv (storeModel e) (subscribed e) (timers e) (nextTimer e) v).

(** ** The remote client (src/api/api.ts) *)

Record EntityPayload := mkPayload {
  p_name : string;
  p_description : option (option string)
}.

Record ModelPatch := mkPatch {
  patch_name : option string;
  patch_description : option (option string);
  patch_model : option FlatC4Model
}.

(** One constructor per request function, indexed by the type its promise
    resolves to. *)
Inductive Request : Type -> Type :=
| fetchProjects : Request (list ProjectSummary)
| createProject (payload : EntityPayload) : Request ProjectSummary
| updateProject (projectId : Id) (payload : EntityPayload) : Request ProjectSummary
| deleteProject (projectId : Id) : Request unit
| fetchModels (projectId : Id) : Request (list ModelSummary)
| createModel (projectId : Id) (payload : EntityPayload) : Request ModelSummary
| fetchModel (modelId : Id) : Request ModelSummary
| updateModel (modelId : Id) (payload : ModelPatch) : Request ModelSummary
| deleteModel (modelId : Id) : Request unit.

Inductive Result (R : Type) : Type :=
| Resolved (r : R)
| Rejected (e : JsError).
Arguments Resolved {R} r.
Arguments Rejected {R} e.

(** ** Asynchronous callbacks as resumptions *)

Inductive Res (A : Type) : Type :=
| Fin (s : Ctl) (a : A)
| Susp (s : Ctl) (R : Type) (req : Request R) (k : Result R -> Ctl -> Res A).
Arguments Fin {A} s a.
Arguments Susp {A} s {R} req k.

Definition Task (A : Type) : Type := Ctl -> Res A.

Definition ret {A} (a : A) : Task A := fun s => Fin s a.

Fixpoint bindR {A B} (r : Res A) (f : A -> Task B) : Res B :=
  match r with
  | Fin s a => f a s
  | Susp s req k => Susp s req (fun out s' => bindR (k out s') f)
  end.

Definition bind {A B} (t : Task A) (f : A -> Task B) : Task B :=
  fun s => bindR (t s) f.

(** A synchronous statement. *)
Definition act (f : Ctl -> Ctl) : Task unit := fun s => Fin (f s) tt.

(** Reading a cell. *)
Definition read {X} (f : Ctl -> X) : Task X := fun s => Fin s (f s).

(** [await request]: the one kind of suspension point. *)
Definition await {R} (req : Request R) : Task (Result R) :=
  fun s => Susp s req (fun out s' => Fin s' out).

Declare Scope task_scope.
Delimit Scope task_scope with task.
Notation "x <- c ;; k" := (bind c (fun x => k))
  (at level 61, c at next level, right associativity) : task_scope.
Notation "c ;; k" := (bind c (fun _ => k))
  (at level 61, right associativity) : task_scope.
Local Open Scope task_scope.

(** ** The browser primitives the provider calls *)

Definition DEBOUNCE_MS : nat := 600.

(** [window.clearTimeout(handle)]: a handle that is not pending is ignored. *)
Definition clearTimeout (h : positive) (s : Ctl) : Ctl :=
  set_timers (filter (fun t => negb (Pos.eqb (t_id t) h)) (timers s)) s.

(** [window.setTimeout(() => void saveModelNow(modelData), delay)]: arms a
    timer under a fresh handle and returns the handle. *)
Definition setTimeout (modelData : FlatC4Model) (delay : nat) (s : Ctl)
  : positive * Ctl :=
  let h := nextTimer s in
  (h, set_nextTimer (Pos.succ h)
        (set_timers (timers s ++ [mkTimer h delay modelData]) s)).

(** ** Model sync engine *)

(** [saveModelNow], lines 177-190. *)
Definition saveModelNow (modelData : FlatC4Model) : Task unit :=
  current <- read activeModelIdRef ;;
  match nonfalsy current with
  | None => ret tt
  | Some modelId =>
      act (setError None) ;;
      act (setSaveStatus Saving) ;;
      out <- await (updateModel modelId (mkPatch None None (Some modelData))) ;;
      match out with
      | Resolved _ =>
          act (setSaveStatus Idle) ;;
          stamp <- read now ;;
          act (setLastSavedAt (Some stamp))
      | Rejected err =>
          act (setSaveStatus Error) ;;
          act (setError (Some (getErrorMessage err)))
      end
  end.

(** [queueSave], lines 192-203.  It is synchronous: the write itself is
    left to the timer. *)
Definition queueSave (modelData : FlatC4Model) (s : Ctl) : Ctl :=
  if negb (truthy (activeModelIdRef s)) then s
  else
    let s1 := match saveTimeoutRef s with
              | Some h => clearTimeout h s
              | None => s
              end in
    let '(h, s2) := setTimeout modelData DEBOUNCE_MS s1 in
    set_saveTimeoutRef (Some h) s2.

(** The listener handed to [useFlatC4Store.subscribe], lines 423-426. *)
Definition storeListener (m : FlatC4Model) (s : Ctl) : Ctl :=
  if isHydratingRef s then s else queueSave m s.

(** A mutation of the shared diagram store: the model is replaced and the
    store notifies its listeners.  The store is the SDK's; what is modelled
    is its contract: every mutation installs a new model object and calls
    each attached listener with it, synchronously. *)
Definition mutateStore (m : FlatC4Model) (s : Ctl) : Ctl :=
  let s1 := set_storeModel m s in
  if subscribed s1 then storeListener m s1 else s1.

(** [setModel], the store action the provider obtains on line 78. *)
Definition setModel (m : FlatC4Model) : Ctl -> Ctl := mutateStore m.

(** [data.model ?? createEmptyModel()] *)
Definition model_or_empty (data : ModelSummary) : FlatC4Model :=
  match model data with
  | Some m => m
  | None => createEmptyModel
  end.

(** The [finally] block of [loadModel]. *)
Definition loadModel_finally (token : nat) : Task unit :=
  current <- read loadTokenRef ;;
  if (current =? token)%nat then
    act (set_isHydratingRef false) ;;
    act (setIsLoadingModel false)
  else ret tt.

(** What [loadModel] does once [fetchModel] has settled: the rest of the
    [try], the [catch], then the [finally]. *)
Definition loadModel_resume (token : nat) (out : Result ModelSummary) : Task unit :=
  match out with
  | Resolved data =>
      current <- read loadTokenRef ;;
      if negb (current =? token)%nat then ret tt
      else
        act (setModel (model_or_empty data)) ;;
        act (setSaveStatus Idle)
  | Rejected err =>
      act (setError (Some (getErrorMessage err)))
  end ;;
  loadModel_finally token.

(** [loadModel], lines 154-175. *)
Definition loadModel (modelId : Id) : Task unit :=
  current <- read loadTokenRef ;;
  let token := (current + 1)%nat in
  act (set_loadTokenRef token) ;;
  act (setIsLoadingModel true) ;;
  act (set_isHydratingRef true) ;;
  out <- await (fetchModel modelId) ;;
  loadModel_resume token out.

(** [saveCurrentModel], lines 205-214. *)
Definition saveCurrentModel : Task unit :=
  pending <- read saveTimeoutRef ;;
  match pending with
  | Some h =>
      act (clearTimeout h) ;;
      act (set_saveTimeoutRef None)
  | None => ret tt
  end ;;
  modelId <- read activeModelIdRef ;;
  if negb (truthy modelId) then ret tt
  else
    modelData <- read storeModel ;;
    saveModelNow modelData.

(** [selectProject], lines 216-225. *)
Definition selectProject (projectId : option Id) : Task unit :=
  current <- read activeProjectIdRef ;;
  if same_id projectId current then ret tt
  else
    saveCurrentModel ;;
    act (setActiveProjectId projectId) ;;
    act (setActiveModelId None) ;;
    act (setModels (fun _ => [])).

(** [selectModel], lines 227-234. *)
Definition selectModel (modelId : option Id) : Task unit :=
  current <- read activeModelIdRef ;;
  if same_id modelId current then ret tt
  else
    saveCurrentModel ;;
    act (setActiveModelId modelId).

(** The browser firing the timer [h]: the timer leaves the pending list and
    its callback [() => { void saveModelNow(modelData); }] runs.  A handle
    that is not pending fires nothing. *)
Definition fireTimer (h : positive) : Task unit :=
  pending <- read timers ;;
  match find (fun t => Pos.eqb (t_id t) h) pending with
  | Some t =>
      act (clearTimeout h) ;;
      saveModelNow (t_snapshot t)
  | None => ret tt
  end.

(** ** Listings *)

(** [refreshProjects], lines 122-133. *)
Definition refreshProjects : Task unit :=
  act (setIsLoadingProjects true) ;;
  act (setError None) ;;
  out <- await fetchProjects ;;
  match out with
  | Resolved data => act (setProjects (fun _ => data))
  | Rejected err => act (setError (Some (getErrorMessage err)))
  end ;;
  act (setIsLoadingProjects false).

(** [refreshModels], lines 135-152; [projectId ?? activeProjectIdRef.current]. *)
Definition refreshModels (projectId : option Id) : Task unit :=
  current <- read activeProjectIdRef ;;
  let id := match projectId with Some p => Some p | None => current end in
  match nonfalsy id with
  | None =>
      act (setModels (fun _ => [])) ;;
      act (setIsLoadingModels false)
  | Some id =>
      act (setIsLoadingModels true) ;;
      act (setError None) ;;
      out <- await (fetchModels id) ;;
      match out with
      | Resolved data => act (setModels (fun _ => data))
      | Rejected err => act (setError (Some (getErrorMessage err)))
      end ;;
      act (setIsLoadingModels false)
  end.

(** ** Create, update, delete *)

(** [handleCreateProject], lines 236-251. *)
Definition handleCreateProject (payload : EntityPayload) : Task (option ProjectSummary) :=
  act (setError None) ;;
  out <- await (createProject payload) ;;
  match out with
  | Resolved project =>
      act (setProjects (fun prev => project :: prev)) ;;
      act (setActiveProjectId (Some (id project))) ;;
      act (setActiveModelId None) ;;
      ret (Some project)
  | Rejected err =>
      act (setError (Some (getErrorMessage err))) ;;
      ret None
  end.

(** [handleUpdateProject], lines 253-271. *)
Definition handleUpdateProject (projectId : Id) (payload : EntityPayload)
  : Task (option ProjectSummary) :=
  act (setError None) ;;
  out <- await (updateProject projectId payload) ;;
  match out with
  | Resolved project =>
      act (setProjects (fun prev =>
        map (fun item => if id item =? id project then project else item) prev)) ;;
      ret (Some project)
  | Rejected err =>
      act (setError (Some (getErrorMessage err))) ;;
      ret None
  end.

(** [handleDeleteProject], lines 273-289. *)
Definition handleDeleteProject (projectId : Id) : Task bool :=
  act (setError None) ;;
  out <- await (deleteProject projectId) ;;
  match out with
  | Resolved _ =>
      act (setProjects (fun prev =>
        filter (fun item => negb (id item =? projectId)) prev)) ;;
      current <- read activeProjectIdRef ;;
      (if same_id current (Some projectId) then
         act (setActiveProjectId None) ;;
         act (setActiveModelId None) ;;
         act (setModels (fun _ => [])) ;;
         act (setModel createEmptyModel)
       else ret tt) ;;
      ret true
  | Rejected err =>
      act (setError (Some (getErrorMessage err))) ;;
      ret false
  end.

(** [{ ...item, modelCount: c }] *)
Definition with_modelCount (item : ProjectSummary) (c : Z) : ProjectSummary :=
  mkProject (id item) (name item) (description item) (createdAt item)
    (updatedAt item) c.

(** [handleCreateModel], lines 291-313. *)
Definition handleCreateModel (projectId : Id) (payload : EntityPayload)
  : Task (option ModelSummary) :=
  act (setError None) ;;
  out <- await (createModel projectId payload) ;;
  match out with
  | Resolved model =>
      act (setModels (fun prev => model :: prev)) ;;
      act (setProjects (fun prev =>
        map (fun item =>
               if id item =? projectId
               then with_modelCount item (modelCount item + 1)
               else item) prev)) ;;
      act (setActiveProjectId (Some projectId)) ;;
      act (setActiveModelId (Some (m_id model))) ;;
      ret (Some model)
  | Rejected err =>
      act (setError (Some (getErrorMessage err))) ;;
      ret None
  end.

(** [handleUpdateModel], lines 315-333. *)
Definition handleUpdateModel (modelId : Id) (payload : EntityPayload)
  : Task (option ModelSummary) :=
  act (setError None) ;;
  out <- await (updateModel modelId
           (mkPatch (Some (p_name payload)) (p_description payload) None)) ;;
  match out with
  | Resolved model =>
      act (setModels (fun prev =>
        map (fun item => if m_id item =? m_id model then model else item) prev)) ;;
      ret (Some model)
  | Rejected err =>
      act (setError (Some (getErrorMessage err))) ;;
      ret None
  end.

(** [handleDeleteModel], lines 335-359.  [models] on line 338 is the
    listing the callback closed over: the one at the time of the call. *)
Definition handleDeleteModel (modelId : Id) : Task bool :=
  act (setError None) ;;
  listing <- read models ;;
  let projectId :=
    option_map projectId (find (fun item => m_id item =? modelId) listing) in
  out <- await (deleteModel modelId) ;;
  match out with
  | Resolved _ =>
      act (setModels (fun prev =>
        filter (fun item => negb (m_id item =? modelId)) prev)) ;;
      match nonfalsy projectId with
      | Some projectId =>
          act (setProjects (fun prev =>
            map (fun item =>
                   if id item =? projectId
                   then with_modelCount item (Z.max 0 (modelCount item - 1))
                   else item) prev))
      | None => ret tt
      end ;;
      current <- read activeModelIdRef ;;
      (if same_id current (Some modelId) then
         act (setActiveModelId None) ;;
         act (setModel createEmptyModel)
       else ret tt) ;;
      ret true
  | Rejected err =>
      act (setError (Some (getErrorMessage err))) ;;
      ret false
  end.

(** ** Effects

    React runs an effect after a render in which one of its dependencies
    changed.  The closure of an effect sees the state cells as they were
    rendered ([r] below) and the refs as they are now.  The effect of lines
    109-120 copies the two active ids to [localStorage]; it reads and writes
    no cell of [Ctl] and has no counterpart here. *)

(** Lines 101-107: the two refs follow the rendered ids. *)
Definition syncActiveProjectIdRef (r : ReactState) : Ctl -> Ctl :=
  set_activeProjectIdRef (activeProjectId r).
Definition syncActiveModelIdRef (r : ReactState) : Ctl -> Ctl :=
  set_activeModelIdRef (activeModelId r).

(** [projects[0].id] *)
Definition first_project (l : list ProjectSummary) : option Id :=
  match l with
  | p :: _ => Some (id p)
  | [] => None
  end.
Definition first_model (l : list ModelSummary) : option Id :=
  match l with
  | m :: _ => Some (m_id m)
  | [] => None
  end.

(** [list.find((item) => item.id === ref.current)], as a truth value. *)
Definition has_project (l : list ProjectSummary) (i : option Id) : bool :=
  existsb (fun item => same_id (Some (id item)) i) l.
Definition has_model (l : list ModelSummary) (i : option Id) : bool :=
  existsb (fun item => same_id (Some (m_id item)) i) l.

(** Lines 365-380: reconciliation of the active project with the listing. *)
Definition reconcileProjects (r : ReactState) (s : Ctl) : Ctl :=
  if isLoadingProjects r then s
  else match projects r with
  | [] =>
      setModel createEmptyModel (setActiveModelId None (setActiveProjectId None s))
  | _ :: _ =>
      if negb (truthy (activeProjectIdRef s)) then
        setActiveProjectId (first_project (projects r)) s
      else if negb (has_project (projects r) (activeProjectIdRef s)) then
        setActiveProjectId (first_project (projects r)) s
      else s
  end.

(** Lines 382-390: on a change of the active project its models are
    fetched, or dropped when there is none. *)
Definition onActiveProjectChange (r : ReactState) : Task unit :=
  if negb (truthy (activeProjectId r)) then
    act (setModels (fun _ => [])) ;;
    act (setActiveModelId None) ;;
    act (setModel createEmptyModel)
  else refreshModels (activeProjectId r).

(** Lines 392-406: reconciliation of the active model with the listing. *)
Definition reconcileModels (r : ReactState) (s : Ctl) : Ctl :=
  if isLoadingModels r || negb (truthy (activeProjectId r)) then s
  else match models r with
  | [] => setModel createEmptyModel (setActiveModelId None s)
  | _ :: _ =>
      if negb (truthy (activeModelIdRef s)) then
        setActiveModelId (first_model (models r)) s
      else if negb (has_model (models r) (activeModelIdRef s)) then
        setActiveModelId (first_model (models r)) s
      else s
  end.

(** Lines 408-411: the active model is loaded when it changes. *)
Definition onActiveModelChange (r : ReactState) : Task unit :=
  match nonfalsy (activeModelId r) with
  | None => ret tt
  | Some modelId => loadModel modelId
  end.

(** Lines 413-417. *)
Definition idleWithoutModel (r : ReactState) (s : Ctl) : Ctl :=
  if negb (truthy (activeModelId r)) then setSaveStatus Idle s else s.

(** Lines 419-427: the listener is attached while a model is active. *)
Definition subscribeStore (r : ReactState) (s : Ctl) : Ctl :=
  if negb (truthy (activeModelId r)) then s else set_subscribed true s.

(** Lines 428-434: the cleanup of that effect, run before the effect runs
    again; it does nothing when the effect had returned early. *)
Definition unsubscribeStore (s : Ctl) : Ctl :=
  if subscribed s then
    let s1 := match saveTimeoutRef s with
              | Some h => set_saveTimeoutRef None (clearTimeout h s)
              | None => s
              end in
    set_subscribed false s1
  else s.

(** ** Vocabulary of the statements *)

(** A request without its index, for comparing what was issued. *)
Inductive Call :=
| CallFetchProjects
| CallCreateProject (payload : EntityPayload)
| CallUpdateProject (projectId : Id) (payload : EntityPayload)
| CallDeleteProject (projectId : Id)
| CallFetchModels (projectId : Id)
| CallCreateModel (projectId : Id) (payload : EntityPayload)
| CallFetchModel (modelId : Id)
| CallUpdateModel (modelId : Id) (payload : ModelPatch)
| CallDeleteModel (modelId : Id).

Definition erase {R} (req : Request R) : Call :=
  match req with
  | fetchProjects => CallFetchProjects
  | createProject p => CallCreateProject p
  | updateProject i p => CallUpdateProject i p
  | deleteProject i => CallDeleteProject i
  | fetchModels i => CallFetchModels i
  | createModel i p => CallCreateModel i p
  | fetchModel i => CallFetchModel i
  | updateModel i p => CallUpdateModel i p
  | deleteModel i => CallDeleteModel i
  end.

(** The request on which a callback is suspended, if it is. *)
Definition issued {A} (r : Res A) : option Call :=
  match r with
  | Fin _ _ => None
  | Susp _ req _ => Some (erase req)
  end.

(** The state a callback leaves behind when it suspends or returns. *)
Definition state_of {A} (r : Res A) : Ctl :=
  match r with
  | Fin s _ => s
  | Susp s _ _ => s
  end.

(** The body [{ model: modelData }] of a save. *)
Definition save_patch (modelData : FlatC4Model) : ModelPatch :=
  mkPatch None None (Some modelData).

(** The debounce discipline: whatever timer is pending is the one the ref
    designates. *)
Definition TimerTracked (s : Ctl) : Prop :=
  timers s = [] \/
  exists t, timers s = [t] /\ saveTimeoutRef s = Some (t_id t).

(** The conditions under which an edit is a qualifying mutation. *)
Definition Editing (s : Ctl) (mid : Id) : Prop :=
  activeModelIdRef s = Some mid /\ mid <> "" /\
  subscribed s = true /\ isHydratingRef s = false /\ TimerTracked s.

(** A save is pending for the active model [mid]. *)
Definition PendingSave (s : Ctl) (mid : Id) : Prop :=
  activeModelIdRef s = Some mid /\ mid <> "" /\
  exists t, timers s = [t] /\ saveTimeoutRef s = Some (t_id t).

(** A callback starts with the flush: it suspends on the write of the
    current store snapshot to the active model, the timer gone and the
    active ids still what they were. *)
Definition FlushesFirst {A} (s : Ctl) (mid : Id) (r : Res A) : Prop :=
  issued r = Some (CallUpdateModel mid (save_patch (storeModel s))) /\
  timers (state_of r) = [] /\
  activeProjectId (state_of r) = activeProjectId s /\
  activeModelId (state_of r) = activeModelId s.

(** A burst of edits made by the editing layer. *)
Definition burst (ms : list FlatC4Model) (s : Ctl) : Ctl :=
  fold_left (fun acc m => mutateStore m acc) ms s.

(** What may happen between the moment the load carrying [tok] is issued
    and the moment its fetch settles: code that touches neither the
    hydration flag nor the token (every callback but [loadModel]), newer
    loads being issued, other loads settling. *)
Inductive Interleaved (tok : nat) : Ctl -> Ctl -> Prop :=
| il_here (s : Ctl) : Interleaved tok s s
| il_other (s s1 s2 : Ctl) :
    Interleaved tok s s1 ->
    isHydratingRef s2 = isHydratingRef s1 ->
    loadTokenRef s2 = loadTokenRef s1 ->
    Interleaved tok s s2
| il_issue (s s1 : Ctl) modelId :
    Interleaved tok s s1 ->
    Interleaved tok s (state_of (loadModel modelId s1))
| il_settle (s s1 : Ctl) tok' out :
    Interleaved tok s s1 ->
    tok' <> tok ->
    Interleaved tok s (state_of (loadModel_resume tok' out s1)).

(** Code that leaves the hydration flag and the load token alone, now and
    after each of its suspensions. *)
Fixpoint KeepsGuard {A} (s0 : Ctl) (r : Res A) : Prop :=
  match r with
  | Fin s _ =>
      isHydratingRef s = isHydratingRef s0 /\ loadTokenRef s = loadTokenRef s0
  | Susp s _ k =>
      (isHydratingRef s = isHydratingRef s0 /\ loadTokenRef s = loadTokenRef s0)
      /\ forall out s', KeepsGuard s' (k out s')
  end.

(** [I] holds every time the callback hands control back (when it
    suspends, when it returns), provided it held every time control was
    handed to it. *)
Fixpoint Preserves (I : Ctl -> Prop) {A} (r : Res A) : Prop :=
  match r with
  | Fin s _ => I s
  | Susp s _ k => I s /\ forall out s', I s' -> Preserves I (k out s')
  end.

(** Local consistency of a project's derived counter with the cached
    model listing. *)
Definition count_models (pid : Id) (l : list ModelSummary) : Z :=
  Z.of_nat (List.length (filter (fun m => projectId m =? pid) l)).

Definition CountsAgree (ps : list ProjectSummary) (ms : list ModelSummary) : Prop :=
  forall p, In p ps -> modelCount p = count_models (id p) ms.

(** The refs mirror the rendered ids (the two effects of lines 101-107
    see to it after every render). *)
Definition InSync (s : Ctl) : Prop :=
  activeProjectIdRef s = activeProjectId s /\
  activeModelIdRef s = activeModelId s.

(** The selection invariant, for projects and for models. *)
Definition ProjectsReconciled (s : Ctl) : Prop :=
  (projects s = [] ->
     activeProjectId s = None /\ activeModelId s = None /\
     storeModel s = createEmptyModel) /\
  (projects s <> [] ->
     exists p, In p (projects s) /\ activeProjectId s = Some (id p)).

Definition ModelsReconciled (s : Ctl) : Prop :=
  (models s = [] ->
     activeModelId s = None /\ storeModel s = createEmptyModel) /\
  (models s <> [] ->
     exists m, In m (models s) /\ activeModelId s = Some (m_id m)).

(** ** Sample states, used to run the callbacks *)

Definition ex_project (i : Id) (n : Z) : ProjectSummary :=
  mkProject i ("Project " ++ i) None "2026-01-01T10:00:00.000Z"
    "2026-01-01T10:00:00.000Z" n.

Definition ex_summary (i p : Id) : ModelSummary :=
  mkSummary i p ("Model " ++ i) None "2026-01-01T10:00:00.000Z"
    "2026-01-01T10:00:00.000Z" None.

(** A diagram with one system block. *)
Definition ex_edit : FlatC4Model :=
  mkModel ["sys-1"] [] [] [] VSystem None None None.

Definition ex_edit2 : FlatC4Model :=
  mkModel ["sys-1"; "sys-2"] [] [] [] VSystem None None None.

Definition ex_detail : ModelSummary :=
  mkSummary "m1" "p1" "Model m1" None "2026-01-01T10:00:00.000Z"
    "2026-01-01T10:00:00.000Z" (Some ex_edit).

(** Projects "p1" (one model) and "p2" (two models); "p1" and its model
    "m1" are active, the listener is attached, nothing is pending. *)
Definition ex_active : Ctl :=
  mkCtl
    (mkReact [ex_project "p1" 1; ex_project "p2" 2] [ex_summary "m1" "p1"]
       (Some "p1") (Some "m1") false false false Idle None None)
    (mkRefs (Some "p1") (Some "m1") false None 0)
    (mkEnv createEmptyModel true [] 1%positive "2026-01-02T09:00:00.000Z").

(** The same after one edit: a save is pending. *)
Definition ex_edited : Ctl := mutateStore ex_edit ex_active.

(** A timer armed for "m1" outlives the selection of "m1". *)
Definition ex_orphan : Ctl :=
  set_activeModelIdRef None (setActiveModelId None ex_edited).

(** The project listing is being refreshed; meanwhile the active project
    was deleted, which left "p2" in the listing and nothing selected. *)
Definition ex_loading : Ctl :=
  mkCtl
    (mkReact [ex_project "p2" 2] [] None None true false false Idle None None)
    (mkRefs None None false None 0)
    (mkEnv createEmptyModel false [] 1%positive "2026-01-02T09:00:00.000Z").

(** The models of "p1" are being refreshed; meanwhile its active model was
    deleted, which left "m2" in the listing and no model selected. *)
Definition ex_loading_models : Ctl :=
  mkCtl
    (mkReact [ex_project "p1" 1; ex_project "p2" 2] [ex_summary "m2" "p1"]
       (Some "p1") None false true false Idle None None)
    (mkRefs (Some "p1") None false None 0)
    (mkEnv createEmptyModel false [] 1%positive "2026-01-02T09:00:00.000Z").

(** The listings were replaced behind the controller's back: the active
    project "p1" and the active model "m1" are no longer in them. *)
Definition ex_stale : Ctl :=
  mkCtl
    (mkReact [ex_project "p2" 2; ex_project "p3" 0]
       [ex_summary "m7" "p2"; ex_summary "m8" "p2"]
       (Some "p1") (Some "m1") false false false Idle None None)
    (mkRefs (Some "p1") (Some "m1") false None 0)
    (mkEnv createEmptyModel true [] 1%positive "2026-01-02T09:00:00.000Z").

Definition ex_payload : EntityPayload := mkPayload "Container View" None.

End Controller.

(* ===================================================================== *)
(** * Part II: the API server (server/src/index.ts) *)
(* ===================================================================== *)

Module Server.

(** ** Request bodies *)

(** What [express.json()] hands to a handler.  Integers stand for the
    numbers: a handler only ever asks whether one is zero. *)
#[local] Set Warnings "-register-all".
Inductive Json :=
| JNull
| JBool (b : bool)
| JNum (z : Z)
| JStr (s : string)
| JArr (items : list Json)
| JObj (fields : list (string * Json)).

(** A JavaScript value read off a body; [None] is [undefined]. *)
Definition Value := option Json.

(** [JSON.parse] keeps the last of several members with one key. *)
Fixpoint lookup (k : string) (fields : list (string * Json)) : Value :=
  match fields with
  | [] => None
  | (k', v) :: rest =>
      match lookup k rest with
      | Some v' => Some v'
      | None => if k' =? k then Some v else None
      end
  end.

(** [j.k] for a [j] that is neither null nor undefined, and a [k] that is
    not a built-in property such as [length]. *)
Definition member (k : string) (j : Json) : Value :=
  match j with
  | JObj fields => lookup k fields
  | _ => None
  end.

(** [v ?? d] *)
Definition nullish (v : Value) (d : Json) : Json :=
  match v with
  | None => d
  | Some JNull => d
  | Some j => j
  end.

(** Truthiness: [!v] is [negb (js_truthy v)]. *)
Definition js_truthy (v : Value) : bool :=
  match v with
  | None => false
  | Some JNull => false
  | Some (JBool b) => b
  | Some (JNum z) => negb (z =? 0)%Z
  | Some (JStr s) => negb (s =? "")
  | Some (JArr _) => true
  | Some (JObj _) => true
  end.

(** [typeof v === "string"] *)
Definition is_string (v : Value) : bool :=
  match v with
  | Some (JStr _) => true
  | _ => false
  end.

(** [Array.isArray(v)] *)
Definition isArray (v : Value) : bool :=
  match v with
  | Some (JArr _) => true
  | _ => false
  end.

(** ** Strings

    A string is the sequence of the bytes of its UTF-8 encoding: two
    strings of the program are equal, and one is empty, exactly when their
    encodings are.

    [String.prototype.trim] strips from both ends the code points of
    WhiteSpace and LineTerminator: U+0009 to U+000D, U+0020, U+00A0, U+1680,
    U+2000 to U+200A, U+2028, U+2029, U+202F, U+205F, U+3000 and U+FEFF. *)

(** Those of one byte: tab, line feed, vertical tab, form feed, carriage
    return and space. *)
Definition is_space (c : ascii) : bool :=
  let n := nat_of_ascii c in
  ((9 <=? n) && (n <=? 13) || (n =? 32))%nat.

(** The first byte of those of more than one byte: C2, E1, E2, E3, EF. *)
Definition is_lead (c : ascii) : bool :=
  let n := nat_of_ascii c in
  ((n =? 194) || (n =? 225) || (n =? 226) || (n =? 227) || (n =? 239))%nat.

(** The one of two bytes: U+00A0 is C2 A0. *)
Definition is_space2 (c1 c2 : ascii) : bool :=
  ((nat_of_ascii c1 =? 194) && (nat_of_ascii c2 =? 160))%nat.

(** Those of three bytes: U+1680 is E1 9A 80; U+2000 to U+200A are
    E2 80 80 to E2 80 8A; U+2028, U+2029 and U+202F are E2 80 A8, E2 80 A9
    and E2 80 AF; U+205F is E2 81 9F; U+3000 is E3 80 80; U+FEFF is
    EF BB BF. *)
Definition is_space3 (c1 c2 c3 : ascii) : bool :=
  let a := nat_of_ascii c1 in
  let b := nat_of_ascii c2 in
  let c := nat_of_ascii c3 in
  ((a =? 225) && (b =? 154) && (c =? 128)
   || (a =? 226) && (b =? 128) &&
      ((128 <=? c) && (c <=? 138) || (c =? 168) || (c =? 169) || (c =? 175))
   || (a =? 226) && (b =? 129) && (c =? 159)
   || (a =? 227) && (b =? 128) && (c =? 128)
   || (a =? 239) && (b =? 187) && (c =? 191))%nat.

(** The string without the white space it starts with. *)
Fixpoint trim_start (s : string) : string :=
  match s with
  | EmptyString => EmptyString
  | String c1 r1 =>
      if is_space c1 then trim_start r1
      else if is_lead c1 then
        match r1 with
        | String c2 r2 =>
            if is_space2 c1 c2 then trim_start r2
            else
              match r2 with
              | String c3 r3 => if is_space3 c1 c2 c3 then trim_start r3 else s
              | EmptyString => s
              end
        | EmptyString => s
        end
      else s
  end.

(** A string of white space only. *)
Definition blank (s : string) : bool := trim_start s =? "".

(** The string without the white space it ends with: it is cut where what
    remains is white space only.  (In UTF-8 no white space starts in the
    middle of another code point.) *)
Fixpoint trim_end (s : string) : string :=
  match s with
  | EmptyString => EmptyString
  | String c rest => if blank s then EmptyString else String c (trim_end rest)
  end.

Definition trim (s : string) : string := trim_end (trim_start s).

(** [JSON.stringify] on these values. *)
Definition hex_digit (n : nat) : ascii :=
  ascii_of_nat (if (n <? 10)%nat then 48 + n else 87 + n).

Definition dquote : string := String (ascii_of_nat 34) EmptyString.
Definition backslash : string := String (ascii_of_nat 92) EmptyString.

Definition escape_char (c : ascii) : string :=
  let n := nat_of_ascii c in
  if (n =? 34)%nat then backslash ++ dquote
  else if (n =? 92)%nat then backslash ++ backslash
  else if (n =? 8)%nat then backslash ++ "b"
  else if (n =? 9)%nat then backslash ++ "t"
  else if (n =? 10)%nat then backslash ++ "n"
  else if (n =? 12)%nat then backslash ++ "f"
  else if (n =? 13)%nat then backslash ++ "r"
  else if (n <? 32)%nat then
    backslash ++ "u00" ++
    String (hex_digit (n / 16)) (String (hex_digit (n mod 16)) EmptyString)
  else String c EmptyString.

Fixpoint escape (s : string) : string :=
  match s with
  | EmptyString => EmptyString
  | String c rest => escape_char c ++ escape rest
  end.

Definition quote (s : string) : string := dquote ++ escape s ++ dquote.

Definition string_of_Z (z : Z) : string :=
  DecimalString.NilZero.string_of_int (Z.to_int z).

Fixpoint stringify (j : Json) : string :=
  match j with
  | JNull => "null"
  | JBool true => "true"
  | JBool false => "false"
  | JNum z => string_of_Z z
  | JStr s => quote s
  | JArr items =>
      "[" ++
      (fix elements (l : list Json) : string :=
         match l with
         | [] => ""
         | [x] => stringify x
         | x :: rest => stringify x ++ "," ++ elements rest
         end) items ++ "]"
  | JObj fields =>
      "{" ++
      (fix members (l : list (string * Json)) : string :=
         match l with
         | [] => ""
         | [(k, v)] => quote k ++ ":" ++ stringify v
         | (k, v) :: rest => quote k ++ ":" ++ stringify v ++ "," ++ members rest
         end) fields ++ "}"
  end.

(** [createEmptyModel], lines 91-97. *)
Definition createEmptyModel : Json :=
  JObj [("systems", JArr []); ("containers", JArr []); ("components", JArr []);
        ("codeElements", JArr []); ("viewLevel", JStr "system")].

(** ** Rows and summaries *)

(** [string | number | null], the type of a count column. *)
Inductive CountValue :=
| CountNumber (n : Z)
| CountString (s : string)
| CountNull.

Record ProjectRow := mkProjectRow {
  row_id : string;
  row_name : string;
  row_description : option string;
  created_at : string;
  updated_at : string;
  model_count : option CountValue;
  row_modelCount : option CountValue
}.

Record ProjectSummary := mkProjectSummary {
  id : string;
  name : string;
  description : option string;
  createdAt : string;
  updatedAt : string;
  modelCount : Z
}.

(** A Number that holds an integer is the double nearest to it, ties going
    to the even significand of 53 bits; the integers of magnitude up to
    2^53 are doubles.  (An integer that rounds to 2^1024 or beyond is
    Infinity for the program and has no counterpart here: [Z] stands for
    the finite doubles that are integers.) *)
Definition to_double (z : Z) : Z :=
  let a := Z.abs z in
  if (a <=? 2 ^ 53)%Z then z
  else
    let shift := (Z.log2 a - 52)%Z in
    let q := Z.shiftr a shift in
    let r := Z.land a (Z.ones shift) in
    let half := Z.shiftl 1 (shift - 1) in
    let q' := if (half <? r)%Z || ((r =? half)%Z && Z.odd q) then (q + 1)%Z else q in
    (Z.sgn z * Z.shiftl q' shift)%Z.

(** [Number.parseInt(value, 10)]: leading white space, an optional sign,
    then the longest run of decimal digits, whose value is returned as a
    Number; [None] is [NaN]. *)
Definition digit_of (c : ascii) : option Z :=
  let n := nat_of_ascii c in
  if ((48 <=? n) && (n <=? 57))%nat then Some (Z.of_nat (n - 48)) else None.

Fixpoint digits (s : string) (acc : option Z) : option Z :=
  match s with
  | EmptyString => acc
  | String c rest =>
      match digit_of c with
      | Some d =>
          digits rest (Some (10 * match acc with Some a => a | None => 0 end + d)%Z)
      | None => acc
      end
  end.

Definition parseInt (s : string) : option Z :=
  option_map to_double
    match trim_start s with
    | String "-" rest => option_map Z.opp (digits rest None)
    | String "+" rest => digits rest None
    | t => digits t None
    end.

(** [parseCount], lines 106-113. *)
Definition parseCount (value : option CountValue) : Z :=
  match value with
  | Some (CountNumber n) => n
  | Some (CountString s) =>
      match parseInt s with
      | Some parsed => parsed
      | None => 0%Z
      end
  | _ => 0%Z
  end.

(** [row.model_count ?? row.modelCount] *)
Definition count_column (row : ProjectRow) : option CountValue :=
  match model_count row with
  | None => row_modelCount row
  | Some CountNull => row_modelCount row
  | Some v => Some v
  end.

(** [mapProjectRow], lines 115-122. *)
Definition mapProjectRow (row : ProjectRow) : ProjectSummary :=
  {| id := row_id row;
     name := row_name row;
     description := row_description row;
     createdAt := created_at row;
     updatedAt := updated_at row;
     modelCount := parseCount (count_column row) |}.

(** ** The pool *)

(** The SQL texts of the two handlers. *)
Inductive Sql :=
| InsertProjectReturning
    (* INSERT INTO projects (id, name, description) VALUES ($1, $2, $3)
       RETURNING id, name, description, created_at, updated_at *)
| Begin                   (* BEGIN *)
| DeleteModels            (* DELETE FROM models *)
| DeleteProjects          (* DELETE FROM projects *)
| InsertProject
    (* INSERT INTO projects (id, name, description, created_at, updated_at)
       VALUES ($1, $2, $3, $4, $5) *)
| InsertModel
    (* INSERT INTO models (id, project_id, name, description, model_data,
       created_at, updated_at) VALUES ($1, $2, $3, $4, $5::jsonb, $6, $7) *)
| Commit                  (* COMMIT *)
| Rollback.               (* ROLLBACK *)

(** The two arguments of a [query] call; [params] may be left out. *)
Record Query := mkQuery {
  text : Sql;
  params : option (list Value)
}.

(** How the promise returned by [query] settles: with the rows of the
    result, or rejected. *)
Inductive QueryOutcome :=
| Rows (rows : list ProjectRow)
| Throws.

(** [PoolLike] and [PoolClientLike], lines 24-32, over the state [P] of
    whatever stands behind them.  [connect] tells whether a client was
    obtained. *)
Class PoolLike (P : Type) := {
  pool_query : Query -> P -> P * QueryOutcome;
  connect : P -> P * bool;
  client_query : Query -> P -> P * QueryOutcome;
  release : P -> P
}.

(** ** Handlers *)

Inductive Body :=
| ErrorBody (error : string)
| ProjectBody (project : ProjectSummary)
| RestoredBody (status : string) (projects models : nat).

Record Response := mkResponse {
  status : nat;
  body : Body
}.

(** The last middleware, lines 484-488: where a rejected handler ends. *)
Definition internal_error : Response :=
  mkResponse 500 (ErrorBody "Internal server error.").

Section Handlers.
Context {P : Type} `{PoolLike P}.

(** [POST /api/projects], lines 213-232.  [uuid] is what [createUuid()]
    returns. *)
Definition post_projects (uuid : string) (reqBody : Value) (pool : P)
  : P * Response :=
  let b := nullish reqBody (JObj []) in
  let name := member "name" b in
  let description := member "description" b in
  if negb (js_truthy name) || negb (is_string name) then
    (pool, mkResponse 400 (ErrorBody "Project name is required."))
  else
    match name with
    | Some (JStr name) =>
        let '(pool1, result) :=
          pool_query
            (mkQuery InsertProjectReturning
               (Some [Some (JStr uuid); Some (JStr (trim name));
                      Some (nullish description JNull)])) pool in
        match result with
        | Rows (row :: _) => (pool1, mkResponse 201 (ProjectBody (mapProjectRow row)))
        | Rows [] => (pool1, internal_error)
        | Throws => (pool1, internal_error)
        end
    | _ => (pool, mkResponse 400 (ErrorBody "Project name is required."))
    end.

(** The parameters of the two inserts of a restore, lines 445-451 and
    461-469; reading a property of [null] throws, which is [None].  [now]
    is [new Date().toISOString()]. *)
Definition project_params (now : string) (project : Json) : option (list Value) :=
  match project with
  | JNull => None
  | _ =>
      Some [member "id" project;
            member "name" project;
            Some (nullish (member "description" project) JNull);
            Some (nullish (member "createdAt" project) (JStr now));
            Some (nullish (member "updatedAt" project) (JStr now))]
  end.

Definition model_params (now : string) (model : Json) : option (list Value) :=
  match model with
  | JNull => None
  | _ =>
      Some [member "id" model;
            member "projectId" model;
            member "name" model;
            Some (nullish (member "description" model) JNull);
            Some (JStr (stringify (nullish (member "model" model) createEmptyModel)));
            Some (nullish (member "createdAt" model) (JStr now));
            Some (nullish (member "updatedAt" model) (JStr now))]
  end.

(** A piece of the [try] block: the state of the pool afterwards, and
    whether control reached the end of the piece without a throw. *)
Definition Attempt := P -> P * bool.

Definition statement (q : Query) : Attempt :=
  fun pool =>
    let '(pool1, result) := client_query q pool in
    match result with
    | Rows _ => (pool1, true)
    | Throws => (pool1, false)
    end.

Definition and_then (a b : Attempt) : Attempt :=
  fun pool =>
    let '(pool1, ok) := a pool in
    if ok then b pool1 else (pool1, false).

(** The two [for ... of] loops. *)
Fixpoint insert_each (sql : Sql) (mk : Json -> option (list Value))
    (items : list Json) : Attempt :=
  match items with
  | [] => fun pool => (pool, true)
  | item :: rest =>
      match mk item with
      | None => fun pool => (pool, false)
      | Some ps => and_then (statement (mkQuery sql (Some ps))) (insert_each sql mk rest)
      end
  end.

(** The [try] block, lines 435-473, up to the response. *)
Definition restore_try (now : string) (projects models : list Json) : Attempt :=
  and_then (statement (mkQuery Begin None))
    (and_then (statement (mkQuery DeleteModels None))
       (and_then (statement (mkQuery DeleteProjects None))
          (and_then (insert_each InsertProject (project_params now) projects)
             (and_then (insert_each InsertModel (model_params now) models)
                (statement (mkQuery Commit None)))))).

(** [POST /api/restore], lines 424-482. *)
Definition post_restore (now : string) (reqBody : Value) (pool : P)
  : P * Response :=
  let b := nullish reqBody (JObj []) in
  let projects := member "projects" b in
  let models := member "models" b in
  if negb (isArray projects) || negb (isArray models) then
    (pool, mkResponse 400 (ErrorBody "Invalid backup payload."))
  else
    match projects, models with
    | Some (JArr projects), Some (JArr models) =>
        let '(pool1, connected) := connect pool in
        if negb connected then (pool1, internal_error)
        else
          let '(pool2, ok) := restore_try now projects models pool1 in
          if ok then
            (release pool2,
             mkResponse 200
               (RestoredBody "ok" (List.length projects) (List.length models)))
          else
            let '(pool3, _) := client_query (mkQuery Rollback None) pool2 in
            (release pool3, internal_error)
    | _, _ => (pool, mkResponse 400 (ErrorBody "Invalid backup payload."))
    end.

End Handlers.

(** ** The pool of the tests (server/__tests__/api.test.js)

    [createMockPool] records the calls; [pool.query] answers from a queue
    and with no rows once the queue is empty; the client of the restore test
    records its calls and answers [{}]. *)

Record Mock := mkMock {
  queryCalls : list Query;
  queue : list (list ProjectRow);
  clientCalls : list Query;
  released : bool
}.

#[export] Instance mock_pool : PoolLike Mock := {
  pool_query q m :=
    (mkMock (queryCalls m ++ [q]) (tl (queue m)) (clientCalls m) (released m),
     Rows (hd [] (queue m)));
  connect m := (m, true);
  client_query q m :=
    (mkMock (queryCalls m) (queue m) (clientCalls m ++ [q]) (released m), Rows []);
  release m := mkMock (queryCalls m) (queue m) (clientCalls m) true
}.

Definition createMockPool : Mock := mkMock [] [] [] false.

(** ** A stand-in for PostgreSQL

    The tables of [ensureSchema], lines 146-170, with the constraints the
    schema declares (primary keys, NOT NULL, the reference from a model to
    its project, ON DELETE CASCADE), transactions, and statements that fail
    on demand. *)

Record ModelRow := mkModelRow {
  mrow_id : string;
  project_id : string;
  mrow_name : string;
  mrow_description : option string;
  model_data : string;
  mrow_created_at : string;
  mrow_updated_at : string
}.

Record Db := mkDb {
  projects_tbl : list ProjectRow;
  models_tbl : list ModelRow
}.

(** A parameter as a text column receives it: [undefined] and [null] are
    NULL, a string is itself, anything else goes through the driver, which
    is taken to print it as [JSON.stringify] does. *)
Definition sql_text (v : Value) : option string :=
  match v with
  | None => None
  | Some JNull => None
  | Some (JStr s) => Some s
  | Some j => Some (stringify j)
  end.

Definition has_project (i : string) (d : Db) : bool :=
  existsb (fun r => row_id r =? i) (projects_tbl d).

Definition has_model (i : string) (d : Db) : bool :=
  existsb (fun r => mrow_id r =? i) (models_tbl d).

(** The row an insert into [projects] makes of its parameters, if they
    satisfy NOT NULL. *)
Definition project_row (i n desc c u : Value) : option ProjectRow :=
  match sql_text i, sql_text n, sql_text c, sql_text u with
  | Some i, Some n, Some c, Some u =>
      Some (mkProjectRow i n (sql_text desc) c u None None)
  | _, _, _, _ => None
  end.

Definition model_row (i p n desc data c u : Value) : option ModelRow :=
  match sql_text i, sql_text p, sql_text n, sql_text data, sql_text c, sql_text u with
  | Some i, Some p, Some n, Some data, Some c, Some u =>
      Some (mkModelRow i p n (sql_text desc) data c u)
  | _, _, _, _, _, _ => None
  end.

Definition insert_project_row (row : option ProjectRow) (d : Db)
  : option (Db * list ProjectRow) :=
  match row with
  | Some row =>
      if has_project (row_id row) d then None
      else Some (mkDb (projects_tbl d ++ [row]) (models_tbl d), [row])
  | None => None
  end.

Definition insert_model_row (row : option ModelRow) (d : Db)
  : option (Db * list ProjectRow) :=
  match row with
  | Some row =>
      if has_model (mrow_id row) d then None
      else if negb (has_project (project_id row) d) then None
      else Some (mkDb (projects_tbl d) (models_tbl d ++ [row]), [])
  | None => None
  end.

(** One data statement against the tables: the new tables and the rows
    returned, or [None] when a constraint refuses it.  [clock] is the
    database's [now()]. *)
Definition run_statement (clock : string) (q : Query) (d : Db)
  : option (Db * list ProjectRow) :=
  match text q, params q with
  | InsertProjectReturning, Some [i; n; desc] =>
      insert_project_row
        (project_row i n desc (Some (JStr clock)) (Some (JStr clock))) d
  | InsertProject, Some [i; n; desc; c; u] =>
      match insert_project_row (project_row i n desc c u) d with
      | Some (d', _) => Some (d', [])
      | None => None
      end
  | InsertModel, Some [i; p; n; desc; data; c; u] =>
      insert_model_row (model_row i p n desc data c u) d
  | DeleteModels, _ => Some (mkDb (projects_tbl d) [], [])
  | DeleteProjects, _ => Some (mkDb [] [], [])
  | _, _ => None
  end.

(** One connection: the committed tables, the tables of the transaction in
    progress if there is one, every statement received so far, the
    positions (in that log) of the statements that are to fail whatever
    they are, the clock, and whether [connect] hands out a client. *)
Record Pg := mkPg {
  committed : Db;
  working : option Db;
  log : list Query;
  faults : list nat;
  clock : string;
  accepting : bool;
  releases : nat
}.

Definition pg_query (q : Query) (pg : Pg) : Pg * QueryOutcome :=
  let log' := (log pg ++ [q])%list in
  let keep := mkPg (committed pg) (working pg) log' (faults pg) (clock pg)
                (accepting pg) (releases pg) in
  if existsb (Nat.eqb (List.length (log pg))) (faults pg) then (keep, Throws)
  else
    match text q with
    | Begin =>
        (mkPg (committed pg)
           (Some (match working pg with Some d => d | None => committed pg end))
           log' (faults pg) (clock pg) (accepting pg) (releases pg), Rows [])
    | Commit =>
        (mkPg (match working pg with Some d => d | None => committed pg end)
           None log' (faults pg) (clock pg) (accepting pg) (releases pg), Rows [])
    | Rollback =>
        (mkPg (committed pg) None log' (faults pg) (clock pg) (accepting pg)
           (releases pg), Rows [])
    | _ =>
        match working pg with
        | Some d =>
            match run_statement (clock pg) q d with
            | Some (d', rows) =>
                (mkPg (committed pg) (Some d') log' (faults pg) (clock pg)
                   (accepting pg) (releases pg), Rows rows)
            | None => (keep, Throws)
            end
        | None =>
            match run_statement (clock pg) q (committed pg) with
            | Some (d', rows) =>
                (mkPg d' None log' (faults pg) (clock pg) (accepting pg)
                   (releases pg), Rows rows)
            | None => (keep, Throws)
            end
        end
    end.

#[export] Instance pg_pool : PoolLike Pg := {
  pool_query := pg_query;
  connect pg := (pg, accepting pg);
  client_query := pg_query;
  release pg :=
    mkPg (committed pg) (working pg) (log pg) (faults pg) (clock pg)
      (accepting pg) (S (releases pg))
}.

(** ** Vocabulary of the statements *)

(** The queries the loops of a restore issue, in order. *)
Fixpoint inserts (sql : Sql) (mk : Json -> option (list Value))
    (items : list Json) : list Query :=
  match items with
  | [] => []
  | item :: rest =>
      match mk item with
      | Some ps => mkQuery sql (Some ps) :: inserts sql mk rest
      | None => []
      end
  end.

(** The statements of a restore that runs to its end. *)
Definition restore_plan (now : string) (projects models : list Json) : list Query :=
  ([mkQuery Begin None; mkQuery DeleteModels None; mkQuery DeleteProjects None]
   ++ inserts InsertProject (project_params now) projects
   ++ inserts InsertModel (model_params now) models
   ++ [mkQuery Commit None])%list.

(** What a list of data statements makes of the tables when each is
    accepted; [None] when one is refused. *)
Fixpoint db_run (clock : string) (qs : list Query) (d : Db) : option Db :=
  match qs with
  | [] => Some d
  | q :: rest =>
      match run_statement clock q d with
      | Some (d', _) => db_run clock rest d'
      | None => None
      end
  end.

(** The data statements of a restore: the plan without BEGIN and COMMIT. *)
Definition restore_data (now : string) (projects models : list Json) : list Query :=
  ([mkQuery DeleteModels None; mkQuery DeleteProjects None]
   ++ inserts InsertProject (project_params now) projects
   ++ inserts InsertModel (model_params now) models)%list.

(** A DELETE or an INSERT of the restore. *)
Definition is_data (q : Query) : bool :=
  match text q with
  | DeleteModels | DeleteProjects | InsertProject | InsertModel => true
  | _ => false
  end.

(** A piece of the [try] block that issues (a prefix of) the data
    statements [qs] inside the open transaction: the committed tables are
    out of its reach, the transaction stays open, and if control reaches
    the end of the piece the whole of [qs] was issued and accepted. *)
Definition Runs (a : Pg -> Pg * bool) (qs : list Query) : Prop :=
  forall pg d,
    working pg = Some d ->
    committed (fst (a pg)) = committed pg /\
    clock (fst (a pg)) = clock pg /\
    faults (fst (a pg)) = faults pg /\
    (exists k, log (fst (a pg)) = log pg ++ firstn k qs)%list /\
    (exists d', working (fst (a pg)) = Some d') /\
    (snd (a pg) = true ->
       log (fst (a pg)) = (log pg ++ qs)%list /\
       exists d', working (fst (a pg)) = Some d' /\
                  db_run (clock pg) qs d = Some d').

(** The part of the [try] block between BEGIN and COMMIT. *)
Definition restore_data_piece (now : string) (projects models : list Json)
  : Pg -> Pg * bool :=
  and_then (statement (mkQuery DeleteModels None))
    (and_then (statement (mkQuery DeleteProjects None))
       (and_then (insert_each InsertProject (project_params now) projects)
          (insert_each InsertModel (model_params now) models))).

(** With no statement made to fail, the piece reaches its end whenever the
    tables accept [qs]. *)
Definition Succeeds (a : Pg -> Pg * bool) (qs : list Query) : Prop :=
  forall pg d d',
    working pg = Some d -> faults pg = [] ->
    db_run (clock pg) qs d = Some d' ->
    snd (a pg) = true.

(** The name a project may be created under, as the handler decides it. *)
Definition accepted_name (v : Value) : option string :=
  match v with
  | Some (JStr n) => if n =? "" then None else Some n
  | _ => None
  end.

(** ** Sample data *)

Definition ex_row : ProjectRow :=
  mkProjectRow "proj-1" "Core Platform" None "2026-01-01T10:00:00.000Z"
    "2026-01-01T10:00:00.000Z" None None.

Definition ex_backup : Json :=
  JObj [("projects",
         JArr [JObj [("id", JStr "proj-1"); ("name", JStr "Core");
                     ("description", JNull);
                     ("createdAt", JStr "2026-01-01T10:00:00.000Z");
                     ("updatedAt", JStr "2026-01-01T10:00:00.000Z")]]);
        ("models",
         JArr [JObj [("id", JStr "model-1"); ("projectId", JStr "proj-1");
                     ("name", JStr "System View"); ("description", JNull);
                     ("model", createEmptyModel);
                     ("createdAt", JStr "2026-01-01T10:00:00.000Z");
                     ("updatedAt", JStr "2026-01-01T10:00:00.000Z")]])].

(** A backup whose model refers to a project that is not in it. *)
Definition ex_bad_backup : Json :=
  JObj [("projects",
         JArr [JObj [("id", JStr "proj-1"); ("name", JStr "Core")]]);
        ("models",
         JArr [JObj [("id", JStr "model-1"); ("projectId", JStr "proj-9");
                     ("name", JStr "System View")]])].

(** A database holding one project and one model of it. *)
Definition ex_db : Db :=
  mkDb [mkProjectRow "old-1" "Legacy" None "2025-06-01T00:00:00.000Z"
          "2025-06-01T00:00:00.000Z" None None]
       [mkModelRow "old-m" "old-1" "Overview" None "{}"
          "2025-06-01T00:00:00.000Z" "2025-06-01T00:00:00.000Z"].

Definition ex_pg : Pg :=
  mkPg ex_db None [] [] "2026-02-01T00:00:00.000Z" true 0.

(** A no-break space (U+00A0), a line separator (U+2028) and a byte order
    mark (U+FEFF). *)
Definition ex_nbsp : string :=
  String (ascii_of_nat 194) (String (ascii_of_nat 160) EmptyString).
Definition ex_line_separator : string :=
  String (ascii_of_nat 226)
    (String (ascii_of_nat 128) (String (ascii_of_nat 168) EmptyString)).
Definition ex_bom : string :=
  String (ascii_of_nat 239)
    (String (ascii_of_nat 187) (String (ascii_of_nat 191) EmptyString)).

End Server.

(* ===================================================================== *)
(** * Part II-b: the update routes, the client of the API, the form dialog,
      the backup *)
(* ===================================================================== *)

Module Routes.
Import Server.

(** ** [PUT /api/projects/:projectId], lines 234-258

    The one statement of the handler is

      UPDATE projects SET name = $2, description = $3, updated_at = now()
      WHERE id = $1
      RETURNING id, name, description, created_at, updated_at

    [update] is [pool.query] applied to it and to its parameters; the
    [rowCount] of such a statement is the number of rows it returns. *)

Section Handlers.
Context {P : Type} (update : list Value -> P -> P * QueryOutcome).

Definition put_project (projectId : string) (reqBody : Value) (pool : P)
  : P * Response :=
  let b := nullish reqBody (JObj []) in
  let name := member "name" b in
  let description := member "description" b in
  if negb (js_truthy name) || negb (is_string name) then
    (pool, mkResponse 400 (ErrorBody "Project name is required."))
  else
    match name with
    | Some (JStr name) =>
        let '(pool1, result) :=
          update [Some (JStr projectId); Some (JStr (trim name));
                  Some (nullish description JNull)] pool in
        match result with
        | Rows [] => (pool1, mkResponse 404 (ErrorBody "Project not found."))
        | Rows (row :: _) => (pool1, mkResponse 200 (ProjectBody (mapProjectRow row)))
        | Throws => (pool1, internal_error)
        end
    | _ => (pool, mkResponse 400 (ErrorBody "Project name is required."))
    end.

End Handlers.

(** The statement against the tables of [ensureSchema]: every project with
    the given id gets the name, the description and the clock as its time
    of update, and is returned with the five columns of the RETURNING
    clause, which has no count in it; the models are not touched.  A
    parameter that breaks NOT NULL makes the statement fail. *)
Definition update_project (clock : string) (vals : list Value) (d : Db)
  : Db * QueryOutcome :=
  match vals with
  | [i; n; desc] =>
      match sql_text i, sql_text n with
      | Some i, Some n =>
          let touch r :=
            mkProjectRow (row_id r) n (sql_text desc) (created_at r) clock
              None None in
          (mkDb (map (fun r => if row_id r =? i then touch r else r) (projects_tbl d))
             (models_tbl d),
           Rows (map touch (filter (fun r => row_id r =? i) (projects_tbl d))))
      | _, _ => (d, Throws)
      end
  | _ => (d, Throws)
  end.

(** ** [PUT /api/models/:modelId], lines 335-381, up to the query

    The handler builds the SET clause and the parameters side by side. *)

Record Built := mkBuilt {
  updates : list string;
  vals : list Value;
  index : nat
}.

(** [updates.push(`col = $${index}cast`); values.push(v); index += 1] *)
Definition push (col cast : string) (v : Value) (b : Built) : Built :=
  mkBuilt
    (updates b ++ [col ++ " = $" ++ string_of_Z (Z.of_nat (index b)) ++ cast])
    (vals b ++ [v])
    (index b + 1).

Definition put_model_build (modelId : string) (reqBody : Value) : Built :=
  let b := nullish reqBody (JObj []) in
  let name := member "name" b in
  let description := member "description" b in
  let model := member "model" b in
  let b0 := mkBuilt [] [Some (JStr modelId)] 2 in
  let b1 := match name with
            | Some (JStr n) => push "name" "" (Some (JStr (trim n))) b0
            | _ => b0
            end in
  let b2 := match description with
            | Some _ => push "description" "" (Some (nullish description JNull)) b1
            | None => b1
            end in
  match model with
  | Some m => push "model_data" "::jsonb" (Some (JStr (stringify m))) b2
  | None => b2
  end.

(** What the handler sends to the pool, or the answer it gives without
    contacting it. *)
Definition put_model_query (modelId : string) (reqBody : Value)
  : Response + (list string * list Value) :=
  let b := put_model_build modelId reqBody in
  match updates b with
  | [] => inl (mkResponse 400 (ErrorBody "No fields to update."))
  | _ :: _ => inr ((updates b ++ ["updated_at = now()"])%list, vals b)
  end.

End Routes.

Module Client.
Import Server.

(** ** [requestJson], src/api/api.ts, lines 19-45 *)

(** What [fetch] resolves to, as far as [requestJson] looks at it: the
    status, the status text, and what [response.json()] resolves to
    ([None] when it rejects: the body is not JSON). *)
Record HttpResponse := mkHttp {
  http_status : nat;
  statusText : string;
  payload : option Json
}.

(** [response.ok] *)
Definition ok (r : HttpResponse) : bool :=
  ((200 <=? http_status r) && (http_status r <=? 299))%nat.

(** [String(v)], which [new Error(message)] applies to its argument. *)
Fixpoint to_string (j : Json) : string :=
  match j with
  | JNull => "null"
  | JBool true => "true"
  | JBool false => "false"
  | JNum z => string_of_Z z
  | JStr s => s
  | JArr items =>
      (fix elements (l : list Json) : string :=
         match l with
         | [] => ""
         | [x] => match x with JNull => "" | _ => to_string x end
         | x :: rest =>
             match x with JNull => "" | _ => to_string x end ++ "," ++ elements rest
         end) items
  | JObj _ => "[object Object]"
  end.

(** The message of the [ApiError], lines 29-35: the status text, unless
    the body is JSON, is not null (reading a property of null throws, and
    the [catch] ignores it) and has a truthy [error]. *)
Definition error_message (r : HttpResponse) : string :=
  match payload r with
  | None => statusText r
  | Some JNull => statusText r
  | Some j =>
      match member "error" j with
      | Some e => if js_truthy (Some e) then to_string e else statusText r
      | None => statusText r
      end
  end.

(** [requestJson]; [None] is [undefined], [syntax] the message of the
    SyntaxError of [response.json()]. *)
Definition requestJson (syntax : string) (r : HttpResponse)
  : Controller.Result (option Json) :=
  if negb (ok r) then
    Controller.Rejected (Controller.ApiError (error_message r) (http_status r))
  else if (http_status r =? 204)%nat then Controller.Resolved None
  else
    match payload r with
    | Some j => Controller.Resolved (Some j)
    | None => Controller.Rejected (Controller.JsErr syntax)
    end.

(** ** The wire *)

(** [res.status(s).json(body)] as [fetch] shows it; [reason] is the status
    text that goes with a status. *)
Definition json_of_option (o : option string) : Json :=
  match o with
  | Some s => JStr s
  | None => JNull
  end.

Definition json_of_body (b : Body) : Json :=
  match b with
  | ErrorBody e => JObj [("error", JStr e)]
  | ProjectBody p =>
      JObj [("id", JStr (id p)); ("name", JStr (name p));
            ("description", json_of_option (description p));
            ("createdAt", JStr (createdAt p)); ("updatedAt", JStr (updatedAt p));
            ("modelCount", JNum (modelCount p))]
  | RestoredBody st projects models =>
      JObj [("status", JStr st); ("projects", JNum (Z.of_nat projects));
            ("models", JNum (Z.of_nat models))]
  end.

Definition wire (reason : nat -> string) (r : Response) : HttpResponse :=
  mkHttp (status r) (reason (status r)) (Some (json_of_body (body r))).

(** The project summary the controller holds once it has read the one the
    server sent. *)
Definition summary_of (p : ProjectSummary) : Controller.ProjectSummary :=
  Controller.mkProject (id p) (name p) (description p) (createdAt p)
    (updatedAt p) (modelCount p).

(** [JSON.stringify(payload)] as [express.json()] reads it back: a member
    that is undefined is left out.  [enc] is the JSON of a diagram. *)
Definition json_of_payload (p : Controller.EntityPayload) : Json :=
  JObj (("name", JStr (Controller.p_name p)) ::
        match Controller.p_description p with
        | Some d => [("description", json_of_option d)]
        | None => []
        end).

Definition json_of_patch (enc : Controller.FlatC4Model -> Json)
    (p : Controller.ModelPatch) : Json :=
  JObj (match Controller.patch_name p with
        | Some n => [("name", JStr n)]
        | None => []
        end ++
        match Controller.patch_description p with
        | Some d => [("description", json_of_option d)]
        | None => []
        end ++
        match Controller.patch_model p with
        | Some m => [("model", enc m)]
        | None => []
        end)%list.

(** ** The form dialog (the component [EntityFormDialog]) *)

(** [handleSave], lines 36-41: what is handed to [onSave], if anything.
    [handleProjectSubmit] and [handleModelSubmit] pass it on as the payload
    [{ name, description }]. *)
Definition handleSave (name description : string)
  : option Controller.EntityPayload :=
  let trimmedName := trim name in
  if trimmedName =? "" then None
  else
    let trimmedDescription := trim description in
    Some (Controller.mkPayload trimmedName
            (Some (if trimmedDescription =? "" then None
                   else Some trimmedDescription))).

End Client.

Module Backup.
Import Server.

(** ** [GET /api/backup], lines 398-422

    [parse] is [JSON.parse], [None] when it throws.  The driver hands the
    [jsonb] column over decoded; the two SELECTs have no condition and the
    rows come in the order of the tables. *)

Section BackupRoute.
Variable parse : string -> option Json.

(** [parseJson], lines 99-104. *)
Definition parseJson (v : Json) : option Json :=
  match v with
  | JStr s => parse s
  | _ => Some v
  end.

(** [row.model_data ? parseJson(row.model_data) : undefined], line 131:
    [None] is a throw, [Some None] is [undefined]. *)
Definition model_member (model_data : Value) : option Value :=
  if js_truthy model_data then
    match model_data with
    | Some v => option_map Some (parseJson v)
    | None => Some None
    end
  else Some None.

(** [mapModelRow], lines 124-132, as [JSON.stringify] prints it: a member
    that is undefined is left out. *)
Definition model_json (r : ModelRow) : option Json :=
  match model_member (parse (model_data r)) with
  | Some model =>
      Some (JObj ([("id", JStr (mrow_id r)); ("projectId", JStr (project_id r));
                   ("name", JStr (mrow_name r));
                   ("description", Client.json_of_option (mrow_description r));
                   ("createdAt", JStr (mrow_created_at r));
                   ("updatedAt", JStr (mrow_updated_at r))] ++
                  match model with
                  | Some m => [("model", m)]
                  | None => []
                  end))
  | None => None
  end.

Fixpoint models_json (rows : list ModelRow) : option (list Json) :=
  match rows with
  | [] => Some []
  | r :: rest =>
      match model_json r, models_json rest with
      | Some j, Some js => Some (j :: js)
      | _, _ => None
      end
  end.

Definition project_json (r : ProjectRow) : Json :=
  Client.json_of_body (ProjectBody (mapProjectRow r)).

(** The body of the answer; [None] when mapping a row throws, which ends
    in a 500. *)
Definition get_backup (now : string) (d : Db) : option Json :=
  match models_json (models_tbl d) with
  | Some models =>
      Some (JObj [("backupVersion", JNum 1); ("exportedAt", JStr now);
                  ("projects", JArr (map project_json (projects_tbl d)));
                  ("models", JArr models)])
  | None => None
  end.

(** A model row whose diagram went through [parse] and [JSON.stringify]. *)
Definition reencode (r : ModelRow) : ModelRow :=
  mkModelRow (mrow_id r) (project_id r) (mrow_name r) (mrow_description r)
    (match parse (model_data r) with
     | Some v => stringify v
     | None => model_data r
     end)
    (mrow_created_at r) (mrow_updated_at r).

End BackupRoute.

(** The tables as [ensureSchema] constrains them: ids are keys, a model
    refers to a project that is there, a stored project has no count. *)
Definition WellFormed (d : Db) : Prop :=
  NoDup (map row_id (projects_tbl d)) /\
  NoDup (map mrow_id (models_tbl d)) /\
  (forall m, In m (models_tbl d) -> has_project (project_id m) d = true) /\
  (forall p, In p (projects_tbl d) ->
     model_count p = None /\ row_modelCount p = None).

(** A [JSON.parse] for the sample data: it knows the empty object. *)
Definition ex_parse (s : string) : option Json :=
  if s =? "{}" then Some (JObj []) else None.

End Backup.

(* ===================================================================== *)
(** * Part III: properties of the controller *)
(* ===================================================================== *)

Section ControllerProperties.
Import Controller.
Local Open Scope task_scope.
Local Open Scope list_scope.

Ltac unfold_task :=
  try unfold loadModel_finally in *; try unfold bind in *;
  try unfold read in *; try unfold act in *; try unfold ret in *;
  try unfold await in *.

Ltac run_task :=
  repeat first
    [ progress unfold_task
    | progress cbn -[Nat.eqb String.eqb Pos.eqb] in * ].

Ltac split_store :=
  unfold setModel, mutateStore, storeListener, queueSave, setTimeout,
    clearTimeout;
  cbn -[Nat.eqb String.eqb Pos.eqb];
  repeat match goal with
         | |- context [if ?b then _ else _] => destruct b eqn:?
         | |- context [match saveTimeoutRef ?s with _ => _ end] =>
             destruct (saveTimeoutRef s) eqn:?
         end;
  cbn -[Nat.eqb String.eqb Pos.eqb].

(** ** The store and its listener *)

(** A mutation of the store replaces the model; through the listener it
    may touch the debounce timer, and nothing else. *)
Lemma mutateStore_frame (m : FlatC4Model) (s : Ctl) :
  st (mutateStore m s) = st s /\
  storeModel (mutateStore m s) = m /\
  subscribed (mutateStore m s) = subscribed s /\
  now (mutateStore m s) = now s /\
  activeProjectIdRef (mutateStore m s) = activeProjectIdRef s /\
  activeModelIdRef (mutateStore m s) = activeModelIdRef s /\
  isHydratingRef (mutateStore m s) = isHydratingRef s /\
  loadTokenRef (mutateStore m s) = loadTokenRef s.
Proof. split_store; repeat split; try reflexivity; congruence. Qed.

(** Under the hydration guard the listener does nothing at all: only the
    model of the store changes. *)
Lemma mutateStore_hydrating (m : FlatC4Model) (s : Ctl) :
  isHydratingRef s = true ->
  mutateStore m s = set_storeModel m s.
Proof.
  intros H. unfold mutateStore, storeListener. cbn. rewrite H.
  destruct (subscribed s); reflexivity.
Qed.

Lemma setModel_st (m : FlatC4Model) (s : Ctl) : st (setModel m s) = st s.
Proof. apply mutateStore_frame. Qed.

Lemma setModel_store (m : FlatC4Model) (s : Ctl) :
  storeModel (env (setModel m s)) = m.
Proof. apply mutateStore_frame. Qed.

(** ** Load tokens *)

Lemma loadModel_issues (modelId : Id) (s : Ctl) :
  loadModel modelId s =
  Susp (set_isHydratingRef true
          (setIsLoadingModel true (set_loadTokenRef (loadTokenRef s + 1) s)))
       (fetchModel modelId) (loadModel_resume (loadTokenRef s + 1)).
Proof. reflexivity. Qed.

(** A load that is no longer the latest one changes nothing but, when its
    fetch failed, the error cell. *)
Lemma superseded_load_discarded (tok : nat) (out : Result ModelSummary) (s : Ctl) :
  loadTokenRef s <> tok ->
  exists s', loadModel_resume tok out s = Fin s' tt /\
             refs s' = refs s /\ env s' = env s /\
             (forall data, out = Resolved data -> s' = s).
Proof.
  intros Hne. apply Nat.eqb_neq in Hne.
  destruct out as [data | err]; repeat (run_task; rewrite ?Hne).
  - exists s. repeat split; reflexivity.
  - eexists. repeat split; try reflexivity. intros data H; discriminate H.
Qed.

(** The latest load, when its fetch succeeds, installs the fetched model
    and clears the hydration guard afterwards. *)
Lemma current_load_writes (data : ModelSummary) (s : Ctl) :
  loadModel_resume (loadTokenRef s) (Resolved data) s =
  Fin (setIsLoadingModel false
         (set_isHydratingRef false
            (setSaveStatus Idle (setModel (model_or_empty data) s)))) tt.
Proof.
  run_task. rewrite Nat.eqb_refl. run_task.
  destruct (mutateStore_frame (model_or_empty data) s)
    as (_ & _ & _ & _ & _ & _ & _ & Htok).
  unfold setModel. rewrite Htok, Nat.eqb_refl. reflexivity.
Qed.

(** The latest load, when its fetch fails, leaves the store alone. *)
Lemma current_load_fails (err : JsError) (s : Ctl) :
  loadModel_resume (loadTokenRef s) (Rejected err) s =
  Fin (setIsLoadingModel false
         (set_isHydratingRef false
            (setError (Some (getErrorMessage err)) s))) tt.
Proof. run_task. rewrite Nat.eqb_refl. reflexivity. Qed.


(** ** The hydration guard *)

(** While the load carrying [tok] is in flight, the token never goes back
    below [tok], and as long as it is [tok] the guard stays set. *)
Lemma guard_held (tok : nat) (s s2 : Ctl) :
  Interleaved tok s s2 ->
  loadTokenRef s = tok -> isHydratingRef s = true ->
  tok <= loadTokenRef s2 /\ (loadTokenRef s2 = tok -> isHydratingRef s2 = true).
Proof.
  intros H Htok Hhyd. induction H as [s | s s1 s2 _ IH Hh Ht | s s1 m _ IH | s s1 tok' out _ IH Hne].
  - split; [lia | auto].
  - specialize (IH Htok Hhyd). rewrite Hh, Ht. exact IH.
  - specialize (IH Htok Hhyd). rewrite loadModel_issues. cbn. split; [lia | intros; lia].
  - specialize (IH Htok Hhyd). destruct IH as [Hle Hkeep].
    destruct (Nat.eq_dec (loadTokenRef s1) tok') as [Heq | Hneq].
    + subst tok'. destruct out as [data | err].
      * rewrite current_load_writes. cbn.
        destruct (mutateStore_frame (model_or_empty data) s1)
          as (_ & _ & _ & _ & _ & _ & _ & Ht).
        unfold setModel. rewrite Ht. split; [exact Hle | intros E; congruence].
      * rewrite current_load_fails. cbn. split; [exact Hle | intros E; congruence].
    + destruct (superseded_load_discarded tok' out s1 Hneq) as (s' & Hs' & Hrefs & _).
      rewrite Hs'. cbn.
      change (tok <= loadTokenRef (refs s') /\
              (loadTokenRef (refs s') = tok -> isHydratingRef (refs s') = true)).
      rewrite Hrefs. split; assumption.
Qed.

Ltac keeps_guard :=
  repeat (run_task;
          match goal with
          | |- _ /\ _ => split
          | |- forall _, _ => intro
          | |- context [match ?x with _ => _ end] => destruct x eqn:?
          | |- context [mutateStore ?m ?s] =>
              let H := fresh "Hframe" in
              pose proof (mutateStore_frame m s) as H;
              generalize dependent (mutateStore m s); intros
          end);
  try reflexivity; try tauto.

(** No callback other than [loadModel] writes the flag or the token. *)
Lemma saveModelNow_keeps_guard m s : KeepsGuard s (saveModelNow m s).
Proof. unfold saveModelNow. keeps_guard. Qed.

Lemma saveCurrentModel_keeps_guard s : KeepsGuard s (saveCurrentModel s).
Proof. unfold saveCurrentModel, saveModelNow. keeps_guard. Qed.

Lemma selectProject_keeps_guard p s : KeepsGuard s (selectProject p s).
Proof. unfold selectProject, saveCurrentModel, saveModelNow. keeps_guard. Qed.

Lemma selectModel_keeps_guard m s : KeepsGuard s (selectModel m s).
Proof. unfold selectModel, saveCurrentModel, saveModelNow. keeps_guard. Qed.

Lemma fireTimer_keeps_guard h s : KeepsGuard s (fireTimer h s).
Proof. unfold fireTimer, saveModelNow. keeps_guard. Qed.

Lemma refreshProjects_keeps_guard s : KeepsGuard s (refreshProjects s).
Proof. unfold refreshProjects. keeps_guard. Qed.

Lemma refreshModels_keeps_guard p s : KeepsGuard s (refreshModels p s).
Proof. unfold refreshModels. keeps_guard. Qed.

Lemma handleCreateProject_keeps_guard p s : KeepsGuard s (handleCreateProject p s).
Proof. unfold handleCreateProject. keeps_guard. Qed.

Lemma handleUpdateProject_keeps_guard i p s : KeepsGuard s (handleUpdateProject i p s).
Proof. unfold handleUpdateProject. keeps_guard. Qed.

Lemma handleDeleteProject_keeps_guard i s : KeepsGuard s (handleDeleteProject i s).
Proof. unfold handleDeleteProject, setModel. keeps_guard. Qed.

Lemma handleCreateModel_keeps_guard i p s : KeepsGuard s (handleCreateModel i p s).
Proof. unfold handleCreateModel. keeps_guard. Qed.

Lemma handleUpdateModel_keeps_guard i p s : KeepsGuard s (handleUpdateModel i p s).
Proof. unfold handleUpdateModel. keeps_guard. Qed.

Lemma handleDeleteModel_keeps_guard i s : KeepsGuard s (handleDeleteModel i s).
Proof. unfold handleDeleteModel, setModel. keeps_guard. Qed.

Lemma onActiveProjectChange_keeps_guard r s : KeepsGuard s (onActiveProjectChange r s).
Proof. unfold onActiveProjectChange, refreshModels, setModel. keeps_guard. Qed.

(** The synchronous effects and the cleanup keep them as well. *)
Lemma reconcile_keeps_guard r s :
  (isHydratingRef (reconcileProjects r s) = isHydratingRef s /\
   loadTokenRef (reconcileProjects r s) = loadTokenRef s) /\
  (isHydratingRef (reconcileModels r s) = isHydratingRef s /\
   loadTokenRef (reconcileModels r s) = loadTokenRef s) /\
  (isHydratingRef (unsubscribeStore s) = isHydratingRef s /\
   loadTokenRef (unsubscribeStore s) = loadTokenRef s).
Proof.
  unfold reconcileProjects, reconcileModels, unsubscribeStore, setModel.
  keeps_guard.
Qed.

(** C3.  A load never schedules a save.  [loadModel] suspends on the fetch
    with the hydration guard set.  Let anything happen while the fetch is in
    flight (edits, timers, saves, other callbacks, other loads being issued
    or settling): if this load is still the latest one when its fetch
    succeeds, it installs the fetched model and returns without issuing any
    request, the pending timers and the timer ref are exactly what they were
    before the store was written, the save status is idle, and the guard is
    cleared only after the write. *)
Theorem load_never_schedules_save :
  forall (s : Ctl) (modelId : Id) (s2 : Ctl) (data : ModelSummary),
    Interleaved (loadTokenRef s + 1) (state_of (loadModel modelId s)) s2 ->
    loadTokenRef s2 = loadTokenRef s + 1 ->
    issued (loadModel modelId s) = Some (CallFetchModel modelId) /\
    isHydratingRef (state_of (loadModel modelId s)) = true /\
    exists s3,
      loadModel_resume (loadTokenRef s + 1) (Resolved data) s2 = Fin s3 tt /\
      storeModel s3 = model_or_empty data /\
      timers s3 = timers s2 /\
      saveTimeoutRef s3 = saveTimeoutRef s2 /\
      saveStatus s3 = Idle /\
      isHydratingRef s3 = false.
Proof.
  intros s modelId s2 data Hil Htok.
  split; [reflexivity | split; [reflexivity | ]].
  assert (Hhyd : isHydratingRef s2 = true).
  { apply (guard_held _ _ _ Hil); [reflexivity | reflexivity | exact Htok]. }
  rewrite <- Htok, current_load_writes. eexists. split; [reflexivity | ].
  unfold setModel. rewrite (mutateStore_hydrating _ _ Hhyd). cbn.
  repeat split; reflexivity.
Qed.

(** The witness: the load of "m1" is issued, the user edits the diagram
    while the fetch is in flight, the fetch succeeds. *)
Lemma load_never_schedules_save_witness :
  exists s3,
    loadModel_resume 1 (Resolved ex_detail)
      (mutateStore ex_edit (state_of (loadModel "m1" ex_active))) = Fin s3 tt /\
    timers s3 = [] /\ saveStatus s3 = Idle.
Proof.
  destruct (load_never_schedules_save ex_active "m1"
              (mutateStore ex_edit (state_of (loadModel "m1" ex_active)))
              ex_detail) as (_ & _ & s3 & H1 & _ & H3 & _ & H5 & _).
  - eapply il_other; [apply il_here | reflexivity | reflexivity].
  - reflexivity.
  - exists s3. split; [exact H1 | split; [exact H3 | exact H5]].
Defined.

(** ** Debounce *)

Lemma tracked_at_most_one (s : Ctl) :
  TimerTracked s -> List.length (timers s) <= 1.
Proof.
  intros [H | (t & H & _)]; rewrite H; cbn; lia.
Qed.

(** Cancelling the timer the ref designates empties the pending list. *)
Lemma tracked_clear (s : Ctl) (h : positive) :
  TimerTracked s -> saveTimeoutRef s = Some h ->
  filter (fun t => negb (Pos.eqb (t_id t) h)) (timers s) = [].
Proof.
  intros [H | (t & H & Href)] Hh; rewrite H; cbn; [reflexivity | ].
  rewrite Hh in Href. injection Href as ->. now rewrite Pos.eqb_refl.
Qed.

(** [queueSave] with a model active: one timer, the new one, carrying the
    snapshot it was given. *)
Lemma queueSave_arms (m : FlatC4Model) (s : Ctl) (mid : Id) :
  activeModelIdRef s = Some mid -> mid <> "" -> TimerTracked s ->
  queueSave m s =
  set_saveTimeoutRef (Some (nextTimer s))
    (set_nextTimer (Pos.succ (nextTimer s))
       (set_timers [mkTimer (nextTimer s) DEBOUNCE_MS m] s)).
Proof.
  intros Hact Hne Htr. unfold queueSave, truthy. rewrite Hact.
  apply String.eqb_neq in Hne. rewrite Hne. cbn.
  destruct (saveTimeoutRef s) as [h | ] eqn:Href.
  - unfold setTimeout, clearTimeout. cbn.
    rewrite (tracked_clear s h Htr Href). reflexivity.
  - destruct Htr as [H | (t & _ & H)]; [ | congruence].
    unfold setTimeout. cbn. rewrite H. reflexivity.
Qed.

Lemma edit_arms (m : FlatC4Model) (s : Ctl) (mid : Id) :
  Editing s mid ->
  Editing (mutateStore m s) mid /\
  timers (mutateStore m s) = [mkTimer (nextTimer s) DEBOUNCE_MS m] /\
  saveTimeoutRef (mutateStore m s) = Some (nextTimer s).
Proof.
  intros (Hact & Hne & Hsub & Hhyd & Htr).
  unfold mutateStore, storeListener. cbn. rewrite Hsub, Hhyd.
  rewrite (queueSave_arms m (set_storeModel m s) mid Hact Hne Htr). cbn.
  repeat split; auto.
  right. eexists. split; reflexivity.
Qed.

Lemma burst_editing (ms : list FlatC4Model) (s : Ctl) (mid : Id) :
  Editing s mid -> Editing (burst ms s) mid.
Proof.
  revert s. induction ms as [ | m ms IH]; intros s H; cbn; [exact H | ].
  apply IH. now apply edit_arms.
Qed.

Lemma burst_snoc (ms : list FlatC4Model) (m : FlatC4Model) (s : Ctl) :
  burst (ms ++ [m]) s = mutateStore m (burst ms s).
Proof. unfold burst. now rewrite fold_left_app. Qed.

(** The timer firing with a model active: one write, of the snapshot the
    timer carried, and nothing after it. *)
Lemma fireTimer_writes (s : Ctl) (mid : Id) (t : Timer) :
  activeModelIdRef s = Some mid -> mid <> "" -> timers s = [t] ->
  exists s1 k,
    fireTimer (t_id t) s = Susp s1 (updateModel mid (save_patch (t_snapshot t))) k /\
    timers s1 = [] /\
    forall out s2, issued (k out s2) = None.
Proof.
  intros Hact Hne Ht. apply String.eqb_neq in Hne.
  unfold fireTimer, saveModelNow, nonfalsy, truthy. run_task.
  rewrite Ht. cbn -[String.eqb]. rewrite Pos.eqb_refl. run_task.
  rewrite Hact, Hne. run_task.
  eexists. eexists. split; [reflexivity | ]. split.
  - cbn. rewrite Ht. cbn. now rewrite Pos.eqb_refl.
  - intros [r | e] s2; reflexivity.
Qed.

Lemma fireTimer_not_pending (s : Ctl) (h : positive) :
  (forall t, In t (timers s) -> t_id t <> h) ->
  fireTimer h s = Fin s tt.
Proof.
  intros H. unfold fireTimer. run_task.
  destruct (find _ (timers s)) as [t | ] eqn:Hf; [ | reflexivity].
  apply find_some in Hf. destruct Hf as [Hin Heq].
  apply Pos.eqb_eq in Heq. now apply H in Hin.
Qed.

(** C4.  A burst of qualifying mutations, the last of which is [m], made
    while model [mid] is active.  At every point of the burst at most one
    timer is pending; after each mutation the pending timer is a new 600 ms
    timer carrying that mutation's snapshot, and the ref designates it; when
    the timer left by the burst fires, the callback suspends on one
    update-model request carrying [m] and issues nothing more once the
    request has settled; no other timer is left that could fire, so no
    earlier snapshot is written. *)
Theorem debounce_coalesces :
  forall (s : Ctl) (mid : Id) (ms : list FlatC4Model) (m : FlatC4Model),
    activeModelIdRef s = Some mid -> mid <> "" ->
    subscribed s = true -> isHydratingRef s = false -> TimerTracked s ->
    let s' := burst (ms ++ [m]) s in
    (forall pre post, ms ++ [m] = pre ++ post ->
       List.length (timers (burst pre s)) <= 1) /\
    (forall pre x post, ms ++ [m] = pre ++ x :: post ->
       exists h, timers (burst (pre ++ [x]) s) = [mkTimer h 600 x] /\
                 saveTimeoutRef (burst (pre ++ [x]) s) = Some h) /\
    exists h,
      timers s' = [mkTimer h 600 m] /\
      (exists s1 k,
          fireTimer h s' = Susp s1 (updateModel mid (save_patch m)) k /\
          timers s1 = [] /\
          forall out s2, issued (k out s2) = None) /\
      (forall h', h' <> h -> fireTimer h' s' = Fin s' tt).
Proof.
  intros s mid ms m Hact Hne Hsub Hhyd Htr s'.
  assert (Hed : Editing s mid) by (repeat split; assumption).
  assert (Hstep : forall pre x,
             timers (burst (pre ++ [x]) s) =
               [mkTimer (nextTimer (burst pre s)) 600 x] /\
             saveTimeoutRef (burst (pre ++ [x]) s) = Some (nextTimer (burst pre s))).
  { intros pre x. rewrite burst_snoc.
    destruct (edit_arms x (burst pre s) mid (burst_editing pre s mid Hed))
      as (_ & H1 & H2). split; assumption. }
  split; [ | split].
  - intros pre post _. apply tracked_at_most_one.
    apply (burst_editing pre s mid Hed).
  - intros pre x post _. eexists. apply Hstep.
  - exists (nextTimer (burst ms s)).
    destruct (Hstep ms m) as [Ht Href]. fold s' in Ht, Href.
    split; [exact Ht | split].
    + destruct (burst_editing (ms ++ [m]) s mid Hed) as (Hact' & _).
      fold s' in Hact'.
      destruct (fireTimer_writes s' mid _ Hact' Hne Ht) as (s1 & k & H1 & H2 & H3).
      exists s1, k. cbn in H1. auto.
    + intros h' Hh'. apply fireTimer_not_pending.
      intros t Hin. rewrite Ht in Hin. destruct Hin as [<- | []]. cbn. congruence.
Qed.

(** The witness: two edits of the diagram of "m1". *)
Lemma debounce_coalesces_witness :
  activeModelIdRef ex_active = Some "m1" /\ "m1" <> "" /\
  subscribed ex_active = true /\ isHydratingRef ex_active = false /\
  TimerTracked ex_active /\
  exists h,
    timers (burst ([ex_edit] ++ [ex_edit2]) ex_active) = [mkTimer h 600 ex_edit2] /\
    issued (fireTimer h (burst ([ex_edit] ++ [ex_edit2]) ex_active)) =
      Some (CallUpdateModel "m1" (save_patch ex_edit2)).
Proof.
  assert (H2 : "m1" <> "") by discriminate.
  assert (H5 : TimerTracked ex_active) by (left; reflexivity).
  repeat (split; [first [reflexivity | assumption] | ]).
  destruct (debounce_coalesces ex_active "m1" [ex_edit] ex_edit2
              eq_refl H2 eq_refl eq_refl H5) as (_ & _ & h & Ht & (s1 & k & Hf & _) & _).
  exists h. split; [exact Ht | ]. rewrite Hf. reflexivity.
Defined.

(** ** The timer discipline is an invariant

    Whatever the callbacks, the effects and the browser do, in whatever
    order, a pending timer is the one the ref designates. *)

Lemma tracked_ext (s s' : Ctl) :
  timers s' = timers s -> saveTimeoutRef s' = saveTimeoutRef s ->
  TimerTracked s -> TimerTracked s'.
Proof. unfold TimerTracked. intros -> ->. exact (fun H => H). Qed.

Lemma tracked_cleared (s : Ctl) (h : positive) :
  TimerTracked s -> saveTimeoutRef s = Some h ->
  TimerTracked (set_saveTimeoutRef None (clearTimeout h s)).
Proof.
  intros Htr Href. left. cbn. apply (tracked_clear s h Htr Href).
Qed.

Lemma tracked_mutateStore (m : FlatC4Model) (s : Ctl) :
  TimerTracked s -> TimerTracked (mutateStore m s).
Proof.
  intros Htr. unfold mutateStore, storeListener. cbn.
  destruct (subscribed s); [ | exact Htr].
  destruct (isHydratingRef s); [exact Htr | ].
  unfold queueSave. cbn.
  destruct (truthy (activeModelIdRef s)); cbn [negb]; [ | exact Htr].
  right. unfold setTimeout, clearTimeout.
  destruct (saveTimeoutRef s) as [h | ] eqn:Href; cbn.
  - rewrite (tracked_clear s h Htr Href). eexists. split; reflexivity.
  - destruct Htr as [Hnil | (t & _ & H)]; [ | congruence].
    rewrite Hnil. eexists. split; reflexivity.
Qed.

Lemma tracked_fired (s : Ctl) (h : positive) :
  TimerTracked s -> TimerTracked (clearTimeout h s).
Proof.
  intros [Hnil | (t & Ht & Href)]; unfold clearTimeout; cbn.
  - left. cbn. now rewrite Hnil.
  - rewrite Ht. cbn. destruct (Pos.eqb (t_id t) h); cbn.
    + now left.
    + right. exists t. auto.
Qed.

Ltac tracked :=
  repeat first
    [ assumption
    | match goal with
      | |- _ /\ _ => split
      | |- forall _, _ => intro
      | |- TimerTracked (mutateStore _ _) => apply tracked_mutateStore
      | |- TimerTracked (setModel _ _) => apply tracked_mutateStore
      | H : saveTimeoutRef (refs ?s) = Some ?h
        |- TimerTracked (set_saveTimeoutRef None (clearTimeout ?h ?s)) =>
          apply (tracked_cleared s h); [ | exact H]
      | |- TimerTracked (clearTimeout _ _) => apply tracked_fired
      | |- TimerTracked (?f ?v ?s) =>
          apply (tracked_ext s); [reflexivity | reflexivity | ]
      | |- Preserves _ ?r =>
          match r with
          | context [match ?x with _ => _ end] => destruct x eqn:?
          end
      end
    | progress unfold_task
    | progress cbn [bindR Preserves] ].

Lemma saveModelNow_tracked m s :
  TimerTracked s -> Preserves TimerTracked (saveModelNow m s).
Proof. intros H. unfold saveModelNow. tracked. Qed.

Lemma saveCurrentModel_tracked s :
  TimerTracked s -> Preserves TimerTracked (saveCurrentModel s).
Proof. intros H. unfold saveCurrentModel, saveModelNow. tracked. Qed.

Lemma selectProject_tracked p s :
  TimerTracked s -> Preserves TimerTracked (selectProject p s).
Proof. intros H. unfold selectProject, saveCurrentModel, saveModelNow. tracked. Qed.

Lemma selectModel_tracked m s :
  TimerTracked s -> Preserves TimerTracked (selectModel m s).
Proof. intros H. unfold selectModel, saveCurrentModel, saveModelNow. tracked. Qed.

Lemma fireTimer_tracked h s :
  TimerTracked s -> Preserves TimerTracked (fireTimer h s).
Proof. intros H. unfold fireTimer, saveModelNow. tracked. Qed.

Lemma loadModel_tracked m s :
  TimerTracked s -> Preserves TimerTracked (loadModel m s).
Proof. intros H. unfold loadModel, loadModel_resume. tracked. Qed.

Lemma refreshProjects_tracked s :
  TimerTracked s -> Preserves TimerTracked (refreshProjects s).
Proof. intros H. unfold refreshProjects. tracked. Qed.

Lemma refreshModels_tracked p s :
  TimerTracked s -> Preserves TimerTracked (refreshModels p s).
Proof. intros H. unfold refreshModels. tracked. Qed.

Lemma handleCreateProject_tracked p s :
  TimerTracked s -> Preserves TimerTracked (handleCreateProject p s).
Proof. intros H. unfold handleCreateProject. tracked. Qed.

Lemma handleUpdateProject_tracked i p s :
  TimerTracked s -> Preserves TimerTracked (handleUpdateProject i p s).
Proof. intros H. unfold handleUpdateProject. tracked. Qed.

Lemma handleDeleteProject_tracked i s :
  TimerTracked s -> Preserves TimerTracked (handleDeleteProject i s).
Proof. intros H. unfold handleDeleteProject. tracked. Qed.

Lemma handleCreateModel_tracked i p s :
  TimerTracked s -> Preserves TimerTracked (handleCreateModel i p s).
Proof. intros H. unfold handleCreateModel. tracked. Qed.

Lemma handleUpdateModel_tracked i p s :
  TimerTracked s -> Preserves TimerTracked (handleUpdateModel i p s).
Proof. intros H. unfold handleUpdateModel. tracked. Qed.

Lemma handleDeleteModel_tracked i s :
  TimerTracked s -> Preserves TimerTracked (handleDeleteModel i s).
Proof. intros H. unfold handleDeleteModel. tracked. Qed.

Lemma onActiveProjectChange_tracked r s :
  TimerTracked s -> Preserves TimerTracked (onActiveProjectChange r s).
Proof. intros H. unfold onActiveProjectChange, refreshModels. tracked. Qed.

Lemma onActiveModelChange_tracked r s :
  TimerTracked s -> Preserves TimerTracked (onActiveModelChange r s).
Proof.
  intros H. unfold onActiveModelChange.
  destruct (nonfalsy (activeModelId r)); [now apply loadModel_tracked | exact H].
Qed.

Lemma effects_tracked r s :
  TimerTracked s ->
  TimerTracked (syncActiveProjectIdRef r s) /\
  TimerTracked (syncActiveModelIdRef r s) /\
  TimerTracked (reconcileProjects r s) /\
  TimerTracked (reconcileModels r s) /\
  TimerTracked (idleWithoutModel r s) /\
  TimerTracked (subscribeStore r s) /\
  TimerTracked (unsubscribeStore s).
Proof.
  intros H. unfold reconcileProjects, reconcileModels, idleWithoutModel,
    subscribeStore, unsubscribeStore, syncActiveProjectIdRef, syncActiveModelIdRef.
  repeat split;
    repeat match goal with
           | |- context [if ?b then _ else _] => destruct b
           | |- context [match ?x with _ => _ end] => destruct x eqn:?
           end;
    tracked.
Qed.

(** The two effects of lines 101-107 make the refs mirror the rendered
    ids. *)
Lemma refs_follow_render (s : Ctl) :
  InSync (syncActiveModelIdRef s (syncActiveProjectIdRef s s)).
Proof. split; reflexivity. Qed.

(** ** Flush *)

(** C10.  [saveCurrentModel] with no active model returns without issuing
    a request and leaves the save status, the time of the last save and
    the error as they were; the pending timer, if there was one, is
    cancelled and the ref reset, so that afterwards no timer handle fires
    anything. *)
Theorem saveCurrentModel_without_model :
  forall (s : Ctl),
    activeModelIdRef s = None -> TimerTracked s ->
    exists s',
      saveCurrentModel s = Fin s' tt /\
      timers s' = [] /\ saveTimeoutRef s' = None /\
      saveStatus s' = saveStatus s /\
      lastSavedAt s' = lastSavedAt s /\
      error s' = error s /\
      forall h, fireTimer h s' = Fin s' tt.
Proof.
  intros s Hact Htr. unfold saveCurrentModel. run_task.
  destruct (saveTimeoutRef s) as [h | ] eqn:Href; run_task; rewrite Hact; run_task.
  - eexists. split; [reflexivity | ].
    assert (Hnil : timers (set_saveTimeoutRef None (clearTimeout h s)) = []).
    { cbn. apply (tracked_clear s h Htr Href). }
    repeat split; try reflexivity; try exact Hnil.
    intros h'. apply fireTimer_not_pending. rewrite Hnil. intros t [].
  - destruct Htr as [Hnil | (t & _ & H)]; [ | congruence].
    exists s. repeat split; auto.
    intros h'. apply fireTimer_not_pending. rewrite Hnil. intros t [].
Qed.

(** The witness: a timer is still armed for "m1" and the selection has
    been cleared. *)
Lemma saveCurrentModel_without_model_witness :
  activeModelIdRef ex_orphan = None /\ TimerTracked ex_orphan /\
  timers ex_orphan <> [] /\
  exists s', saveCurrentModel ex_orphan = Fin s' tt /\ timers s' = [].
Proof.
  assert (H1 : activeModelIdRef ex_orphan = None) by reflexivity.
  assert (H2 : TimerTracked ex_orphan).
  { right. eexists. split; reflexivity. }
  repeat (split; [first [assumption | discriminate] | ]).
  destruct (saveCurrentModel_without_model ex_orphan H1 H2) as (s' & Hs & Ht & _).
  exists s'. split; assumption.
Defined.

(** The flush proper: with a model active, [saveCurrentModel] cancels the
    pending timer and suspends on the write of the current snapshot; when
    the write has settled, well or not, it returns. *)
Lemma saveCurrentModel_flushes (s : Ctl) (mid : Id) :
  activeModelIdRef s = Some mid -> mid <> "" -> TimerTracked s ->
  exists s1 k,
    saveCurrentModel s = Susp s1 (updateModel mid (save_patch (storeModel s))) k /\
    timers s1 = [] /\ saveTimeoutRef s1 = None /\
    activeProjectId s1 = activeProjectId s /\
    activeModelId s1 = activeModelId s /\
    (forall r s2, k (Resolved r) s2 =
       Fin (setLastSavedAt (Some (now s2)) (setSaveStatus Idle s2)) tt) /\
    (forall e s2, k (Rejected e) s2 =
       Fin (setError (Some (getErrorMessage e)) (setSaveStatus Error s2)) tt).
Proof.
  intros Hact Hne Htr. apply String.eqb_neq in Hne.
  unfold saveCurrentModel, saveModelNow, nonfalsy, truthy.
  destruct (saveTimeoutRef s) as [h | ] eqn:Href;
    repeat (run_task; rewrite ?Href, ?Hact, ?Hne).
  - eexists. eexists. split; [reflexivity | ].
    repeat split; try reflexivity.
    cbn. apply (tracked_clear s h Htr Href).
  - destruct Htr as [Hnil | (t & _ & H)]; [ | congruence].
    eexists. eexists. split; [reflexivity | ].
    repeat split; try reflexivity; assumption.
Qed.

Lemma selectProject_switch (projectId : option Id) (s : Ctl) :
  same_id projectId (activeProjectIdRef s) = false ->
  selectProject projectId s =
  bindR (saveCurrentModel s)
    (fun _ s' =>
       Fin (setModels (fun _ => [])
              (setActiveModelId None (setActiveProjectId projectId s'))) tt).
Proof. intros H. unfold selectProject, bind, read. cbn. now rewrite H. Qed.

Lemma selectModel_switch (modelId : option Id) (s : Ctl) :
  same_id modelId (activeModelIdRef s) = false ->
  selectModel modelId s =
  bindR (saveCurrentModel s) (fun _ s' => Fin (setActiveModelId modelId s') tt).
Proof. intros H. unfold selectModel, bind, read. cbn. now rewrite H. Qed.

(** C1, as far as the code goes.  With a save pending for the active model:
    [selectProject] and [selectModel], called with an id other than the
    active one, first cancel the timer and suspend on the write of the
    current store snapshot to that model, the active ids untouched; only
    when that write has settled (resolved or rejected) do they set the new
    ids and return.  The two delete callbacks do not flush: the first
    request they issue is the delete itself, and the pending timer is left
    armed. *)
Theorem select_flushes_before_switch :
  forall (s : Ctl) (mid : Id),
    PendingSave s mid ->
    (forall projectId, same_id projectId (activeProjectIdRef s) = false ->
       FlushesFirst s mid (selectProject projectId s) /\
       exists s1 k,
         selectProject projectId s =
           Susp s1 (updateModel mid (save_patch (storeModel s))) k /\
         forall out s2,
           issued (k out s2) = None /\
           activeProjectId (state_of (k out s2)) = projectId /\
           activeModelId (state_of (k out s2)) = None /\
           models (state_of (k out s2)) = []) /\
    (forall modelId, same_id modelId (activeModelIdRef s) = false ->
       FlushesFirst s mid (selectModel modelId s) /\
       exists s1 k,
         selectModel modelId s =
           Susp s1 (updateModel mid (save_patch (storeModel s))) k /\
         forall out s2,
           issued (k out s2) = None /\
           activeModelId (state_of (k out s2)) = modelId) /\
    (forall projectId,
       issued (handleDeleteProject projectId s) = Some (CallDeleteProject projectId) /\
       timers (state_of (handleDeleteProject projectId s)) = timers s) /\
    (forall modelId,
       issued (handleDeleteModel modelId s) = Some (CallDeleteModel modelId) /\
       timers (state_of (handleDeleteModel modelId s)) = timers s).
Proof.
  intros s mid (Hact & Hne & t & Ht & Href).
  assert (Htr : TimerTracked s) by (right; exists t; auto).
  destruct (saveCurrentModel_flushes s mid Hact Hne Htr)
    as (s1 & k & Hsave & Hnil & _ & Hp & Hm & Hok & Hko).
  split; [ | split; [ | split]].
  - intros projectId Hnew.
    rewrite (selectProject_switch _ _ Hnew), Hsave. cbn.
    split; [repeat split; assumption | ].
    eexists. eexists. split; [reflexivity | ].
    intros [r | e] s2; cbn; rewrite ?Hok, ?Hko; cbn; repeat split; reflexivity.
  - intros modelId Hnew.
    rewrite (selectModel_switch _ _ Hnew), Hsave. cbn.
    split; [repeat split; assumption | ].
    eexists. eexists. split; [reflexivity | ].
    intros [r | e] s2; cbn; rewrite ?Hok, ?Hko; cbn; repeat split; reflexivity.
  - intros projectId. split; reflexivity.
  - intros modelId. split; reflexivity.
Qed.

(** The witness: "m1" has an edit pending; the user picks project "p2",
    then (instead) model "m2". *)
Lemma select_flushes_before_switch_witness :
  PendingSave ex_edited "m1" /\
  same_id (Some "p2") (activeProjectIdRef ex_edited) = false /\
  FlushesFirst ex_edited "m1" (selectProject (Some "p2") ex_edited) /\
  FlushesFirst ex_edited "m1" (selectModel (Some "m2") ex_edited).
Proof.
  assert (H : PendingSave ex_edited "m1").
  { split; [reflexivity | split; [discriminate | ]].
    eexists. split; reflexivity. }
  destruct (select_flushes_before_switch ex_edited "m1" H) as (Hp & Hm & _).
  split; [exact H | split; [reflexivity | split]].
  - apply (Hp (Some "p2")). reflexivity.
  - apply (Hm (Some "m2")). reflexivity.
Defined.

(** C1 as stated fails on the delete callbacks: with the edit of "m1"
    pending, deleting project "p2" does not start with the flush. *)
Lemma delete_does_not_flush :
  PendingSave ex_edited "m1" /\
  ~ FlushesFirst ex_edited "m1" (handleDeleteProject "p2" ex_edited) /\
  ~ FlushesFirst ex_edited "m1" (handleDeleteModel "m1" ex_edited).
Proof.
  split.
  - split; [reflexivity | split; [discriminate | ]].
    eexists. split; reflexivity.
  - split; intros (H & _); cbn in H; discriminate H.
Qed.

(** ** Reconciliation of the selection *)

Lemma same_id_eq (a b : option Id) : same_id a b = true <-> a = b.
Proof.
  destruct a as [x | ], b as [y | ]; cbn; split; intros H;
    try discriminate; try reflexivity.
  - apply String.eqb_eq in H. now subst.
  - injection H as ->. apply String.eqb_refl.
Qed.

Lemma has_project_in (l : list ProjectSummary) (i : option Id) :
  has_project l i = true -> exists p, In p l /\ i = Some (id p).
Proof.
  unfold has_project. intros H. apply existsb_exists in H.
  destruct H as (p & Hin & Heq). apply same_id_eq in Heq. eauto.
Qed.

Lemma has_model_in (l : list ModelSummary) (i : option Id) :
  has_model l i = true -> exists m, In m l /\ i = Some (m_id m).
Proof.
  unfold has_model. intros H. apply existsb_exists in H.
  destruct H as (m & Hin & Heq). apply same_id_eq in Heq. eauto.
Qed.

(** C5, as far as the code goes.  Each reconciliation effect starts with a
    guard: the one for projects does nothing while the project listing is
    loading, the one for models does nothing while the model listing is
    loading or while no project is active: behind its guard an effect
    returns the state it was given, whatever that state.  Past the guard,
    with the refs mirroring the rendered ids: an empty project listing
    leaves both ids null and the store reset; otherwise the active project
    is an entry of the listing, the first one when none was active or the
    active one is absent; and likewise an empty model listing leaves the
    active model null and the store reset, otherwise the active model is an
    entry of the listing, the first one when none was active or the active
    one is absent. *)
Theorem reconciliation_restores_selection :
  forall (s : Ctl),
    InSync s ->
    (isLoadingProjects s = false ->
       ProjectsReconciled (reconcileProjects s s) /\
       (projects s <> [] ->
        truthy (activeProjectId s) = false \/
        has_project (projects s) (activeProjectId s) = false ->
        activeProjectId (reconcileProjects s s) = first_project (projects s))) /\
    (isLoadingModels s = false -> truthy (activeProjectId s) = true ->
       ModelsReconciled (reconcileModels s s) /\
       (models s <> [] ->
        truthy (activeModelId s) = false \/
        has_model (models s) (activeModelId s) = false ->
        activeModelId (reconcileModels s s) = first_model (models s))) /\
    (forall (r : ReactState) (c : Ctl),
       isLoadingProjects r = true -> reconcileProjects r c = c) /\
    (forall (r : ReactState) (c : Ctl),
       isLoadingModels r = true \/ truthy (activeProjectId r) = false ->
       reconcileModels r c = c).
Proof.
  intros s [Hp Hm]. split; [ | split; [ | split]];
    [ | | intros r c Hload; unfold reconcileProjects; now rewrite Hload
      | intros r c [Hload | Hnone]; unfold reconcileModels;
        [now rewrite Hload | rewrite Hnone; now rewrite orb_true_r] ].
  - intros Hload. unfold reconcileProjects, ProjectsReconciled.
    rewrite Hload, Hp.
    destruct (projects s) as [ | p ps] eqn:Hps.
    + rewrite setModel_st, setModel_store. cbn. rewrite Hps.
      split; [ | intros H; now elim H].
      split; [intros _; repeat split | intros H; now elim H].
    + destruct (truthy (activeProjectId s)) eqn:Htr; cbn [negb];
        [destruct (has_project (p :: ps) (activeProjectId s)) eqn:Hhas; cbn [negb] | ].
      * rewrite Hps. split.
        -- split; [intros H; discriminate H | intros _].
           apply has_project_in in Hhas.
           destruct Hhas as (q & Hin & Heq). exists q. split; assumption.
        -- intros _ [H | H]; discriminate H.
      * cbn. rewrite Hps. split; [ | intros _ _; reflexivity].
        split; [intros H; discriminate H | intros _].
        exists p. split; [now left | reflexivity].
      * cbn. rewrite Hps. split; [ | intros _ _; reflexivity].
        split; [intros H; discriminate H | intros _].
        exists p. split; [now left | reflexivity].
  - intros Hload Hact. unfold reconcileModels, ModelsReconciled.
    rewrite Hload, Hact, Hm. cbn [orb negb].
    destruct (models s) as [ | m ms] eqn:Hms.
    + rewrite setModel_st, setModel_store. cbn. rewrite Hms.
      split; [ | intros H; now elim H].
      split; [intros _; repeat split | intros H; now elim H].
    + destruct (truthy (activeModelId s)) eqn:Htr; cbn [negb];
        [destruct (has_model (m :: ms) (activeModelId s)) eqn:Hhas; cbn [negb] | ].
      * rewrite Hms. split.
        -- split; [intros H; discriminate H | intros _].
           apply has_model_in in Hhas.
           destruct Hhas as (q & Hin & Heq). exists q. split; assumption.
        -- intros _ [H | H]; discriminate H.
      * cbn. rewrite Hms. split; [ | intros _ _; reflexivity].
        split; [intros H; discriminate H | intros _].
        exists m. split; [now left | reflexivity].
      * cbn. rewrite Hms. split; [ | intros _ _; reflexivity].
        split; [intros H; discriminate H | intros _].
        exists m. split; [now left | reflexivity].
Qed.

(** The witness: project "p1" was removed behind the controller's back,
    and "m1" is not among the models listed; and, behind the guards, the
    two states in which a listing is loading are left as they are. *)
Lemma reconciliation_restores_selection_witness :
  InSync ex_stale /\
  isLoadingProjects ex_stale = false /\
  activeProjectId (reconcileProjects ex_stale ex_stale) = Some "p2" /\
  activeModelId (reconcileModels ex_stale ex_stale) = Some "m7" /\
  InSync ex_loading /\ isLoadingProjects ex_loading = true /\
  reconcileProjects ex_loading ex_loading = ex_loading /\
  InSync ex_loading_models /\ isLoadingModels ex_loading_models = true /\
  reconcileModels ex_loading_models ex_loading_models = ex_loading_models.
Proof.
  assert (H : InSync ex_stale) by (split; reflexivity).
  assert (Hl : InSync ex_loading) by (split; reflexivity).
  assert (Hlm : InSync ex_loading_models) by (split; reflexivity).
  destruct (reconciliation_restores_selection ex_stale H) as (Hp & Hm & _ & _).
  destruct (reconciliation_restores_selection ex_loading Hl) as (_ & _ & Hgp & _).
  destruct (reconciliation_restores_selection ex_loading_models Hlm)
    as (_ & _ & _ & Hgm).
  split; [exact H | split; [reflexivity | split; [ | split]]].
  - destruct (Hp eq_refl) as [_ Hfirst].
    apply Hfirst; [discriminate | right; reflexivity].
  - destruct (Hm eq_refl eq_refl) as [_ Hfirst].
    apply Hfirst; [discriminate | right; reflexivity].
  - split; [exact Hl | split; [reflexivity | ]].
    split; [exact (Hgp ex_loading ex_loading eq_refl) | ].
    split; [exact Hlm | split; [reflexivity | ]].
    exact (Hgm ex_loading_models ex_loading_models (or_introl eq_refl)).
Defined.

(** C5 as stated fails behind the guards: while the project listing is
    loading the effect leaves a non-empty listing without an active
    project, and while the model listing is loading it leaves a non-empty
    listing without an active model. *)
Lemma reconciliation_guarded_by_loading :
  InSync ex_loading /\ InSync ex_loading_models /\
  ~ ProjectsReconciled (reconcileProjects ex_loading ex_loading) /\
  ~ ModelsReconciled (reconcileModels ex_loading_models ex_loading_models).
Proof.
  repeat split; try reflexivity.
  - intros [_ H]. destruct H as (p & _ & Habs); [discriminate | discriminate Habs].
  - intros [_ H]. destruct H as (m & _ & Habs); [discriminate | discriminate Habs].
Qed.

(** ** Deleting a project *)

(** C6.  [handleDeleteProject] issues the delete and suspends.  When the
    request has succeeded, the refs mirroring the rendered ids: the entries
    with the deleted id leave the project listing; if the deleted project is
    the active one, both active ids become null, the model listing is
    emptied and the store is reset to the empty model; if it is not, the
    project listing is the only thing that changes. *)
Theorem delete_project_effect :
  forall (s : Ctl) (projectId : Id),
  exists s1 k,
    handleDeleteProject projectId s = Susp s1 (deleteProject projectId) k /\
    forall (s2 : Ctl),
      InSync s2 ->
      exists s3,
        k (Resolved tt) s2 = Fin s3 true /\
        projects s3 = filter (fun item => negb (id item =? projectId)) (projects s2) /\
        (activeProjectId s2 = Some projectId ->
           activeProjectId s3 = None /\ activeModelId s3 = None /\
           models s3 = [] /\ storeModel s3 = createEmptyModel) /\
        (activeProjectId s2 <> Some projectId ->
           s3 = setProjects (filter (fun item => negb (id item =? projectId))) s2).
Proof.
  intros s projectId. eexists. eexists. split; [reflexivity | ].
  intros s2 [Hp _]. run_task.
  destruct (same_id (activeProjectIdRef s2) (Some projectId)) eqn:Hsame; run_task.
  - apply same_id_eq in Hsame. rewrite Hp in Hsame.
    eexists. split; [reflexivity | ].
    rewrite setModel_st, setModel_store. cbn.
    repeat split; congruence.
  - eexists. split; [reflexivity | ]. cbn.
    split; [reflexivity | split; [ | reflexivity]].
    intros Habs. rewrite <- Hp in Habs. apply same_id_eq in Habs. congruence.
Qed.

(** The witness: deleting the active project "p1", and deleting "p2". *)
Lemma delete_project_effect_witness :
  InSync ex_active /\
  (exists s1 k s3,
      handleDeleteProject "p1" ex_active = Susp s1 (deleteProject "p1") k /\
      k (Resolved tt) ex_active = Fin s3 true /\
      activeProjectId s3 = None) /\
  (exists s1 k s3,
      handleDeleteProject "p2" ex_active = Susp s1 (deleteProject "p2") k /\
      k (Resolved tt) ex_active = Fin s3 true /\
      activeProjectId s3 = Some "p1" /\ activeModelId s3 = Some "m1").
Proof.
  assert (H : InSync ex_active) by (split; reflexivity).
  split; [exact H | split].
  - destruct (delete_project_effect ex_active "p1") as (s1 & k & Hs & Hk).
    destruct (Hk ex_active H) as (s3 & H3 & _ & Hact & _).
    exists s1, k, s3. repeat split; try assumption. now apply Hact.
  - destruct (delete_project_effect ex_active "p2") as (s1 & k & Hs & Hk).
    destruct (Hk ex_active H) as (s3 & H3 & _ & _ & Hoth).
    exists s1, k, s3. split; [assumption | split; [assumption | ]].
    rewrite Hoth; [split; reflexivity | discriminate].
Defined.

(** ** The derived model counter *)

Lemma count_models_cons (pid : Id) (m : ModelSummary) (l : list ModelSummary) :
  count_models pid (m :: l) =
  ((if (projectId m =? pid)%string then 1 else 0) + count_models pid l)%Z.
Proof.
  unfold count_models. cbn. destruct (projectId m =? pid); cbn [List.length]; lia.
Qed.

Lemma count_models_nonneg (pid : Id) (l : list ModelSummary) :
  (0 <= count_models pid l)%Z.
Proof. unfold count_models. lia. Qed.

(** Removing an id that is not listed removes nothing. *)
Lemma filter_absent (modelId : Id) (l : list ModelSummary) :
  find (fun item => m_id item =? modelId) l = None ->
  filter (fun item => negb (m_id item =? modelId)) l = l.
Proof.
  induction l as [ | m l IH]; cbn; [reflexivity | ].
  destruct (m_id m =? modelId) eqn:E; [discriminate | ].
  intros H. cbn. now rewrite IH.
Qed.

(** Removing a listed id, the ids being distinct, removes the entry
    [find] returns and no other. *)
Lemma count_after_remove (pid modelId : Id) (x : ModelSummary) (l : list ModelSummary) :
  NoDup (map m_id l) ->
  find (fun item => m_id item =? modelId) l = Some x ->
  count_models pid (filter (fun item => negb (m_id item =? modelId)) l) =
  (count_models pid l - (if (projectId x =? pid)%string then 1 else 0))%Z.
Proof.
  induction l as [ | m l IH]; cbn [find filter map]; [discriminate | ].
  intros Hnd Hf. inversion Hnd as [ | ? ? Hnotin Hnd']; subst.
  destruct (m_id m =? modelId) eqn:E; cbn [negb].
  - injection Hf as ->. apply String.eqb_eq in E.
    rewrite filter_absent.
    + rewrite count_models_cons. lia.
    + destruct (find _ l) as [y | ] eqn:Hy; [ | reflexivity].
      apply find_some in Hy. destruct Hy as [Hin Hy].
      apply String.eqb_eq in Hy. elim Hnotin.
      rewrite E, <- Hy. now apply in_map.
  - rewrite !count_models_cons, (IH Hnd' Hf). lia.
Qed.

Lemma find_projectId_counted (modelId : Id) (x : ModelSummary) (l : list ModelSummary) :
  find (fun item => m_id item =? modelId) l = Some x ->
  (1 <= count_models (projectId x) l)%Z.
Proof.
  induction l as [ | m l IH]; cbn [find]; [discriminate | ].
  rewrite count_models_cons.
  destruct (m_id m =? modelId).
  - intros H. injection H as ->. rewrite String.eqb_refl.
    pose proof (count_models_nonneg (projectId x) l). lia.
  - intros H. specialize (IH H). destruct (projectId m =? projectId x); lia.
Qed.

Lemma Forall2_map_right {A : Type} (R : A -> A -> Prop) (f : A -> A) (l : list A) :
  (forall x, In x l -> R x (f x)) -> Forall2 R l (map f l).
Proof.
  induction l as [ | x l IH]; intros H; cbn; constructor.
  - apply H. now left.
  - apply IH. intros y Hy. apply H. now right.
Qed.

Lemma Forall2_same {A : Type} (R : A -> A -> Prop) (l : list A) :
  (forall x, In x l -> R x x) -> Forall2 R l l.
Proof.
  intros H. rewrite <- (map_id l) at 2. now apply Forall2_map_right.
Qed.

(** C7, as far as the code goes.  The model listing holds the models of
    one project at a time, so the counters of the other projects need not
    match it.  What the two callbacks do is keep the agreement, project by
    project, where it holds.  The cached projects keep their ids and their
    order.  After a successful [createModel] whose reply belongs to the
    target project, each counter is what it was, plus one for the target;
    and each project whose [modelCount] was the number of cached models
    carrying its id has this property again.  After a successful
    [deleteModel], the cached model listing being the one the callback was
    called with and the cached model ids distinct, each counter is what it
    was, but for that of the deleted model's project (as that listing
    gives it), which is one less and not below zero; and each project with
    a non-empty id whose [modelCount] was the number of cached models
    carrying its id has this property again.  Neither callback issues a
    request after the one it awaits. *)
Theorem model_count_follows_listing :
  forall (s : Ctl),
    (forall projectId payload,
     exists s1 k,
       handleCreateModel projectId payload s =
         Susp s1 (createModel projectId payload) k /\
       forall (reply : ModelSummary) (s2 : Ctl),
         Controller.projectId reply = projectId ->
         exists s3,
           k (Resolved reply) s2 = Fin s3 (Some reply) /\
           models s3 = reply :: models s2 /\
           Forall2
             (fun p p' =>
                id p' = id p /\
                modelCount p' =
                  (modelCount p + if (id p =? projectId)%string then 1 else 0)%Z /\
                (modelCount p = count_models (id p) (models s2) ->
                 modelCount p' = count_models (id p') (models s3)))
             (projects s2) (projects s3)) /\
    (forall modelId,
     exists s1 k,
       handleDeleteModel modelId s = Susp s1 (deleteModel modelId) k /\
       forall (s2 : Ctl),
         models s2 = models s ->
         NoDup (map m_id (models s2)) ->
         exists s3,
           k (Resolved tt) s2 = Fin s3 true /\
           models s3 = filter (fun item => negb (m_id item =? modelId)) (models s2) /\
           Forall2
             (fun p p' =>
                id p' = id p /\
                modelCount p' =
                  match nonfalsy
                          (option_map Controller.projectId
                             (find (fun item => m_id item =? modelId) (models s)))
                  with
                  | Some target =>
                      if (id p =? target)%string
                      then Z.max 0 (modelCount p - 1)
                      else modelCount p
                  | None => modelCount p
                  end /\
                (id p <> "" ->
                 modelCount p = count_models (id p) (models s2) ->
                 modelCount p' = count_models (id p') (models s3)))
             (projects s2) (projects s3)).
Proof.
  intros s. split.
  - intros pid payload. eexists. eexists. split; [reflexivity | ].
    intros reply s2 Hpid. run_task.
    eexists. split; [reflexivity | ]. cbn. split; [reflexivity | ].
    apply Forall2_map_right. intros p _.
    rewrite count_models_cons, Hpid.
    destruct (id p =? pid) eqn:E; cbn.
    + apply String.eqb_eq in E. rewrite E in *. rewrite String.eqb_refl.
      split; [reflexivity | split; [reflexivity | lia]].
    + rewrite String.eqb_sym, E.
      split; [reflexivity | split; [lia | lia]].
  - intros modelId. unfold handleDeleteModel. run_task.
    eexists. eexists. split; [reflexivity | ].
    intros s2 Hsame Hnd. run_task. rewrite <- Hsame.
    destruct (find (fun item => m_id item =? modelId) (models s2)) as [x | ] eqn:Hf;
      cbn [option_map].
    + unfold nonfalsy, truthy.
      destruct (projectId x =? "") eqn:Hempty; run_task.
      * (* the model's project id is falsy: no counter is touched *)
        apply String.eqb_eq in Hempty.
        destruct (same_id (activeModelIdRef s2) (Some modelId)); run_task;
          rewrite ?setModel_st; cbn;
          (eexists; split; [reflexivity | ]; rewrite ?setModel_st; cbn;
           split; [reflexivity | ]);
          apply Forall2_same; intros p _;
          (split; [reflexivity | split; [reflexivity | ]]);
          intros Hne Hagree; rewrite (count_after_remove _ _ x _ Hnd Hf);
          (destruct (projectId x =? id p) eqn:E;
           [apply String.eqb_eq in E; elim Hne; congruence | lia]).
      * destruct (same_id (activeModelIdRef s2) (Some modelId)); run_task;
          (eexists; split; [reflexivity | ]; rewrite ?setModel_st; cbn;
           split; [reflexivity | ]);
          apply Forall2_map_right; intros p _;
          rewrite (count_after_remove _ _ x _ Hnd Hf);
          pose proof (find_projectId_counted _ _ _ Hf) as Hone;
          (destruct (id p =? projectId x) eqn:E; cbn;
           [apply String.eqb_eq in E; rewrite <- E in *; rewrite String.eqb_refl;
            split; [reflexivity | split; [reflexivity | intros _ Hagree; lia]]
           | rewrite String.eqb_sym, E;
             split; [reflexivity | split; [reflexivity | intros _ Hagree; lia]]]).
    + run_task.
      destruct (same_id (activeModelIdRef s2) (Some modelId)); run_task;
        (eexists; split; [reflexivity | ]; rewrite ?setModel_st; cbn;
         split; [reflexivity | ]);
        rewrite (filter_absent _ _ Hf);
        apply Forall2_same; intros p _;
        (split; [reflexivity | split; [reflexivity | intros _ Hagree; exact Hagree]]).
Qed.

(** The witness, in a cache of two projects: "p1" is active, its one model
    is cached and its counter agrees; "p2" has two models on the server and
    none in the cache.  A model is created in "p1", and the model of "p1"
    is deleted: the counter of "p1" follows the listing both times. *)
Lemma model_count_follows_listing_witness :
  modelCount (ex_project "p1" 1) = count_models "p1" (models ex_active) /\
  modelCount (ex_project "p2" 2) <> count_models "p2" (models ex_active) /\
  NoDup (map m_id (models ex_active)) /\
  (exists s1 k s3 p1' rest,
      handleCreateModel "p1" ex_payload ex_active =
        Susp s1 (createModel "p1" ex_payload) k /\
      k (Resolved (ex_summary "m2" "p1")) ex_active =
        Fin s3 (Some (ex_summary "m2" "p1")) /\
      projects s3 = p1' :: rest /\ id p1' = "p1" /\
      modelCount p1' = 2%Z /\
      modelCount p1' = count_models "p1" (models s3)) /\
  (exists s1 k s3 p1' rest,
      handleDeleteModel "m1" ex_active = Susp s1 (deleteModel "m1") k /\
      k (Resolved tt) ex_active = Fin s3 true /\
      projects s3 = p1' :: rest /\ id p1' = "p1" /\
      modelCount p1' = count_models "p1" (models s3)).
Proof.
  assert (Hagree : modelCount (ex_project "p1" 1) =
                   count_models "p1" (models ex_active)) by reflexivity.
  assert (Hnd : NoDup (map m_id (models ex_active))).
  { cbn. constructor; [intros [] | constructor]. }
  destruct (model_count_follows_listing ex_active) as [Hc Hd].
  split; [exact Hagree | split; [discriminate | split; [exact Hnd | split]]].
  - destruct (Hc "p1" ex_payload) as (s1 & k & Hs & Hk).
    destruct (Hk (ex_summary "m2" "p1") ex_active eq_refl) as (s3 & H3 & _ & H4).
    change (projects ex_active) with [ex_project "p1" 1; ex_project "p2" 2] in H4.
    inversion H4 as [ | p p1' l rest (Hid & Hcount & Hfollow) _ Hp Hl]; subst.
    exists s1, k, s3, p1', rest.
    split; [exact Hs | split; [exact H3 | split; [now symmetry | ]]].
    split; [exact Hid | split; [exact Hcount | ]].
    rewrite (Hfollow Hagree), Hid. reflexivity.
  - destruct (Hd "m1") as (s1 & k & Hs & Hk).
    destruct (Hk ex_active eq_refl Hnd) as (s3 & H3 & _ & H4).
    change (projects ex_active) with [ex_project "p1" 1; ex_project "p2" 2] in H4.
    inversion H4 as [ | p p1' l rest (Hid & _ & Hfollow) _ Hp Hl]; subst.
    exists s1, k, s3, p1', rest.
    split; [exact Hs | split; [exact H3 | split; [now symmetry | ]]].
    split; [exact Hid | ].
    rewrite (Hfollow ltac:(discriminate) Hagree), Hid. reflexivity.
Defined.

(** C7 as stated fails as soon as there is a second project: "p2" has
    two models on the server and none in the cache, which lists the models
    of the active project "p1"; creating a model in "p1" succeeds and the
    counter of "p2" still differs from the number of cached models of
    "p2". *)
Lemma model_count_not_for_every_project :
  exists s1 k s3,
    handleCreateModel "p1" ex_payload ex_active =
      Susp s1 (createModel "p1" ex_payload) k /\
    k (Resolved (ex_summary "m2" "p1")) s1 = Fin s3 (Some (ex_summary "m2" "p1")) /\
    In (ex_project "p2" 2) (projects s3) /\
    modelCount (ex_project "p2" 2) <> count_models "p2" (models s3) /\
    ~ CountsAgree (projects s3) (models s3).
Proof.
  eexists. eexists. eexists. split; [reflexivity | ].
  split; [reflexivity | ].
  split; [right; left; reflexivity | ].
  split; [discriminate | ].
  intros H. specialize (H (ex_project "p2" 2)). cbn in H.
  assert (Hin : ex_project "p1" 2 = ex_project "p2" 2 \/
                ex_project "p2" 2 = ex_project "p2" 2 \/ False) by (right; left; reflexivity).
  specialize (H Hin). discriminate H.
Qed.

(* ===================================================================== *)
(** ** Further properties of the controller *)
(* ===================================================================== *)

(** *** Invariants kept by every callback *)

(** X1.  The timer discipline is an invariant of the provider: if a
    pending timer is the one the ref designates, it is so again after an
    edit of the store, after a timer fires, and every time any callback or
    effect of the provider suspends or returns, whatever the outcome of the
    requests it awaited. *)
Theorem timer_discipline_invariant :
  forall (s : Ctl),
    TimerTracked s ->
    (forall m, TimerTracked (mutateStore m s)) /\
    (forall h, Preserves TimerTracked (fireTimer h s)) /\
    (forall m, Preserves TimerTracked (saveModelNow m s)) /\
    Preserves TimerTracked (saveCurrentModel s) /\
    (forall i, Preserves TimerTracked (loadModel i s)) /\
    (forall i, Preserves TimerTracked (selectProject i s)) /\
    (forall i, Preserves TimerTracked (selectModel i s)) /\
    Preserves TimerTracked (refreshProjects s) /\
    (forall i, Preserves TimerTracked (refreshModels i s)) /\
    (forall p, Preserves TimerTracked (handleCreateProject p s)) /\
    (forall i p, Preserves TimerTracked (handleUpdateProject i p s)) /\
    (forall i, Preserves TimerTracked (handleDeleteProject i s)) /\
    (forall i p, Preserves TimerTracked (handleCreateModel i p s)) /\
    (forall i p, Preserves TimerTracked (handleUpdateModel i p s)) /\
    (forall i, Preserves TimerTracked (handleDeleteModel i s)) /\
    (forall r, Preserves TimerTracked (onActiveProjectChange r s)) /\
    (forall r, Preserves TimerTracked (onActiveModelChange r s)) /\
    (forall r, TimerTracked (reconcileProjects r s) /\
               TimerTracked (reconcileModels r s) /\
               TimerTracked (subscribeStore r s)) /\
    TimerTracked (unsubscribeStore s).
Proof.
  intros s H.
  repeat match goal with |- _ /\ _ => split end; intros.
  - now apply tracked_mutateStore.
  - now apply fireTimer_tracked.
  - now apply saveModelNow_tracked.
  - now apply saveCurrentModel_tracked.
  - now apply loadModel_tracked.
  - now apply selectProject_tracked.
  - now apply selectModel_tracked.
  - now apply refreshProjects_tracked.
  - now apply refreshModels_tracked.
  - now apply handleCreateProject_tracked.
  - now apply handleUpdateProject_tracked.
  - now apply handleDeleteProject_tracked.
  - now apply handleCreateModel_tracked.
  - now apply handleUpdateModel_tracked.
  - now apply handleDeleteModel_tracked.
  - now apply onActiveProjectChange_tracked.
  - now apply onActiveModelChange_tracked.
  - destruct (effects_tracked r s H) as (_ & _ & A & B & _ & C & _). auto.
  - now apply (effects_tracked s s).
Qed.

Lemma timer_discipline_invariant_witness :
  TimerTracked ex_edited /\
  TimerTracked (mutateStore ex_edit2 ex_edited) /\
  Preserves TimerTracked (selectModel (Some "m2") ex_edited).
Proof.
  assert (H : TimerTracked ex_edited).
  { right. eexists. split; reflexivity. }
  destruct (timer_discipline_invariant ex_edited H)
    as (H1 & _ & _ & _ & _ & _ & H7 & _).
  split; [exact H | split; [apply H1 | apply H7]].
Defined.

(** X2.  The hydration flag and the load token belong to [loadModel]: no
    other callback or effect changes either of them, at any of its
    suspensions or when it returns, and neither does an edit of the
    store. *)
Theorem guard_owned_by_loadModel :
  forall (s : Ctl),
    (forall m, isHydratingRef (mutateStore m s) = isHydratingRef s /\
               loadTokenRef (mutateStore m s) = loadTokenRef s) /\
    (forall h, KeepsGuard s (fireTimer h s)) /\
    (forall m, KeepsGuard s (saveModelNow m s)) /\
    KeepsGuard s (saveCurrentModel s) /\
    (forall i, KeepsGuard s (selectProject i s)) /\
    (forall i, KeepsGuard s (selectModel i s)) /\
    KeepsGuard s (refreshProjects s) /\
    (forall i, KeepsGuard s (refreshModels i s)) /\
    (forall p, KeepsGuard s (handleCreateProject p s)) /\
    (forall i p, KeepsGuard s (handleUpdateProject i p s)) /\
    (forall i, KeepsGuard s (handleDeleteProject i s)) /\
    (forall i p, KeepsGuard s (handleCreateModel i p s)) /\
    (forall i p, KeepsGuard s (handleUpdateModel i p s)) /\
    (forall i, KeepsGuard s (handleDeleteModel i s)) /\
    (forall r, KeepsGuard s (onActiveProjectChange r s)) /\
    (forall r,
       isHydratingRef (reconcileProjects r s) = isHydratingRef s /\
       loadTokenRef (reconcileProjects r s) = loadTokenRef s /\
       isHydratingRef (reconcileModels r s) = isHydratingRef s /\
       loadTokenRef (reconcileModels r s) = loadTokenRef s) /\
    isHydratingRef (unsubscribeStore s) = isHydratingRef s /\
    loadTokenRef (unsubscribeStore s) = loadTokenRef s.
Proof.
  intros s.
  split.
  { intros m. destruct (mutateStore_frame m s) as (_ & _ & _ & _ & _ & _ & A & B).
    split; assumption. }
  split; [intros; apply fireTimer_keeps_guard | ].
  split; [intros; apply saveModelNow_keeps_guard | ].
  split; [apply saveCurrentModel_keeps_guard | ].
  split; [intros; apply selectProject_keeps_guard | ].
  split; [intros; apply selectModel_keeps_guard | ].
  split; [apply refreshProjects_keeps_guard | ].
  split; [intros; apply refreshModels_keeps_guard | ].
  split; [intros; apply handleCreateProject_keeps_guard | ].
  split; [intros; apply handleUpdateProject_keeps_guard | ].
  split; [intros; apply handleDeleteProject_keeps_guard | ].
  split; [intros; apply handleCreateModel_keeps_guard | ].
  split; [intros; apply handleUpdateModel_keeps_guard | ].
  split; [intros; apply handleDeleteModel_keeps_guard | ].
  split; [intros; apply onActiveProjectChange_keeps_guard | ].
  split.
  { intros r. destruct (reconcile_keeps_guard r s) as ((A & B) & (C & D) & _).
    repeat split; assumption. }
  destruct (reconcile_keeps_guard s s) as (_ & _ & A & B). split; assumption.
Qed.

(** *** Loads *)

(** X3.  Only the latest load ends the hydration: when the fetch of a
    superseded load settles, well or not, the loading flag, the hydration
    flag, the store, the save status and the timers are what they were;
    when the fetch of the latest load settles, well or not, both flags are
    cleared, and a failure leaves the store and the save status as they
    were and records the message of the error. *)
Theorem only_latest_load_ends_hydration :
  forall (tok : nat) (out : Result ModelSummary) (s : Ctl),
  exists s',
    loadModel_resume tok out s = Fin s' tt /\
    (loadTokenRef s <> tok ->
       isLoadingModel s' = isLoadingModel s /\
       isHydratingRef s' = isHydratingRef s /\
       storeModel s' = storeModel s /\
       saveStatus s' = saveStatus s /\
       timers s' = timers s) /\
    (loadTokenRef s = tok ->
       isLoadingModel s' = false /\
       isHydratingRef s' = false /\
       forall err, out = Rejected err ->
         storeModel s' = storeModel s /\
         saveStatus s' = saveStatus s /\
         timers s' = timers s /\
         error s' = Some (getErrorMessage err)).
Proof.
  intros tok out s.
  destruct (Nat.eq_dec (loadTokenRef s) tok) as [Heq | Hne].
  - subst tok. destruct out as [data | err].
    + rewrite current_load_writes. eexists. split; [reflexivity | ].
      split; [intros H; now elim H | intros _].
      split; [reflexivity | split; [reflexivity | ]].
      intros err H; discriminate H.
    + rewrite current_load_fails. eexists. split; [reflexivity | ].
      split; [intros H; now elim H | intros _].
      split; [reflexivity | split; [reflexivity | ]].
      intros err' H. injection H as <-. repeat split.
  - pose proof Hne as Hne'. apply Nat.eqb_neq in Hne'.
    destruct out as [data | err]; repeat (run_task; rewrite ?Hne').
    + exists s. split; [reflexivity | ].
      split; [intros _; repeat split | intros H; now elim Hne].
    + eexists. split; [reflexivity | ].
      split; [intros _; repeat split | intros H; now elim Hne].
Qed.

Lemma only_latest_load_ends_hydration_witness :
  exists s',
    loadModel_resume 1 (Rejected (ApiError "Model not found." 404))
      (state_of (loadModel "m1" ex_active)) = Fin s' tt /\
    isHydratingRef s' = false /\
    storeModel s' = createEmptyModel /\
    error s' = Some "Model not found.".
Proof.
  destruct (only_latest_load_ends_hydration 1
              (Rejected (ApiError "Model not found." 404))
              (state_of (loadModel "m1" ex_active))) as (s' & Hs & _ & Hcur).
  destruct (Hcur eq_refl) as (_ & Hh & Herr).
  destruct (Herr _ eq_refl) as (Hstore & _ & _ & He).
  exists s'. split; [exact Hs | split; [exact Hh | split; [ | exact He]]].
  rewrite Hstore. reflexivity.
Defined.

(** X4.  An edit made while a load is in flight is neither saved nor
    kept: under the hydration guard the edit changes the model of the store
    and nothing else (no timer is armed), and when the latest load's fetch
    then succeeds the store holds the fetched model, with the timers as they
    were before the edit. *)
Theorem edit_during_hydration_is_discarded :
  forall (s : Ctl) (m : FlatC4Model) (data : ModelSummary),
    isHydratingRef s = true ->
    mutateStore m s = set_storeModel m s /\
    exists s',
      loadModel_resume (loadTokenRef s) (Resolved data) (mutateStore m s) = Fin s' tt /\
      storeModel s' = model_or_empty data /\
      timers s' = timers s /\
      saveTimeoutRef s' = saveTimeoutRef s.
Proof.
  intros s m data Hhyd.
  rewrite (mutateStore_hydrating m s Hhyd). split; [reflexivity | ].
  change (loadTokenRef s) with (loadTokenRef (set_storeModel m s)).
  rewrite current_load_writes. eexists. split; [reflexivity | ].
  unfold setModel.
  rewrite (mutateStore_hydrating _ (set_storeModel m s) Hhyd).
  repeat split.
Qed.

Lemma edit_during_hydration_is_discarded_witness :
  isHydratingRef (state_of (loadModel "m1" ex_active)) = true /\
  exists s',
    loadModel_resume 1 (Resolved ex_detail)
      (mutateStore ex_edit2 (state_of (loadModel "m1" ex_active))) = Fin s' tt /\
    storeModel s' = ex_edit /\ timers s' = [].
Proof.
  split; [reflexivity | ].
  destruct (edit_during_hydration_is_discarded
              (state_of (loadModel "m1" ex_active)) ex_edit2 ex_detail eq_refl)
    as (_ & s' & H1 & H2 & H3 & _).
  exists s'. split; [exact H1 | split; [exact H2 | exact H3]].
Defined.

(** *** Saves *)

(** X5.  A timer that fires when no model is active writes nothing: the
    timer leaves the pending list, no request is issued, and no state cell
    and nothing of the store changes. *)
Theorem timer_without_model_writes_nothing :
  forall (s : Ctl) (h : positive),
    truthy (activeModelIdRef s) = false ->
    exists s',
      fireTimer h s = Fin s' tt /\
      st s' = st s /\ refs s' = refs s /\
      storeModel s' = storeModel s /\
      forall t, In t (timers s') -> t_id t <> h.
Proof.
  intros s h Hfalsy. unfold fireTimer, saveModelNow, nonfalsy. run_task.
  destruct (find _ (timers s)) as [t | ] eqn:Hfind; run_task.
  - rewrite Hfalsy. run_task. eexists. split; [reflexivity | ].
    repeat split. cbn. intros t' Hin. apply filter_In in Hin.
    destruct Hin as [_ Hne]. apply negb_true_iff in Hne.
    now apply Pos.eqb_neq in Hne.
  - exists s. repeat split. intros t' Hin Heq.
    apply (find_none _ _ Hfind) in Hin. apply Pos.eqb_eq in Heq. congruence.
Qed.

Lemma timer_without_model_writes_nothing_witness :
  truthy (activeModelIdRef ex_orphan) = false /\
  timers ex_orphan <> [] /\
  exists s', fireTimer 1%positive ex_orphan = Fin s' tt /\ timers s' = [].
Proof.
  split; [reflexivity | split; [discriminate | ]].
  destruct (timer_without_model_writes_nothing ex_orphan 1%positive eq_refl)
    as (s' & Hs & _).
  exists s'. split; [exact Hs | ].
  pose proof Hs as Hrun. vm_compute in Hrun. injection Hrun as <-. reflexivity.
Defined.

Lemma editing_ext (s s' : Ctl) (mid : Id) :
  refs s' = refs s -> env s' = env s -> Editing s mid -> Editing s' mid.
Proof.
  intros Hr He. unfold Editing, TimerTracked.
  change (activeModelIdRef s') with (activeModelIdRef (refs s')).
  change (isHydratingRef s') with (isHydratingRef (refs s')).
  change (saveTimeoutRef s') with (saveTimeoutRef (refs s')).
  change (subscribed s') with (subscribed (env s')).
  change (timers s') with (timers (env s')).
  rewrite Hr, He. exact (fun H => H).
Qed.

(** X6.  The life of a save.  With a model active, [saveModelNow] clears
    the error, shows "saving" and suspends on one update of that model with
    the snapshot it was given.  If the update resolves, the status is idle
    and the time of the last save is the clock at that moment.  If it is
    rejected, the status is "error" and the message is recorded; nothing is
    retried, and editing is not blocked: the next qualifying edit arms the
    600 ms timer as usual. *)
Theorem save_outcome :
  forall (s : Ctl) (mid : Id) (m : FlatC4Model),
    activeModelIdRef s = Some mid -> mid <> "" ->
    exists s1 k,
      saveModelNow m s = Susp s1 (updateModel mid (save_patch m)) k /\
      saveStatus s1 = Saving /\ error s1 = None /\
      (forall reply s2,
         exists s3,
           k (Resolved reply) s2 = Fin s3 tt /\
           saveStatus s3 = Idle /\
           lastSavedAt s3 = Some (now s2) /\
           error s3 = error s2) /\
      (forall err s2,
         exists s3,
           k (Rejected err) s2 = Fin s3 tt /\
           saveStatus s3 = Error /\
           error s3 = Some (getErrorMessage err) /\
           lastSavedAt s3 = lastSavedAt s2 /\
           forall m',
             Editing s2 mid ->
             exists h, timers (mutateStore m' s3) = [mkTimer h 600 m']).
Proof.
  intros s mid m Hact Hne. pose proof Hne as Hne'. apply String.eqb_neq in Hne'.
  unfold saveModelNow, nonfalsy, truthy. run_task. rewrite Hact, Hne'. run_task.
  eexists. eexists. split; [reflexivity | ].
  split; [reflexivity | split; [reflexivity | split]].
  - intros reply s2. eexists. split; [reflexivity | ]. repeat split.
  - intros err s2. eexists. split; [reflexivity | ].
    split; [reflexivity | split; [reflexivity | split; [reflexivity | ]]].
    intros m' Hed.
    assert (Hed' : Editing
              (setError (Some (getErrorMessage err)) (setSaveStatus Error s2)) mid)
      by (apply (editing_ext s2); [reflexivity | reflexivity | exact Hed]).
    destruct (edit_arms m' _ mid Hed') as (_ & Ht & _).
    eexists. exact Ht.
Qed.

Lemma save_outcome_witness :
  activeModelIdRef ex_active = Some "m1" /\ "m1" <> "" /\
  issued (saveModelNow ex_edit ex_active) =
    Some (CallUpdateModel "m1" (save_patch ex_edit)) /\
  saveStatus (state_of (saveModelNow ex_edit ex_active)) = Saving.
Proof.
  assert (Hne : "m1" <> "") by discriminate.
  destruct (save_outcome ex_active "m1" ex_edit eq_refl Hne)
    as (s1 & k & Hs & Hst & _).
  split; [reflexivity | split; [exact Hne | ]].
  rewrite Hs. split; [reflexivity | exact Hst].
Defined.

(** *** Selection *)

(** X7.  Selecting what is already selected does nothing at all:
    [selectProject] and [selectModel] called with the id their ref holds
    (null included) return at once, without a request and without touching
    the state; in particular a pending save stays pending. *)
Theorem select_same_is_noop :
  forall (s : Ctl),
    selectProject (activeProjectIdRef s) s = Fin s tt /\
    selectModel (activeModelIdRef s) s = Fin s tt.
Proof.
  intros s. unfold selectProject, selectModel. run_task.
  assert (Hrefl : forall a, same_id a a = true) by (intros a; now apply same_id_eq).
  rewrite !Hrefl. split; reflexivity.
Qed.

(** X8.  The create callbacks switch the selection without flushing.
    [handleCreateProject] and [handleCreateModel] issue the create request
    first and leave the timers as they are; when the request has succeeded
    they put the new entry at the head of its listing and make it active
    without issuing any other request; and the cleanup of the subscription,
    which React runs because the active model changed, cancels whatever
    timer was pending: a pending snapshot is not written by any of these
    steps. *)
Theorem create_switches_without_flush :
  forall (s : Ctl),
    (forall payload,
     exists s1 k,
       handleCreateProject payload s = Susp s1 (createProject payload) k /\
       timers s1 = timers s /\
       forall reply s2,
         TimerTracked s2 -> subscribed s2 = true ->
         exists s3,
           k (Resolved reply) s2 = Fin s3 (Some reply) /\
           projects s3 = reply :: projects s2 /\
           activeProjectId s3 = Some (id reply) /\
           activeModelId s3 = None /\
           timers s3 = timers s2 /\
           timers (unsubscribeStore s3) = [] /\
           saveTimeoutRef (unsubscribeStore s3) = None) /\
    (forall projectId payload,
     exists s1 k,
       handleCreateModel projectId payload s =
         Susp s1 (createModel projectId payload) k /\
       timers s1 = timers s /\
       forall reply s2,
         TimerTracked s2 -> subscribed s2 = true ->
         exists s3,
           k (Resolved reply) s2 = Fin s3 (Some reply) /\
           models s3 = reply :: models s2 /\
           activeProjectId s3 = Some projectId /\
           activeModelId s3 = Some (m_id reply) /\
           timers s3 = timers s2 /\
           timers (unsubscribeStore s3) = [] /\
           saveTimeoutRef (unsubscribeStore s3) = None).
Proof.
  intros s.
  assert (Hclean : forall s3 : Ctl,
            TimerTracked s3 -> subscribed s3 = true ->
            timers (unsubscribeStore s3) = [] /\
            saveTimeoutRef (unsubscribeStore s3) = None).
  { intros s3 Htr Hsub. unfold unsubscribeStore. rewrite Hsub.
    destruct (saveTimeoutRef s3) as [h | ] eqn:Href; cbn.
    - split; [apply (tracked_clear s3 h Htr Href) | reflexivity].
    - destruct Htr as [Hnil | (t & _ & H)]; [ | congruence].
      split; [exact Hnil | exact Href]. }
  split.
  - intros payload. eexists. eexists. split; [reflexivity | ].
    split; [reflexivity | ].
    intros reply s2 Htr Hsub. run_task. eexists. split; [reflexivity | ].
    repeat split; apply Hclean; assumption.
  - intros projectId payload. eexists. eexists. split; [reflexivity | ].
    split; [reflexivity | ].
    intros reply s2 Htr Hsub. run_task. eexists. split; [reflexivity | ].
    repeat split; apply Hclean; assumption.
Qed.

Lemma create_switches_without_flush_witness :
  PendingSave ex_edited "m1" /\
  TimerTracked ex_edited /\ subscribed ex_edited = true /\
  exists s1 k s3,
    handleCreateModel "p1" ex_payload ex_edited =
      Susp s1 (createModel "p1" ex_payload) k /\
    k (Resolved (ex_summary "m2" "p1")) ex_edited =
      Fin s3 (Some (ex_summary "m2" "p1")) /\
    timers s3 <> [] /\
    timers (unsubscribeStore s3) = [].
Proof.
  assert (Hp : PendingSave ex_edited "m1").
  { split; [reflexivity | split; [discriminate | ]].
    eexists. split; reflexivity. }
  assert (Htr : TimerTracked ex_edited).
  { right. eexists. split; reflexivity. }
  split; [exact Hp | split; [exact Htr | split; [reflexivity | ]]].
  destruct (create_switches_without_flush ex_edited) as [_ Hm].
  destruct (Hm "p1" ex_payload) as (s1 & k & Hs & _ & Hk).
  destruct (Hk (ex_summary "m2" "p1") ex_edited Htr eq_refl)
    as (s3 & H3 & _ & _ & _ & Ht & Hc & _).
  exists s1, k, s3. split; [exact Hs | split; [exact H3 | split; [ | exact Hc]]].
  rewrite Ht. discriminate.
Defined.

(** *** Failures and listings *)

(** X9.  A rejected request never disturbs the caches: each of the six
    create, update and delete callbacks, when the request it awaits is
    rejected, records the message of the error and changes nothing else
    (listings, selection, refs, store and timers are what they were when
    the rejection arrived), and returns null, or false for a delete. *)
Theorem rejection_only_records_error :
  forall (s s2 : Ctl) (err : JsError),
    (forall p, exists s1 k,
       handleCreateProject p s = Susp s1 (createProject p) k /\
       k (Rejected err) s2 = Fin (setError (Some (getErrorMessage err)) s2) None) /\
    (forall i p, exists s1 k,
       handleUpdateProject i p s = Susp s1 (updateProject i p) k /\
       k (Rejected err) s2 = Fin (setError (Some (getErrorMessage err)) s2) None) /\
    (forall i, exists s1 k,
       handleDeleteProject i s = Susp s1 (deleteProject i) k /\
       k (Rejected err) s2 = Fin (setError (Some (getErrorMessage err)) s2) false) /\
    (forall i p, exists s1 k,
       handleCreateModel i p s = Susp s1 (createModel i p) k /\
       k (Rejected err) s2 = Fin (setError (Some (getErrorMessage err)) s2) None) /\
    (forall i p, exists s1 k,
       handleUpdateModel i p s =
         Susp s1 (updateModel i (mkPatch (Some (p_name p)) (p_description p) None)) k /\
       k (Rejected err) s2 = Fin (setError (Some (getErrorMessage err)) s2) None) /\
    (forall i, exists s1 k,
       handleDeleteModel i s = Susp s1 (deleteModel i) k /\
       k (Rejected err) s2 = Fin (setError (Some (getErrorMessage err)) s2) false).
Proof.
  intros s s2 err.
  repeat match goal with |- _ /\ _ => split end; intros;
    try (unfold handleDeleteModel; run_task);
    eexists; eexists; split; reflexivity.
Qed.

(** X10.  [refreshProjects] shows the listing as loading while the fetch
    is in flight and as loaded once it has settled, whatever the outcome; a
    success replaces the project listing wholesale, a failure keeps it and
    records the message; in both cases the selection, the model listing,
    the refs, the store and the timers are not touched. *)
Theorem refreshProjects_outcome :
  forall (s : Ctl),
  exists s1 k,
    refreshProjects s = Susp s1 fetchProjects k /\
    isLoadingProjects s1 = true /\ error s1 = None /\
    projects s1 = projects s /\
    forall out s2,
    exists s3,
      k out s2 = Fin s3 tt /\
      isLoadingProjects s3 = false /\
      activeProjectId s3 = activeProjectId s2 /\
      activeModelId s3 = activeModelId s2 /\
      models s3 = models s2 /\
      refs s3 = refs s2 /\ env s3 = env s2 /\
      (forall data, out = Resolved data ->
         projects s3 = data /\ error s3 = error s2) /\
      (forall err, out = Rejected err ->
         projects s3 = projects s2 /\ error s3 = Some (getErrorMessage err)).
Proof.
  intros s. eexists. eexists. split; [reflexivity | ].
  split; [reflexivity | split; [reflexivity | split; [reflexivity | ]]].
  intros [data | err] s2; eexists; (split; [reflexivity | ]);
    (do 6 (split; [reflexivity | ])); split; intros x Hout;
    try discriminate Hout; injection Hout as <-; split; reflexivity.
Qed.

(** X11.  [refreshModels] fetches the models of the project it is given,
    and of the project in the ref only when it is given none.  With no
    such project (none given and the ref null or empty) it issues no
    request: it empties the model listing and shows it as loaded. *)
Theorem refreshModels_target :
  forall (s : Ctl),
    (forall p, p <> "" ->
       issued (refreshModels (Some p) s) = Some (CallFetchModels p)) /\
    (forall p, activeProjectIdRef s = Some p -> p <> "" ->
       issued (refreshModels None s) = Some (CallFetchModels p)) /\
    (truthy (activeProjectIdRef s) = false ->
       refreshModels None s =
       Fin (setIsLoadingModels false (setModels (fun _ => []) s)) tt).
Proof.
  intros s. unfold refreshModels, nonfalsy, truthy. run_task.
  split; [ | split].
  - intros p Hne. apply String.eqb_neq in Hne. now rewrite Hne.
  - intros p Href Hne. apply String.eqb_neq in Hne. now rewrite Href, Hne.
  - intros Hfalsy. now rewrite Hfalsy.
Qed.

Lemma refreshModels_target_witness :
  issued (refreshModels (Some "p2") ex_active) = Some (CallFetchModels "p2") /\
  issued (refreshModels None ex_active) = Some (CallFetchModels "p1") /\
  issued (refreshModels None ex_loading) = None.
Proof.
  destruct (refreshModels_target ex_active) as (H1 & H2 & _).
  destruct (refreshModels_target ex_loading) as (_ & _ & H3).
  split; [apply H1; discriminate | split; [apply H2; [reflexivity | discriminate] | ]].
  now rewrite (H3 eq_refl).
Defined.

Lemma replace_keeps_project_ids (reply : ProjectSummary) (l : list ProjectSummary) :
  map id (map (fun item => if id item =? id reply then reply else item) l) = map id l.
Proof.
  induction l as [ | item l IH]; cbn; [reflexivity | ].
  rewrite IH. destruct (id item =? id reply) eqn:E; [ | reflexivity].
  apply String.eqb_eq in E. now rewrite E.
Qed.

Lemma replace_keeps_model_ids (reply : ModelSummary) (l : list ModelSummary) :
  map m_id (map (fun item => if m_id item =? m_id reply then reply else item) l)
  = map m_id l.
Proof.
  induction l as [ | item l IH]; cbn; [reflexivity | ].
  rewrite IH. destruct (m_id item =? m_id reply) eqn:E; [ | reflexivity].
  apply String.eqb_eq in E. now rewrite E.
Qed.

(** X12.  An update keeps the shape of the listing.  When
    [handleUpdateProject] (or [handleUpdateModel]) has succeeded, the
    listing has the same ids in the same order as before; each entry that
    carries the id of the reply is the reply, each other entry is what it
    was; the other listing, the selection, the refs, the store and the
    timers are untouched, and no further request is issued. *)
Theorem update_keeps_listing_shape :
  forall (s : Ctl),
    (forall i p, exists s1 k,
       handleUpdateProject i p s = Susp s1 (updateProject i p) k /\
       forall reply s2, exists s3,
         k (Resolved reply) s2 = Fin s3 (Some reply) /\
         map id (projects s3) = map id (projects s2) /\
         Forall2 (fun old new =>
                    if id old =? id reply then new = reply else new = old)
           (projects s2) (projects s3) /\
         models s3 = models s2 /\
         activeProjectId s3 = activeProjectId s2 /\
         activeModelId s3 = activeModelId s2 /\
         refs s3 = refs s2 /\ env s3 = env s2) /\
    (forall i p, exists s1 k,
       handleUpdateModel i p s =
         Susp s1 (updateModel i (mkPatch (Some (p_name p)) (p_description p) None)) k /\
       forall reply s2, exists s3,
         k (Resolved reply) s2 = Fin s3 (Some reply) /\
         map m_id (models s3) = map m_id (models s2) /\
         Forall2 (fun old new =>
                    if m_id old =? m_id reply then new = reply else new = old)
           (models s2) (models s3) /\
         projects s3 = projects s2 /\
         activeProjectId s3 = activeProjectId s2 /\
         activeModelId s3 = activeModelId s2 /\
         refs s3 = refs s2 /\ env s3 = env s2).
Proof.
  intros s. split; intros i p; eexists; eexists; (split; [reflexivity | ]);
    intros reply s2; eexists; (split; [reflexivity | ]); cbn.
  - split; [apply replace_keeps_project_ids | ].
    split; [ | repeat split].
    induction (projects s2) as [ | item l IH]; cbn; constructor; [ | exact IH].
    destruct (id item =? id reply); reflexivity.
  - split; [apply replace_keeps_model_ids | ].
    split; [ | repeat split].
    induction (models s2) as [ | item l IH]; cbn; constructor; [ | exact IH].
    destruct (m_id item =? m_id reply); reflexivity.
Qed.

(** *** Deleting a model *)

Lemma recount_keeps_project_ids (f : ProjectSummary -> Z) (pid : Id)
    (l : list ProjectSummary) :
  map id (map (fun item => if id item =? pid
                           then with_modelCount item (f item) else item) l)
  = map id l.
Proof.
  induction l as [ | item l IH]; cbn; [reflexivity | ].
  rewrite IH. destruct (id item =? pid); reflexivity.
Qed.

(** X13.  What a successful [handleDeleteModel] does to the selection.  The
    model leaves the cached listing; the project listing keeps its ids and
    their order, and the active project stays.  If the deleted model was
    the active one, no model is active any more and the store holds the
    empty model; otherwise the active model, the refs, the store and the
    timers are untouched.  The project whose counter is lowered is looked
    up in the listing the callback closed over: when the model was not in
    the listing at the time of the call, no counter changes, whatever the
    listing holds by the time the request settles. *)
Theorem delete_model_effect :
  forall (s : Ctl) (modelId : Id),
  exists s1 k,
    handleDeleteModel modelId s = Susp s1 (deleteModel modelId) k /\
    forall (s2 : Ctl),
      InSync s2 ->
      exists s3,
        k (Resolved tt) s2 = Fin s3 true /\
        models s3 = filter (fun item => negb (m_id item =? modelId)) (models s2) /\
        map id (projects s3) = map id (projects s2) /\
        activeProjectId s3 = activeProjectId s2 /\
        (activeModelId s2 = Some modelId ->
           activeModelId s3 = None /\ storeModel s3 = createEmptyModel) /\
        (activeModelId s2 <> Some modelId ->
           activeModelId s3 = activeModelId s2 /\
           refs s3 = refs s2 /\ env s3 = env s2) /\
        (find (fun item => m_id item =? modelId) (models s) = None ->
           projects s3 = projects s2).
Proof.
  intros s modelId. unfold handleDeleteModel. run_task.
  eexists. eexists. split; [reflexivity | ].
  intros s2 [_ Hm].
  destruct (find (fun item => m_id item =? modelId) (models s)) as [x | ] eqn:Hf;
    cbn [option_map]; unfold nonfalsy;
    [destruct (truthy (Some (projectId x))) | cbn [truthy]]; run_task;
    (destruct (same_id (activeModelIdRef s2) (Some modelId)) eqn:Hsame; run_task;
     eexists; (split; [reflexivity | ]);
     rewrite ?setModel_st, ?setModel_store; cbn;
     (split; [reflexivity | ]);
     (split; [try apply recount_keeps_project_ids; reflexivity | ]);
     (split; [reflexivity | ]);
     [ apply same_id_eq in Hsame; rewrite Hm in Hsame;
       split; [intros _; split; reflexivity | ];
       split; [intros Habs; congruence | intros H0; try discriminate H0; reflexivity]
     | split; [intros Habs; rewrite <- Hm in Habs; apply same_id_eq in Habs;
               congruence | ];
       split; [intros _; repeat split | intros H0; try discriminate H0; reflexivity] ]).
Qed.

(** The witness: deleting the active model "m1", and deleting "m9". *)
Lemma delete_model_effect_witness :
  InSync ex_active /\
  (exists s1 k s3,
      handleDeleteModel "m1" ex_active = Susp s1 (deleteModel "m1") k /\
      k (Resolved tt) ex_active = Fin s3 true /\
      activeModelId s3 = None /\ activeProjectId s3 = Some "p1") /\
  (exists s1 k s3,
      handleDeleteModel "m9" ex_active = Susp s1 (deleteModel "m9") k /\
      k (Resolved tt) ex_active = Fin s3 true /\
      activeModelId s3 = Some "m1" /\ projects s3 = projects ex_active).
Proof.
  assert (H : InSync ex_active) by (split; reflexivity).
  split; [exact H | split].
  - destruct (delete_model_effect ex_active "m1") as (s1 & k & Hs & Hk).
    destruct (Hk ex_active H) as (s3 & H3 & _ & _ & Hp & Hact & _).
    exists s1, k, s3.
    split; [exact Hs | split; [exact H3 | split; [now apply Hact | exact Hp]]].
  - destruct (delete_model_effect ex_active "m9") as (s1 & k & Hs & Hk).
    destruct (Hk ex_active H) as (s3 & H3 & _ & _ & _ & _ & Hoth & Hstale).
    exists s1, k, s3.
    split; [exact Hs | split; [exact H3 | split]].
    + destruct Hoth as [Ha _]; [discriminate | exact Ha].
    + apply Hstale. reflexivity.
Defined.

(** X14.  Deleting what is being edited arms a save for it.  When the
    active model (or the active project) is deleted while the listener is
    attached and no load is in flight, the reset of the store at the end of
    the callback is an edit like any other: the ref still names the deleted
    model, so a debounce timer is armed with the empty model as its
    snapshot.  Were that timer to fire, the empty model would be written to
    the deleted model.  The cleanup of the subscription, which React runs
    because the active model changed, cancels it. *)
Theorem delete_active_arms_save :
  forall (s : Ctl) (mid : Id),
    (exists s1 k,
       handleDeleteModel mid s = Susp s1 (deleteModel mid) k /\
       forall s2, Editing s2 mid ->
         exists s3,
           k (Resolved tt) s2 = Fin s3 true /\
           activeModelId s3 = None /\
           activeModelIdRef s3 = Some mid /\
           timers s3 = [mkTimer (nextTimer s2) DEBOUNCE_MS createEmptyModel] /\
           saveTimeoutRef s3 = Some (nextTimer s2) /\
           issued (fireTimer (nextTimer s2) s3) =
             Some (CallUpdateModel mid (save_patch createEmptyModel)) /\
           timers (unsubscribeStore s3) = []) /\
    (forall pid, exists s1 k,
       handleDeleteProject pid s = Susp s1 (deleteProject pid) k /\
       forall s2, Editing s2 mid -> activeProjectIdRef s2 = Some pid ->
         exists s3,
           k (Resolved tt) s2 = Fin s3 true /\
           activeModelId s3 = None /\
           activeModelIdRef s3 = Some mid /\
           timers s3 = [mkTimer (nextTimer s2) DEBOUNCE_MS createEmptyModel] /\
           saveTimeoutRef s3 = Some (nextTimer s2) /\
           issued (fireTimer (nextTimer s2) s3) =
             Some (CallUpdateModel mid (save_patch createEmptyModel)) /\
           timers (unsubscribeStore s3) = []).
Proof.
  intros s mid.
  assert (Hreset : forall s' : Ctl, Editing s' mid ->
            let s3 := setModel createEmptyModel s' in
            activeModelId s3 = activeModelId s' /\
            activeModelIdRef s3 = Some mid /\
            timers s3 = [mkTimer (nextTimer s') DEBOUNCE_MS createEmptyModel] /\
            saveTimeoutRef s3 = Some (nextTimer s') /\
            issued (fireTimer (nextTimer s') s3) =
              Some (CallUpdateModel mid (save_patch createEmptyModel)) /\
            timers (unsubscribeStore s3) = []).
  { intros s' He s3. unfold s3, setModel.
    destruct (edit_arms createEmptyModel s' mid He) as (He' & Ht & Href).
    destruct He' as (Hid & Hne & Hsub & _ & Htr).
    split; [now rewrite (proj1 (mutateStore_frame createEmptyModel s')) | ].
    split; [exact Hid | split; [exact Ht | split; [exact Href | split]]].
    - destruct (fireTimer_writes _ mid _ Hid Hne Ht) as (s4 & k4 & Hfire & _).
      cbn [t_id] in Hfire. rewrite Hfire. reflexivity.
    - unfold unsubscribeStore. rewrite Hsub, Href. cbn.
      apply (tracked_clear _ _ Htr Href). }
  split.
  - unfold handleDeleteModel. run_task.
    eexists. eexists. split; [reflexivity | ].
    intros s2 He.
    assert (Hid : activeModelIdRef s2 = Some mid) by apply He.
    assert (Hsame : same_id (activeModelIdRef s2) (Some mid) = true)
      by (now apply same_id_eq).
    match goal with
    | |- context [nonfalsy ?o] => destruct (nonfalsy o)
    end; run_task; rewrite Hsame; run_task;
      (eexists; split; [reflexivity | ]);
      match goal with
      | |- context [setModel createEmptyModel ?x] =>
          assert (He' : Editing x mid)
            by (apply (editing_ext s2); [reflexivity | reflexivity | exact He]);
          destruct (Hreset x He') as (H1 & H2 & H3 & H4 & H5 & H6)
      end;
      (split; [rewrite H1; reflexivity | ]);
      (split; [exact H2 | split; [exact H3 | split; [exact H4 | split;
         [exact H5 | exact H6]]]]).
  - intros pid. eexists. eexists. split; [reflexivity | ].
    intros s2 He Hp.
    assert (Hsame : same_id (activeProjectIdRef s2) (Some pid) = true)
      by (now apply same_id_eq).
    run_task. rewrite Hsame. run_task.
    eexists. split; [reflexivity | ].
    match goal with
    | |- context [setModel createEmptyModel ?x] =>
        assert (He' : Editing x mid)
          by (apply (editing_ext s2); [reflexivity | reflexivity | exact He]);
        destruct (Hreset x He') as (H1 & H2 & H3 & H4 & H5 & H6)
    end.
    split; [rewrite H1; reflexivity | ].
    split; [exact H2 | split; [exact H3 | split; [exact H4 | split;
      [exact H5 | exact H6]]]].
Qed.

(** The witness: "m1" is deleted while it is being edited. *)
Lemma delete_active_arms_save_witness :
  Editing ex_edited "m1" /\
  exists s1 k s3,
    handleDeleteModel "m1" ex_edited = Susp s1 (deleteModel "m1") k /\
    k (Resolved tt) ex_edited = Fin s3 true /\
    issued (fireTimer (nextTimer ex_edited) s3) =
      Some (CallUpdateModel "m1" (save_patch createEmptyModel)).
Proof.
  assert (He : Editing ex_edited "m1").
  { split; [reflexivity | split; [discriminate | split; [reflexivity | ]]].
    split; [reflexivity | ]. right. eexists. split; reflexivity. }
  split; [exact He | ].
  destruct (delete_active_arms_save ex_edited "m1") as [(s1 & k & Hs & Hk) _].
  destruct (Hk ex_edited He) as (s3 & H3 & _ & _ & _ & _ & Hfire & _).
  exists s1, k, s3. split; [exact Hs | split; [exact H3 | exact Hfire]].
Defined.

(** X15.  The cached counters never go negative.  If every cached project
    has a non-negative [modelCount], this is still so after a successful
    [handleCreateModel] and after a successful [handleDeleteModel],
    whatever the reply and whatever the cached model listing holds: the
    lowering of a counter stops at zero. *)
Theorem model_counts_never_negative :
  forall (s : Ctl),
    (forall projectId payload, exists s1 k,
       handleCreateModel projectId payload s =
         Susp s1 (createModel projectId payload) k /\
       forall reply (s2 : Ctl),
         (forall p, In p (projects s2) -> (0 <= modelCount p)%Z) ->
         exists s3,
           k (Resolved reply) s2 = Fin s3 (Some reply) /\
           forall p, In p (projects s3) -> (0 <= modelCount p)%Z) /\
    (forall modelId, exists s1 k,
       handleDeleteModel modelId s = Susp s1 (deleteModel modelId) k /\
       forall (s2 : Ctl),
         (forall p, In p (projects s2) -> (0 <= modelCount p)%Z) ->
         exists s3,
           k (Resolved tt) s2 = Fin s3 true /\
           forall p, In p (projects s3) -> (0 <= modelCount p)%Z).
Proof.
  intros s. split.
  - intros pid payload. eexists. eexists. split; [reflexivity | ].
    intros reply s2 Hpos. run_task. eexists. split; [reflexivity | ].
    cbn. intros p' Hin. apply in_map_iff in Hin. destruct Hin as (p & <- & Hin).
    specialize (Hpos p Hin). destruct (id p =? pid); cbn; lia.
  - intros modelId. unfold handleDeleteModel. run_task.
    eexists. eexists. split; [reflexivity | ].
    intros s2 Hpos.
    match goal with
    | |- context [nonfalsy ?o] => destruct (nonfalsy o)
    end; run_task;
      (destruct (same_id (activeModelIdRef s2) (Some modelId)); run_task;
       eexists; (split; [reflexivity | ]);
       rewrite ?setModel_st; cbn; intros p' Hin;
       try (apply in_map_iff in Hin; destruct Hin as (p & <- & Hin);
            specialize (Hpos p Hin); destruct (id p =? _); cbn; lia);
       now apply Hpos).
Qed.

(** The witness: the last model of a project whose counter is already at
    zero is deleted. *)
Lemma model_counts_never_negative_witness :
  let s := setProjects (fun _ => [ex_project "p1" 0]) ex_active in
  (forall p, In p (projects s) -> (0 <= modelCount p)%Z) /\
  exists s1 k s3,
    handleDeleteModel "m1" s = Susp s1 (deleteModel "m1") k /\
    k (Resolved tt) s = Fin s3 true /\
    forall p, In p (projects s3) -> (0 <= modelCount p)%Z.
Proof.
  intros s.
  assert (Hpos : forall p, In p (projects s) -> (0 <= modelCount p)%Z).
  { intros p [<- | []]. cbn. lia. }
  split; [exact Hpos | ].
  destruct (model_counts_never_negative s) as [_ Hd].
  destruct (Hd "m1") as (s1 & k & Hs & Hk).
  destruct (Hk s Hpos) as (s3 & H3 & Hpos3).
  exists s1, k, s3. split; [exact Hs | split; [exact H3 | exact Hpos3]].
Defined.

(** *** Reconciliation reaches a fixed point *)

(** X16.  One pass of reconciliation is enough.  Start from a render whose
    refs mirror the rendered ids, run the reconciliation of the active
    project (or of the active model), let React render the result and the
    two ref effects copy the new ids: on that render the reconciliation
    changes nothing any more.  In particular it never oscillates between
    two selections, and the second pass over an empty listing arms no
    save. *)
Theorem reconciliation_settles :
  forall (s : Ctl),
    InSync s ->
    (let s1 := reconcileProjects s s in
     let s2 := syncActiveModelIdRef s1 (syncActiveProjectIdRef s1 s1) in
     reconcileProjects s2 s2 = s2) /\
    (let s1 := reconcileModels s s in
     let s2 := syncActiveModelIdRef s1 (syncActiveProjectIdRef s1 s1) in
     reconcileModels s2 s2 = s2).
Proof.
  intros [[ps ms ap am lp lm lmd ss ls er] [apr amr hy tmo tok] [sm sub tm nt nw]]
    [Hp Hm].
  cbn in Hp, Hm. subst apr amr.
  assert (Hhead : forall (p : ProjectSummary) l,
            has_project (p :: l) (Some (id p)) = true).
  { intros p l. cbn. now rewrite String.eqb_refl. }
  assert (Hheadm : forall (m : ModelSummary) l,
            has_model (m :: l) (Some (m_id m)) = true).
  { intros m l. cbn. now rewrite String.eqb_refl. }
  split.
  - unfold reconcileProjects, syncActiveModelIdRef, syncActiveProjectIdRef.
    cbn -[has_project truthy setModel String.eqb].
    destruct lp; [reflexivity | ].
    destruct ps as [ | p ps].
    + unfold setModel, mutateStore, storeListener, queueSave, setTimeout, clearTimeout.
      cbn -[String.eqb].
      destruct sub, hy; cbn -[String.eqb]; try reflexivity;
        destruct am as [m | ]; cbn -[String.eqb]; try reflexivity;
        destruct (m =? ""); cbn; try reflexivity;
        destruct tmo; reflexivity.
    + destruct (truthy ap) eqn:Ht; cbn -[has_project truthy String.eqb].
      * destruct (has_project (p :: ps) ap) eqn:Hh;
          cbn -[has_project truthy String.eqb].
        -- rewrite Ht. cbn -[has_project]. rewrite Hh. reflexivity.
        -- destruct (truthy (Some (id p))); cbn -[has_project]; [ | reflexivity].
           rewrite Hhead. reflexivity.
      * destruct (truthy (Some (id p))); cbn -[has_project]; [ | reflexivity].
        rewrite Hhead. reflexivity.
  - unfold reconcileModels, syncActiveModelIdRef, syncActiveProjectIdRef.
    cbn -[has_model truthy setModel String.eqb].
    destruct (lm || negb (truthy ap)) eqn:Hskip;
      cbn -[has_model truthy setModel String.eqb];
      [rewrite Hskip; reflexivity | ].
    destruct ms as [ | m ms].
    + destruct lm; [discriminate Hskip | ].
      destruct ap as [a | ]; [ | discriminate Hskip].
      cbn in Hskip. destruct (a =? "") eqn:Ha; [discriminate Hskip | ].
      unfold setModel, mutateStore, storeListener, queueSave, setTimeout, clearTimeout.
      cbn -[String.eqb].
      destruct sub, hy; cbn -[String.eqb]; rewrite ?Ha; cbn -[String.eqb];
        try reflexivity;
        destruct am as [m | ]; cbn -[String.eqb]; rewrite ?Ha; cbn -[String.eqb];
        try reflexivity;
        destruct (m =? ""); cbn -[String.eqb]; rewrite ?Ha; cbn -[String.eqb];
        try reflexivity;
        destruct tmo; cbn -[String.eqb]; rewrite ?Ha; reflexivity.
    + destruct (truthy am) eqn:Ht; cbn -[has_model truthy String.eqb].
      * destruct (has_model (m :: ms) am) eqn:Hh;
          cbn -[has_model truthy String.eqb]; rewrite Hskip.
        -- rewrite Ht. cbn -[has_model]. rewrite Hh. reflexivity.
        -- destruct (truthy (Some (m_id m))); cbn -[has_model]; [ | reflexivity].
           rewrite Hheadm. reflexivity.
      * rewrite Hskip.
        destruct (truthy (Some (m_id m))); cbn -[has_model]; [ | reflexivity].
        rewrite Hheadm. reflexivity.
Qed.

(** The witness: the listings of [ex_stale] no longer hold the selection;
    one pass selects the first project, and the next pass keeps it. *)
Lemma reconciliation_settles_witness :
  InSync ex_stale /\
  activeProjectId (reconcileProjects ex_stale ex_stale) = Some "p2" /\
  (let s1 := reconcileProjects ex_stale ex_stale in
   let s2 := syncActiveModelIdRef s1 (syncActiveProjectIdRef s1 s1) in
   reconcileProjects s2 s2 = s2).
Proof.
  assert (H : InSync ex_stale) by (split; reflexivity).
  split; [exact H | split; [reflexivity | ]].
  exact (proj1 (reconciliation_settles ex_stale H)).
Defined.

End ControllerProperties.

(* ===================================================================== *)
(** * Part IV: properties of the server *)
(* ===================================================================== *)

Section ServerProperties.
Import Server.
Local Open Scope list_scope.

(** ** The tests of the repository, replayed on the mock pool *)

(** "rejects project creation without name" *)
Example test_rejects_project_without_name :
  post_projects "uuid-1" (Some (JObj [])) createMockPool =
  (createMockPool, mkResponse 400 (ErrorBody "Project name is required.")).
Proof. reflexivity. Qed.

(** "creates a project" *)
Example test_creates_a_project :
  snd (post_projects "uuid-1" (Some (JObj [("name", JStr "Core Platform")]))
         (mkMock [] [[ex_row]] [] false)) =
  mkResponse 201
    (ProjectBody
       (mkProjectSummary "proj-1" "Core Platform" None
          "2026-01-01T10:00:00.000Z" "2026-01-01T10:00:00.000Z" 0)).
Proof. reflexivity. Qed.

(** "restores backup data" *)
Example test_restores_backup_data :
  let '(pool, response) :=
    post_restore "2026-02-01T00:00:00.000Z" (Some ex_backup) createMockPool in
  response = mkResponse 200 (RestoredBody "ok" 1 1) /\
  nth_error (clientCalls pool) 0 = Some (mkQuery Begin None) /\
  nth_error (clientCalls pool) 1 = Some (mkQuery DeleteModels None) /\
  nth_error (clientCalls pool) 2 = Some (mkQuery DeleteProjects None) /\
  last (clientCalls pool) (mkQuery Rollback None) = mkQuery Commit None /\
  released pool = true.
Proof. vm_compute. repeat split; reflexivity. Qed.

(** The same restore on the stand-in database replaces the tables. *)
Example restore_on_database :
  let '(pg, response) :=
    post_restore "2026-02-01T00:00:00.000Z" (Some ex_backup) ex_pg in
  status response = 200 /\
  map row_id (projects_tbl (committed pg)) = ["proj-1"] /\
  map mrow_id (models_tbl (committed pg)) = ["model-1"] /\
  log pg = restore_plan "2026-02-01T00:00:00.000Z"
             [JObj [("id", JStr "proj-1"); ("name", JStr "Core");
                    ("description", JNull);
                    ("createdAt", JStr "2026-01-01T10:00:00.000Z");
                    ("updatedAt", JStr "2026-01-01T10:00:00.000Z")]]
             [JObj [("id", JStr "model-1"); ("projectId", JStr "proj-1");
                    ("name", JStr "System View"); ("description", JNull);
                    ("model", createEmptyModel);
                    ("createdAt", JStr "2026-01-01T10:00:00.000Z");
                    ("updatedAt", JStr "2026-01-01T10:00:00.000Z")]].
Proof. vm_compute. repeat split; reflexivity. Qed.

(** A backup that violates the reference from models to projects is
    refused as a whole. *)
Example restore_refused :
  let '(pg, response) :=
    post_restore "2026-02-01T00:00:00.000Z" (Some ex_bad_backup) ex_pg in
  status response = 500 /\
  committed pg = ex_db /\ working pg = None /\
  map text (log pg) =
    [Begin; DeleteModels; DeleteProjects; InsertProject; InsertModel; Rollback].
Proof. vm_compute. repeat split; reflexivity. Qed.

(** ** Creating a project *)

Lemma accepted_name_some (v : Value) (n : string) :
  accepted_name v = Some n -> v = Some (JStr n) /\ (n =? "")%string = false.
Proof.
  destruct v as [[ | b | z | s | l | f] | ]; cbn; try discriminate.
  destruct (s =? "")%string eqn:E; [discriminate | ].
  intros H. injection H as <-. split; [reflexivity | exact E].
Qed.

Lemma accepted_name_none (v : Value) :
  accepted_name v = None -> negb (js_truthy v) || negb (is_string v) = true.
Proof.
  destruct v as [[ | b | z | s | l | f] | ]; cbn; try reflexivity.
  - intros _. apply orb_true_r.
  - intros _. apply orb_true_r.
  - destruct (s =? "")%string; [reflexivity | discriminate].
Qed.

(** C8, as far as the code goes.  [POST /api/projects] on the stand-in
    database.  A name that is missing, null, not a string or the empty
    string is answered 400 "Project name is required." and nothing reaches
    the database.  A string name with something other than white space in
    it, the statement not failing and the new id unused: the answer is 201
    with the created project, whose name is the name trimmed, whose
    description is the one sent or null, whose model count is 0, and the
    project table has gained exactly that row. *)
Theorem create_project_validation :
  forall (pg : Pg) (uuid : string) (reqBody : Value),
    let name := member "name" (nullish reqBody (JObj [])) in
    let description := member "description" (nullish reqBody (JObj [])) in
    (accepted_name name = None ->
       post_projects uuid reqBody pg =
       (pg, mkResponse 400 (ErrorBody "Project name is required."))) /\
    (forall n,
       accepted_name name = Some n ->
       trim n <> ""%string ->
       working pg = None ->
       existsb (Nat.eqb (List.length (log pg))) (faults pg) = false ->
       has_project uuid (committed pg) = false ->
       exists pg',
         post_projects uuid reqBody pg =
         (pg', mkResponse 201
                 (ProjectBody
                    (mkProjectSummary uuid (trim n)
                       (sql_text (Some (nullish description JNull)))
                       (clock pg) (clock pg) 0))) /\
         projects_tbl (committed pg') =
           projects_tbl (committed pg) ++
           [mkProjectRow uuid (trim n)
              (sql_text (Some (nullish description JNull)))
              (clock pg) (clock pg) None None] /\
         models_tbl (committed pg') = models_tbl (committed pg) /\
         (nullish description JNull = JNull ->
            sql_text (Some (nullish description JNull)) = None)).
Proof.
  intros pg uuid reqBody name description. split.
  - intros Hrej. unfold post_projects. fold name.
    now rewrite (accepted_name_none _ Hrej).
  - intros n Hacc _ Hwork Hfault Hfresh.
    destruct (accepted_name_some _ _ Hacc) as [Hname Hne].
    unfold post_projects. fold name description. rewrite Hname. cbn [js_truthy is_string].
    rewrite Hne. cbn [negb orb].
    cbn [pool_query pg_pool]. unfold pg_query. rewrite Hfault. cbn [text].
    rewrite Hwork. unfold run_statement. cbn [text params].
    unfold project_row. cbn [sql_text]. unfold insert_project_row. cbn [row_id].
    rewrite Hfresh.
    eexists. split; [reflexivity | ]. cbn.
    repeat split. intros ->. reflexivity.
Qed.

(** The witness: a name with spaces around it and no description, on the
    sample database. *)
Lemma create_project_validation_witness :
  accepted_name (member "name" (JObj [("name", JStr "  Core Platform ")])) =
    Some "  Core Platform "%string /\
  trim "  Core Platform " <> ""%string /\
  snd (post_projects "uuid-1" (Some (JObj [("name", JStr "  Core Platform ")])) ex_pg) =
  mkResponse 201
    (ProjectBody
       (mkProjectSummary "uuid-1" "Core Platform" None
          "2026-02-01T00:00:00.000Z" "2026-02-01T00:00:00.000Z" 0)).
Proof.
  split; [reflexivity | split; [discriminate | ]].
  destruct (create_project_validation ex_pg "uuid-1"
              (Some (JObj [("name", JStr "  Core Platform ")]))) as [_ H].
  destruct (H "  Core Platform "%string eq_refl ltac:(discriminate) eq_refl eq_refl eq_refl)
    as (pg' & Hpost & _).
  rewrite Hpost. reflexivity.
Defined.

(** C8 as stated fails on a name that is there and is not blank but is
    not a string: the answer is 400, not 201, and nothing is inserted. *)
Lemma create_project_rejects_non_string :
  let reqBody := Some (JObj [("name", JNum 5)]) in
  member "name" (nullish reqBody (JObj [])) = Some (JNum 5) /\
  post_projects "uuid-1" reqBody ex_pg =
    (ex_pg, mkResponse 400 (ErrorBody "Project name is required.")) /\
  status (snd (post_projects "uuid-1" reqBody ex_pg)) <> 201.
Proof. repeat split. discriminate. Qed.

(** ** Restoring a backup *)

(** Every statement received is logged, whether it succeeds or not. *)
Lemma pg_query_log (q : Query) (pg : Pg) :
  log (fst (pg_query q pg)) = log pg ++ [q].
Proof.
  unfold pg_query.
  destruct (existsb _ (faults pg)); [reflexivity | ].
  destruct (text q); try reflexivity;
    destruct (working pg); try reflexivity;
    destruct (run_statement _ _ _) as [[d' rows] | ]; reflexivity.
Qed.

(** A ROLLBACK never touches the committed tables. *)
Lemma rollback_keeps_committed (pg : Pg) :
  committed (fst (pg_query (mkQuery Rollback None) pg)) = committed pg.
Proof.
  unfold pg_query. destruct (existsb _ (faults pg)); reflexivity.
Qed.

Lemma statement_pg (q : Query) (pg : Pg) :
  statement q pg =
  (fst (pg_query q pg),
   match snd (pg_query q pg) with Rows _ => true | Throws => false end).
Proof.
  unfold statement. cbn [client_query pg_pool].
  destruct (pg_query q pg) as [pg1 [rows | ]]; reflexivity.
Qed.

Lemma db_run_app (c : string) (qa qb : list Query) (d : Db) :
  db_run c (qa ++ qb) d =
  match db_run c qa d with
  | Some d1 => db_run c qb d1
  | None => None
  end.
Proof.
  revert d. induction qa as [ | q qa IH]; intros d; cbn; [reflexivity | ].
  destruct (run_statement c q d) as [[d1 rows] | ]; [apply IH | reflexivity].
Qed.

Lemma runs_statement (q : Query) : is_data q = true -> Runs (statement q) [q].
Proof.
  intros Hq pg d Hw. rewrite statement_pg. cbn [fst snd].
  unfold pg_query. rewrite Hw.
  destruct (existsb _ (faults pg)).
  - cbn. repeat split; try reflexivity.
    + exists 1. reflexivity.
    + eauto.
    + discriminate.
  - unfold is_data in Hq.
    destruct (text q) eqn:Ht; try discriminate Hq;
      (destruct (run_statement (clock pg) q d) as [[d1 rows] | ] eqn:Hrun; cbn;
       repeat split; try reflexivity; try discriminate; eauto;
       try (exists 1; reflexivity);
       try (exists d1; split; [reflexivity | ]; now rewrite Hrun)).
Qed.

Lemma succeeds_statement (q : Query) : is_data q = true -> Succeeds (statement q) [q].
Proof.
  intros Hq pg d d' Hw Hf Hrun. rewrite statement_pg. cbn [fst snd].
  unfold pg_query. rewrite Hw, Hf. cbn [existsb].
  cbn in Hrun.
  destruct (run_statement (clock pg) q d) as [[d1 rows] | ]; [ | discriminate].
  unfold is_data in Hq.
  destruct (text q); try discriminate Hq; reflexivity.
Qed.

Lemma runs_and_then (a b : Pg -> Pg * bool) (qa qb : list Query) :
  Runs a qa -> Runs b qb -> Runs (and_then a b) (qa ++ qb).
Proof.
  intros Ha Hb pg d Hw. unfold and_then.
  destruct (Ha pg d Hw) as (Hc & Hcl & Hfa & (k & Hk) & (d1 & Hd1) & Hok).
  destruct (a pg) as [pg1 ok] eqn:Ea. cbn [fst snd] in *.
  destruct ok.
  - destruct (Hok eq_refl) as (Hlog & d1' & Hd1' & Hrun).
    rewrite Hd1 in Hd1'. injection Hd1' as <-.
    destruct (Hb pg1 d1 Hd1) as (Hc2 & Hcl2 & Hfa2 & (k2 & Hk2) & Hopen2 & Hok2).
    split; [congruence | split; [congruence | split; [congruence | ]]].
    split; [ | split; [exact Hopen2 | ]].
    + exists (List.length qa + k2).
      rewrite Hk2, Hlog, firstn_app_2, app_assoc. reflexivity.
    + intros Hfin. destruct (Hok2 Hfin) as (Hlog2 & d2 & Hd2 & Hrun2).
      split; [rewrite Hlog2, Hlog, app_assoc; reflexivity | ].
      exists d2. split; [exact Hd2 | ].
      rewrite db_run_app, Hrun. now rewrite <- Hcl.
  - cbn [fst snd].
    split; [assumption | split; [assumption | split; [assumption | ]]].
    split; [ | split; [eauto | discriminate]].
    exists (Nat.min k (List.length qa)).
    rewrite Hk. f_equal.
    rewrite firstn_app.
    replace (Nat.min k (List.length qa) - List.length qa) with 0 by lia.
    cbn. rewrite app_nil_r.
    destruct (Nat.le_ge_cases k (List.length qa)).
    + now rewrite Nat.min_l.
    + rewrite Nat.min_r by assumption. rewrite !firstn_all2; auto.
Qed.

Lemma succeeds_and_then (a b : Pg -> Pg * bool) (qa qb : list Query) :
  Runs a qa -> Succeeds a qa -> Succeeds b qb -> Succeeds (and_then a b) (qa ++ qb).
Proof.
  intros Hra Ha Hb pg d d' Hw Hf Hrun. unfold and_then.
  rewrite db_run_app in Hrun.
  destruct (db_run (clock pg) qa d) as [d1 | ] eqn:Hqa; [ | discriminate].
  pose proof (Ha pg d d1 Hw Hf Hqa) as Hok.
  destruct (Hra pg d Hw) as (_ & Hcl & Hfa & _ & _ & Hdone).
  destruct (a pg) as [pg1 ok]. cbn [fst snd] in *. subst ok.
  destruct (Hdone eq_refl) as (_ & d1' & Hd1' & Hrun1).
  rewrite Hqa in Hrun1. injection Hrun1 as <-.
  apply (Hb pg1 d1 d'); [assumption | congruence | congruence].
Qed.

Lemma runs_insert_each (sql : Sql) (mk : Json -> option (list Value))
    (items : list Json) :
  sql = InsertProject \/ sql = InsertModel ->
  Runs (insert_each sql mk items) (inserts sql mk items).
Proof.
  intros Hsql. induction items as [ | item rest IH]; cbn [insert_each inserts].
  - intros pg d Hw. cbn. rewrite app_nil_r.
    split; [reflexivity | split; [reflexivity | split; [reflexivity | ]]].
    split; [exists 0; cbn; now rewrite app_nil_r | ].
    split; [eauto | intros _; split; [reflexivity | eauto]].
  - destruct (mk item) as [ps | ].
    + apply (runs_and_then _ _ [mkQuery sql (Some ps)] _); [ | exact IH].
      apply runs_statement. destruct Hsql as [-> | ->]; reflexivity.
    + intros pg d Hw. cbn. rewrite app_nil_r.
      split; [reflexivity | split; [reflexivity | split; [reflexivity | ]]].
      split; [exists 0; cbn; now rewrite app_nil_r | ].
      split; [eauto | discriminate].
Qed.

Lemma succeeds_insert_each (sql : Sql) (mk : Json -> option (list Value))
    (items : list Json) :
  sql = InsertProject \/ sql = InsertModel ->
  Forall (fun item => mk item <> None) items ->
  Succeeds (insert_each sql mk items) (inserts sql mk items).
Proof.
  intros Hsql Hall. induction Hall as [ | item rest Hitem _ IH];
    cbn [insert_each inserts].
  - intros pg d d' _ _ _. reflexivity.
  - destruct (mk item) as [ps | ]; [ | now elim Hitem].
    assert (Hdata : is_data (mkQuery sql (Some ps)) = true)
      by (destruct Hsql as [-> | ->]; reflexivity).
    apply (succeeds_and_then _ _ [mkQuery sql (Some ps)] _).
    + now apply runs_statement.
    + now apply succeeds_statement.
    + exact IH.
Qed.

(** A loop that reaches its end has issued one insert per item. *)
Lemma insert_each_complete (sql : Sql) (mk : Json -> option (list Value))
    (items : list Json) (pg : Pg) :
  snd (insert_each sql mk items pg) = true ->
  List.length (inserts sql mk items) = List.length items.
Proof.
  revert pg. induction items as [ | item rest IH]; intros pg;
    cbn [insert_each inserts]; [reflexivity | ].
  destruct (mk item) as [ps | ]; [ | discriminate].
  unfold and_then. destruct (statement _ pg) as [pg1 [ | ]]; [ | discriminate].
  intros H. cbn [List.length]. f_equal. exact (IH pg1 H).
Qed.

Lemma and_then_true (a b : Pg -> Pg * bool) (pg : Pg) :
  snd (and_then a b pg) = true ->
  snd (a pg) = true /\ snd (b (fst (a pg))) = true.
Proof.
  unfold and_then. destruct (a pg) as [pg1 [ | ]]; cbn; [auto | discriminate].
Qed.

Lemma restore_try_shape (now : string) (projects models : list Json) (pg : Pg) :
  restore_try now projects models pg =
  and_then (statement (mkQuery Begin None))
    (and_then (restore_data_piece now projects models)
       (statement (mkQuery Commit None))) pg.
Proof.
  unfold restore_try, restore_data_piece, and_then.
  destruct (statement (mkQuery Begin None) pg) as [p1 [ | ]]; [ | reflexivity].
  destruct (statement (mkQuery DeleteModels None) p1) as [p2 [ | ]]; [ | reflexivity].
  destruct (statement (mkQuery DeleteProjects None) p2) as [p3 [ | ]]; [ | reflexivity].
  destruct (insert_each InsertProject _ projects p3) as [p4 [ | ]]; [ | reflexivity].
  destruct (insert_each InsertModel _ models p4) as [p5 [ | ]]; reflexivity.
Qed.

Lemma runs_restore_data (now : string) (projects models : list Json) :
  Runs (restore_data_piece now projects models) (restore_data now projects models).
Proof.
  unfold restore_data_piece, restore_data.
  apply (runs_and_then _ _ [_] _); [now apply runs_statement | ].
  apply (runs_and_then _ _ [_] _); [now apply runs_statement | ].
  apply runs_and_then; apply runs_insert_each; auto.
Qed.

Lemma params_built (now : string) (items : list Json) :
  Forall (fun item => item <> JNull) items ->
  Forall (fun item => project_params now item <> None) items /\
  Forall (fun item => model_params now item <> None) items.
Proof.
  intros H. split; (eapply Forall_impl; [ | exact H]);
    intros [ | b | z | s0 | l | f] Hne; cbn; try discriminate; now elim Hne.
Qed.

Lemma succeeds_restore_data (now : string) (projects models : list Json) :
  Forall (fun item => item <> JNull) projects ->
  Forall (fun item => item <> JNull) models ->
  Succeeds (restore_data_piece now projects models) (restore_data now projects models).
Proof.
  intros Hp Hm.
  apply (params_built now) in Hp. apply (params_built now) in Hm.
  unfold restore_data_piece, restore_data.
  apply (succeeds_and_then _ _ [_] _);
    [now apply runs_statement | now apply succeeds_statement | ].
  apply (succeeds_and_then _ _ [_] _);
    [now apply runs_statement | now apply succeeds_statement | ].
  apply succeeds_and_then.
  - apply runs_insert_each; auto.
  - apply succeeds_insert_each; [auto | apply Hp].
  - apply succeeds_insert_each; [auto | apply Hm].
Qed.

Lemma firstn_snoc_min {A} (k : nat) (l : list A) (x : A) :
  firstn k l = firstn (Nat.min k (List.length l)) (l ++ [x]).
Proof.
  rewrite firstn_app.
  replace (Nat.min k (List.length l) - List.length l) with 0 by lia.
  cbn. rewrite app_nil_r.
  destruct (Nat.le_ge_cases k (List.length l)).
  - now rewrite Nat.min_l.
  - rewrite Nat.min_r by assumption. rewrite !firstn_all2; auto.
Qed.

Lemma query_faulted (q : Query) (pg : Pg) :
  existsb (Nat.eqb (List.length (log pg))) (faults pg) = true ->
  pg_query q pg =
  (mkPg (committed pg) (working pg) (log pg ++ [q]) (faults pg) (clock pg)
     (accepting pg) (releases pg), Throws).
Proof. intros H. unfold pg_query. now rewrite H. Qed.

Lemma begin_opens (pg : Pg) :
  working pg = None ->
  existsb (Nat.eqb (List.length (log pg))) (faults pg) = false ->
  pg_query (mkQuery Begin None) pg =
  (mkPg (committed pg) (Some (committed pg)) (log pg ++ [mkQuery Begin None])
     (faults pg) (clock pg) (accepting pg) (releases pg), Rows []).
Proof. intros Hw H. unfold pg_query. now rewrite H, Hw. Qed.

Lemma commit_closes (pg : Pg) (d : Db) :
  working pg = Some d ->
  existsb (Nat.eqb (List.length (log pg))) (faults pg) = false ->
  pg_query (mkQuery Commit None) pg =
  (mkPg d None (log pg ++ [mkQuery Commit None])
     (faults pg) (clock pg) (accepting pg) (releases pg), Rows []).
Proof. intros Hw H. unfold pg_query. now rewrite H, Hw. Qed.

Lemma restore_plan_split (now : string) (projects models : list Json) :
  restore_plan now projects models =
  mkQuery Begin None :: restore_data now projects models ++ [mkQuery Commit None].
Proof.
  unfold restore_plan, restore_data. cbn. now rewrite <- !app_assoc.
Qed.

(** The [try] block on a connection with no transaction open: either it
    reaches its end, having issued the whole plan and committed what the
    data statements made of the tables, or it throws, having issued a
    prefix of the plan and left the committed tables alone. *)
Lemma restore_try_pg (now : string) (projects models : list Json) (pg : Pg) :
  working pg = None ->
  let r := restore_try now projects models pg in
  (snd r = true /\
   log (fst r) = log pg ++ restore_plan now projects models /\
   working (fst r) = None /\
   db_run (clock pg) (restore_data now projects models) (committed pg) =
     Some (committed (fst r)) /\
   List.length (inserts InsertProject (project_params now) projects) =
     List.length projects /\
   List.length (inserts InsertModel (model_params now) models) =
     List.length models) \/
  (snd r = false /\
   committed (fst r) = committed pg /\
   exists k, log (fst r) = log pg ++ firstn k (restore_plan now projects models)).
Proof.
  intros Hw r. subst r. rewrite restore_try_shape.
  unfold and_then. rewrite statement_pg.
  destruct (existsb (Nat.eqb (List.length (log pg))) (faults pg)) eqn:Hfault.
  - (* BEGIN fails *)
    rewrite (query_faulted _ _ Hfault). cbn [fst snd].
    right. split; [reflexivity | split; [reflexivity | ]].
    exists 1. reflexivity.
  - rewrite (begin_opens _ Hw Hfault). cbn [fst snd].
    set (pg1 := mkPg (committed pg) (Some (committed pg)) (log pg ++ [mkQuery Begin None])
                  (faults pg) (clock pg) (accepting pg) (releases pg)).
    assert (Hw1 : working pg1 = Some (committed pg)) by reflexivity.
    destruct (runs_restore_data now projects models pg1 _ Hw1)
      as (Hc & Hcl & Hfa & (k & Hk) & (d2 & Hd2) & Hok).
    destruct (restore_data_piece now projects models pg1) as [pg2 ok2] eqn:Epiece.
    cbn [fst snd] in *.
    destruct ok2.
    + destruct (Hok eq_refl) as (Hlog & d2' & Hd2' & Hrun).
      rewrite Hd2 in Hd2'. injection Hd2' as <-.
      rewrite statement_pg.
      destruct (existsb (Nat.eqb (List.length (log pg2))) (faults pg2)) eqn:Hfault2.
      * (* COMMIT fails *)
        rewrite (query_faulted _ _ Hfault2). cbn [fst snd committed log].
        right. split; [reflexivity | split; [exact Hc | ]].
        exists (List.length (restore_plan now projects models)).
        rewrite firstn_all, Hlog, restore_plan_split. unfold pg1. cbn [log].
        rewrite <- !app_assoc. reflexivity.
      * rewrite (commit_closes _ _ Hd2 Hfault2). cbn [fst snd committed log working].
        left. split; [reflexivity | ].
        split; [rewrite Hlog, restore_plan_split; unfold pg1; cbn [log];
                rewrite <- !app_assoc; reflexivity | ].
        split; [reflexivity | ].
        split; [exact Hrun | ].
        assert (Htrue : snd (restore_data_piece now projects models pg1) = true)
          by now rewrite Epiece.
        unfold restore_data_piece in Htrue.
        apply and_then_true in Htrue. destruct Htrue as [_ Htrue].
        apply and_then_true in Htrue. destruct Htrue as [_ Htrue].
        apply and_then_true in Htrue. destruct Htrue as [Hp Hm].
        split; eapply insert_each_complete; eassumption.
    + cbv beta iota. cbn [fst snd].
      right. split; [reflexivity | split; [exact Hc | ]].
      exists (S (Nat.min k (List.length (restore_data now projects models)))).
      rewrite Hk, restore_plan_split. unfold pg1. cbn [log firstn].
      rewrite <- (firstn_snoc_min k _ (mkQuery Commit None)).
      rewrite <- !app_assoc. reflexivity.
Qed.

Lemma restore_try_succeeds (now : string) (projects models : list Json)
    (pg : Pg) (d : Db) :
  working pg = None -> faults pg = [] ->
  Forall (fun item => item <> JNull) projects ->
  Forall (fun item => item <> JNull) models ->
  db_run (clock pg) (restore_data now projects models) (committed pg) = Some d ->
  snd (restore_try now projects models pg) = true.
Proof.
  intros Hw Hf Hp Hm Hrun. rewrite restore_try_shape.
  unfold and_then. rewrite statement_pg.
  assert (Hfault : existsb (Nat.eqb (List.length (log pg))) (faults pg) = false)
    by now rewrite Hf.
  rewrite (begin_opens _ Hw Hfault). cbn [fst snd].
  set (pg1 := mkPg (committed pg) (Some (committed pg)) (log pg ++ [mkQuery Begin None])
                (faults pg) (clock pg) (accepting pg) (releases pg)).
  assert (Hw1 : working pg1 = Some (committed pg)) by reflexivity.
  pose proof (succeeds_restore_data now projects models Hp Hm pg1 _ d Hw1 Hf Hrun) as Hok.
  destruct (runs_restore_data now projects models pg1 _ Hw1)
    as (_ & _ & Hfa & _ & (d2 & Hd2) & _).
  destruct (restore_data_piece now projects models pg1) as [pg2 ok2].
  cbn [fst snd] in *. subst ok2.
  rewrite statement_pg.
  assert (Hfault2 : existsb (Nat.eqb (List.length (log pg2))) (faults pg2) = false).
  { rewrite Hfa. unfold pg1. cbn [faults]. now rewrite Hf. }
  now rewrite (commit_closes _ _ Hd2 Hfault2).
Qed.

(** C9.  [POST /api/restore] on the stand-in database, no transaction
    being open on the connection.  If [projects] or [models] is not an
    array the answer is 400 "Invalid backup payload." and the database is
    not contacted at all.  If both are arrays and a client is obtained, then
    either the answer is 200 with the two counts, the statements received
    are exactly BEGIN, DELETE FROM models, DELETE FROM projects, one insert
    per project, one insert per model, COMMIT, in this order, the
    transaction is closed and the committed tables are what those deletes
    and inserts make of the previous ones; or the answer is 500, the
    statements received are a prefix of that plan followed by ROLLBACK, and
    the committed tables are the previous ones.  The first case is the one
    that occurs when no statement is made to fail, no item is null and the
    tables accept every insert. *)
Theorem restore_all_or_nothing :
  forall (pg : Pg) (now : string) (reqBody : Value),
    working pg = None ->
    let b := nullish reqBody (JObj []) in
    let pg' := fst (post_restore now reqBody pg) in
    let response := snd (post_restore now reqBody pg) in
    (isArray (member "projects" b) = false \/ isArray (member "models" b) = false ->
       post_restore now reqBody pg =
       (pg, mkResponse 400 (ErrorBody "Invalid backup payload."))) /\
    (forall projects models,
       member "projects" b = Some (JArr projects) ->
       member "models" b = Some (JArr models) ->
       accepting pg = true ->
       ((response =
           mkResponse 200
             (RestoredBody "ok" (List.length projects) (List.length models)) /\
         log pg' = log pg ++ restore_plan now projects models /\
         List.length (inserts InsertProject (project_params now) projects) =
           List.length projects /\
         List.length (inserts InsertModel (model_params now) models) =
           List.length models /\
         working pg' = None /\
         db_run (clock pg) (restore_data now projects models) (committed pg) =
           Some (committed pg'))
        \/
        (response = internal_error /\
         committed pg' = committed pg /\
         exists k,
           log pg' =
           log pg ++ firstn k (restore_plan now projects models)
                  ++ [mkQuery Rollback None])) /\
       (faults pg = [] ->
        Forall (fun item => item <> JNull) projects ->
        Forall (fun item => item <> JNull) models ->
        forall d,
          db_run (clock pg) (restore_data now projects models) (committed pg) = Some d ->
          status response = 200 /\ committed pg' = d)).
Proof.
  intros pg now reqBody Hw b pg' response. split.
  - intros Hnot. unfold post_restore. fold b.
    destruct Hnot as [H | H]; rewrite H; cbn [negb orb]; [reflexivity | ].
    now rewrite orb_true_r.
  - intros projects models Hp Hm Hacc.
    assert (Hpost : post_restore now reqBody pg =
              let '(pg2, ok) := restore_try now projects models pg in
              if ok then
                (release pg2,
                 mkResponse 200
                   (RestoredBody "ok" (List.length projects) (List.length models)))
              else
                let '(pg3, _) := pg_query (mkQuery Rollback None) pg2 in
                (release pg3, internal_error)).
    { unfold post_restore. fold b. rewrite Hp, Hm. cbn [isArray negb orb].
      cbn [connect pg_pool]. rewrite Hacc. cbn [negb]. reflexivity. }
    pose proof (restore_try_pg now projects models pg Hw) as Htry.
    cbv zeta in Htry.
    assert (Hall :
      (response =
         mkResponse 200
           (RestoredBody "ok" (List.length projects) (List.length models)) /\
       log pg' = log pg ++ restore_plan now projects models /\
       List.length (inserts InsertProject (project_params now) projects) =
         List.length projects /\
       List.length (inserts InsertModel (model_params now) models) =
         List.length models /\
       working pg' = None /\
       db_run (clock pg) (restore_data now projects models) (committed pg) =
         Some (committed pg') /\
       snd (restore_try now projects models pg) = true)
      \/
      (response = internal_error /\
       committed pg' = committed pg /\
       (exists k,
         log pg' =
         log pg ++ firstn k (restore_plan now projects models)
                ++ [mkQuery Rollback None]) /\
       snd (restore_try now projects models pg) = false)).
    { subst pg' response. rewrite Hpost.
      destruct (restore_try now projects models pg) as [pg2 ok] eqn:Etry.
      cbn [fst snd] in Htry.
      destruct Htry as [(Hok & Hlog & Hclosed & Hrun & Hnp & Hnm)
                       | (Hok & Hsame & k & Hlog)]; subst ok.
      - left. cbn. repeat split; assumption.
      - right.
        pose proof (rollback_keeps_committed pg2) as Hrb.
        pose proof (pg_query_log (mkQuery Rollback None) pg2) as Hrl.
        destruct (pg_query (mkQuery Rollback None) pg2) as [pg3 out].
        cbn [fst snd] in *. cbn.
        split; [reflexivity | split; [congruence | split; [ | reflexivity]]].
        exists k. rewrite Hrl, Hlog. now rewrite <- app_assoc. }
    split.
    + destruct Hall as [(H1 & H2 & H3 & H4 & H5 & H6 & _) | (H1 & H2 & H3 & _)];
        [left | right]; repeat split; assumption.
    + intros Hf Hpn Hmn d Hrun.
      pose proof (restore_try_succeeds now projects models pg d Hw Hf Hpn Hmn Hrun) as Hgo.
      destruct Hall as [(H1 & _ & _ & _ & _ & H6 & _) | (_ & _ & _ & Hno)];
        [ | congruence].
      rewrite H1. split; [reflexivity | ]. congruence.
Qed.

(** The witness: the backup of the repository's test, restored over the
    sample database. *)
Lemma restore_all_or_nothing_witness :
  working ex_pg = None /\
  accepting ex_pg = true /\
  status (snd (post_restore "2026-02-01T00:00:00.000Z" (Some ex_backup) ex_pg)) = 200 /\
  map row_id
    (projects_tbl
       (committed (fst (post_restore "2026-02-01T00:00:00.000Z" (Some ex_backup) ex_pg))))
  = ["proj-1"%string].
Proof.
  split; [reflexivity | split; [reflexivity | ]].
  destruct (restore_all_or_nothing ex_pg "2026-02-01T00:00:00.000Z" (Some ex_backup)
              eq_refl) as [_ H].
  cbv zeta in H.
  destruct (H _ _ eq_refl eq_refl eq_refl) as [_ Hgood].
  edestruct Hgood as [Hstatus Hdb].
  - reflexivity.
  - repeat constructor; discriminate.
  - repeat constructor; discriminate.
  - vm_compute. reflexivity.
  - split; [exact Hstatus | ]. rewrite Hdb. reflexivity.
Defined.

(** ** Further properties of the server *)

(** *** Creating a project: failures and blank names *)

(** X17.  A project that cannot be inserted is a 500 and leaves no trace.
    With an acceptable name, when the INSERT is refused (the identifier
    drawn by [createUuid] is already taken, or the statement fails for any
    other reason) the handler answers 500 "Internal server error.": it has
    sent that one statement and no other, in particular it does not draw
    another identifier and try again, and the tables are what they were. *)
Theorem create_project_failure :
  forall (pg : Pg) (uuid : string) (reqBody : Value) (n : string),
    let name := member "name" (nullish reqBody (JObj [])) in
    let description := member "description" (nullish reqBody (JObj [])) in
    accepted_name name = Some n ->
    working pg = None ->
    existsb (Nat.eqb (List.length (log pg))) (faults pg) = true \/
    has_project uuid (committed pg) = true ->
    snd (post_projects uuid reqBody pg) = internal_error /\
    committed (fst (post_projects uuid reqBody pg)) = committed pg /\
    working (fst (post_projects uuid reqBody pg)) = None /\
    log (fst (post_projects uuid reqBody pg)) =
      log pg ++ [mkQuery InsertProjectReturning
                   (Some [Some (JStr uuid); Some (JStr (trim n));
                          Some (nullish description JNull)])].
Proof.
  intros pg uuid reqBody n name description Hacc Hwork Hbad.
  destruct (accepted_name_some _ _ Hacc) as [Hname Hne].
  unfold post_projects. fold name description. rewrite Hname.
  cbn [js_truthy is_string]. rewrite Hne. cbn [negb orb].
  cbn [pool_query pg_pool]. unfold pg_query.
  destruct (existsb (Nat.eqb (List.length (log pg))) (faults pg)) eqn:Hfault.
  - cbn. rewrite Hwork. repeat split.
  - destruct Hbad as [Habs | Htaken]; [discriminate Habs | ].
    cbn [text]. rewrite Hwork. unfold run_statement. cbn [text params].
    unfold project_row. cbn [sql_text]. unfold insert_project_row. cbn [row_id].
    rewrite Htaken. cbn. rewrite ?Hwork. repeat split.
Qed.

(** The witness: the identifier drawn is that of the project already in
    the sample database. *)
Lemma create_project_failure_witness :
  has_project "old-1" (committed ex_pg) = true /\
  snd (post_projects "old-1" (Some (JObj [("name", JStr "Core")])) ex_pg) =
    internal_error /\
  committed (fst (post_projects "old-1" (Some (JObj [("name", JStr "Core")])) ex_pg))
    = ex_db.
Proof.
  split; [reflexivity | ].
  destruct (create_project_failure ex_pg "old-1"
              (Some (JObj [("name", JStr "Core")])) "Core"
              eq_refl eq_refl (or_intror eq_refl)) as (H1 & H2 & _).
  split; [exact H1 | exact H2].
Defined.



(** White space beyond ASCII is stripped as well: a name between a
    no-break space and a line separator followed by a byte order mark is
    stored without them, and a name of one no-break space is stored
    empty. *)
Example trim_strips_unicode_space :
  trim (ex_nbsp ++ "Core Platform" ++ ex_line_separator ++ ex_bom) =
    "Core Platform"%string /\
  trim ex_nbsp = ""%string /\
  snd (post_projects "uuid-1" (Some (JObj [("name", JStr ex_nbsp)])) ex_pg) =
  mkResponse 201
    (ProjectBody
       (mkProjectSummary "uuid-1" "" None
          "2026-02-01T00:00:00.000Z" "2026-02-01T00:00:00.000Z" 0)).
Proof. split; [ | split]; vm_compute; reflexivity. Qed.


(** *** Counts *)

Lemma digits_of_uint_acc (d : Decimal.uint) (acc : positive) :
  digits (DecimalString.NilEmpty.string_of_uint d) (Some (Z.pos acc)) =
  Some (Z.pos (Pos.of_uint_acc d acc)).
Proof.
  revert acc. induction d; intros acc; cbn [DecimalString.NilEmpty.string_of_uint];
    [reflexivity | .. ];
    cbn [digits]; match goal with
    | |- context [digit_of ?c] =>
        let v := eval vm_compute in (digit_of c) in
        change (digit_of c) with v
    end; cbn [Pos.of_uint_acc]; rewrite <- IHd; do 2 f_equal; lia.
Qed.

Lemma digits_of_uint_zero (d : Decimal.uint) :
  digits (DecimalString.NilEmpty.string_of_uint d) (Some 0%Z) =
  Some (Z.of_N (Pos.of_uint d)).
Proof.
  induction d; cbn [DecimalString.NilEmpty.string_of_uint];
    [reflexivity | .. ];
    cbn [digits]; match goal with
    | |- context [digit_of ?c] =>
        let v := eval vm_compute in (digit_of c) in
        change (digit_of c) with v
    end; cbn [Pos.of_uint Z.mul Z.add Z.of_N];
    [exact IHd | apply digits_of_uint_acc .. ].
Qed.

Lemma digits_of_uint (d : Decimal.uint) :
  d <> Decimal.Nil ->
  digits (DecimalString.NilEmpty.string_of_uint d) None =
  Some (Z.of_N (Pos.of_uint d)).
Proof.
  destruct d; intros Hne; [now elim Hne | .. ];
    cbn [DecimalString.NilEmpty.string_of_uint];
    cbn [digits]; match goal with
    | |- context [digit_of ?c] =>
        let v := eval vm_compute in (digit_of c) in
        change (digit_of c) with v
    end; cbn [Pos.of_uint Z.mul Z.add Z.of_N];
    [apply digits_of_uint_zero | apply digits_of_uint_acc .. ].
Qed.

Lemma parseInt_of_uint (d : Decimal.uint) :
  d <> Decimal.Nil ->
  parseInt (DecimalString.NilEmpty.string_of_uint d) =
  option_map to_double (digits (DecimalString.NilEmpty.string_of_uint d) None).
Proof.
  destruct d; intros Hne; [now elim Hne | .. ]; reflexivity.
Qed.

Lemma parseInt_minus (s : string) :
  parseInt (String "-" s) =
  option_map to_double (option_map Z.opp (digits s None)).
Proof. reflexivity. Qed.

Lemma string_of_uint_nonnil (d : Decimal.uint) :
  d <> Decimal.Nil ->
  DecimalString.NilZero.string_of_uint d = DecimalString.NilEmpty.string_of_uint d.
Proof. destruct d; intros Hne; [now elim Hne | .. ]; reflexivity. Qed.

(** An integer of magnitude up to 2^53 is a double. *)
Lemma to_double_exact (n : Z) : (Z.abs n <= 2 ^ 53)%Z -> to_double n = n.
Proof.
  intros H. unfold to_double. now rewrite (proj2 (Z.leb_le _ _) H).
Qed.

(** Beyond 2^53 the count read is the nearest double: 2^53 + 1 reads as
    2^53, and 2^53 + 3 as 2^53 + 4. *)
Example parseCount_rounds :
  parseCount (Some (CountString "9007199254740993")) = 9007199254740992%Z /\
  parseCount (Some (CountString "9007199254740995")) = 9007199254740996%Z.
Proof. split; vm_compute; reflexivity. Qed.

(** X19.  [parseCount] reads back what the database prints.  A count
    column arrives as the decimal text of an integer; when the integer is
    of magnitude at most 2^53, so that a Number holds it exactly,
    [parseCount] returns it, and so [mapProjectRow] reports as [modelCount]
    the number held by [model_count], whatever [modelCount] holds; a number
    is passed through as it is. *)
Theorem parseCount_reads_decimal :
  forall (n : Z),
    (Z.abs n <= 2 ^ 53)%Z ->
    parseCount (Some (CountString (string_of_Z n))) = n /\
    parseCount (Some (CountNumber n)) = n /\
    forall row alt,
      modelCount
        (mapProjectRow
           (mkProjectRow (row_id row) (row_name row) (row_description row)
              (created_at row) (updated_at row)
              (Some (CountString (string_of_Z n))) alt)) = n.
Proof.
  intros n Hbound.
  assert (Hparse : parseInt (string_of_Z n) = Some n).
  { unfold string_of_Z. destruct n as [ | p | p]; cbn [Z.to_int].
    - reflexivity.
    - cbn [DecimalString.NilZero.string_of_int].
      pose proof (DecimalPos.Unsigned.to_uint_nonnil p) as Hne.
      rewrite (string_of_uint_nonnil _ Hne), (parseInt_of_uint _ Hne),
        (digits_of_uint _ Hne), DecimalPos.Unsigned.of_to.
      cbn [option_map Z.of_N]. now rewrite (to_double_exact _ Hbound).
    - cbn [DecimalString.NilZero.string_of_int].
      pose proof (DecimalPos.Unsigned.to_uint_nonnil p) as Hne.
      rewrite (string_of_uint_nonnil _ Hne), parseInt_minus,
        (digits_of_uint _ Hne), DecimalPos.Unsigned.of_to.
      cbn [option_map Z.of_N Z.opp]. now rewrite (to_double_exact _ Hbound). }
  split; [ | split].
  - cbn [parseCount]. now rewrite Hparse.
  - reflexivity.
  - intros row alt. unfold mapProjectRow, count_column. cbn [model_count modelCount].
    cbn [parseCount]. now rewrite Hparse.
Qed.

(** The witness: the count 1234, and the largest count the theorem covers. *)
Lemma parseCount_reads_decimal_witness :
  (Z.abs 1234 <= 2 ^ 53)%Z /\
  parseCount (Some (CountString "1234")) = 1234%Z /\
  parseCount (Some (CountString "9007199254740992")) = 9007199254740992%Z.
Proof.
  assert (H1 : (Z.abs 1234 <= 2 ^ 53)%Z) by (vm_compute; discriminate).
  assert (H2 : (Z.abs 9007199254740992 <= 2 ^ 53)%Z) by (vm_compute; discriminate).
  split; [exact H1 | split].
  - exact (proj1 (parseCount_reads_decimal 1234 H1)).
  - exact (proj1 (parseCount_reads_decimal 9007199254740992 H2)).
Defined.

(** *** A restore replaces everything *)

Lemma inserts_complete_projects (now : string) (items : list Json) :
  List.length (inserts InsertProject (project_params now) items) = List.length items ->
  Forall (fun item => item <> JNull) items.
Proof.
  induction items as [ | item rest IH]; intros Hlen; [constructor | ].
  destruct item; cbn in Hlen; try discriminate Hlen;
    (constructor; [discriminate | apply IH; now injection Hlen]).
Qed.

Lemma inserts_complete_models (now : string) (items : list Json) :
  List.length (inserts InsertModel (model_params now) items) = List.length items ->
  Forall (fun item => item <> JNull) items.
Proof.
  induction items as [ | item rest IH]; intros Hlen; [constructor | ].
  destruct item; cbn -[stringify] in Hlen; try discriminate Hlen;
    (constructor; [discriminate | apply IH; now injection Hlen]).
Qed.

Lemma inserts_text (sql : Sql) (mk : Json -> option (list Value)) (items : list Json) :
  Forall (fun q => text q = sql) (inserts sql mk items).
Proof.
  induction items as [ | item rest IH]; cbn; [constructor | ].
  destruct (mk item); constructor; [reflexivity | exact IH].
Qed.

(** The inserts of a restore carry their own time stamps: the clock of the
    database plays no part in them. *)
Lemma db_run_clock (c c' : string) (qs : list Query) (d : Db) :
  Forall (fun q => text q = InsertProject \/ text q = InsertModel) qs ->
  db_run c qs d = db_run c' qs d.
Proof.
  intros Hall. revert d. induction Hall as [ | q qs Hq _ IH]; intros d;
    [reflexivity | ].
  cbn [db_run].
  assert (Hsame : run_statement c q d = run_statement c' q d).
  { unfold run_statement. destruct Hq as [-> | ->]; reflexivity. }
  rewrite Hsame. destruct (run_statement c' q d) as [[d' rows] | ];
    [apply IH | reflexivity].
Qed.

Lemma restore_data_fresh (now c c' : string) (projects models : list Json)
    (d d' : Db) :
  db_run c (restore_data now projects models) d =
  db_run c' (restore_data now projects models) d'.
Proof.
  unfold restore_data. cbn [app db_run run_statement text params].
  apply db_run_clock. apply Forall_app. split.
  - eapply Forall_impl; [ | apply inserts_text]. intros q Hq. now left.
  - eapply Forall_impl; [ | apply inserts_text]. intros q Hq. now right.
Qed.

Lemma restore_try_transfers (now : string) (projects models : list Json)
    (pga pgb : Pg) :
  working pga = None -> working pgb = None ->
  faults pgb = [] ->
  snd (restore_try now projects models pga) = true ->
  snd (restore_try now projects models pgb) = true /\
  committed (fst (restore_try now projects models pga)) =
  committed (fst (restore_try now projects models pgb)).
Proof.
  intros Hwa Hwb Hfb Hok.
  destruct (restore_try_pg now projects models pga Hwa)
    as [(_ & _ & _ & Hrun & Hlp & Hlm) | (Hf & _)]; [ | congruence].
  rewrite (restore_data_fresh now _ (clock pgb) _ _ _ (committed pgb)) in Hrun.
  assert (Hokb : snd (restore_try now projects models pgb) = true).
  { apply (restore_try_succeeds now projects models pgb _ Hwb Hfb
             (inserts_complete_projects now _ Hlp)
             (inserts_complete_models now _ Hlm) Hrun). }
  split; [exact Hokb | ].
  destruct (restore_try_pg now projects models pgb Hwb)
    as [(_ & _ & _ & Hrunb & _) | (Hf & _)]; [ | congruence].
  congruence.
Qed.

(** X20.  A restore replaces everything, so its outcome owes nothing to
    what it replaces.  On two databases that hand out a client, have no
    transaction open and make no statement fail, the same payload gets the
    same answer, whatever the two hold; and when that answer is 200 the two
    hold the same projects and the same models afterwards.  In particular
    restoring a backup a second time changes nothing. *)
Theorem restore_replaces_everything :
  forall (pg1 pg2 : Pg) (now : string) (reqBody : Value),
    working pg1 = None -> working pg2 = None ->
    faults pg1 = [] -> faults pg2 = [] ->
    accepting pg1 = true -> accepting pg2 = true ->
    snd (post_restore now reqBody pg1) = snd (post_restore now reqBody pg2) /\
    (status (snd (post_restore now reqBody pg1)) = 200 ->
     committed (fst (post_restore now reqBody pg1)) =
     committed (fst (post_restore now reqBody pg2))).
Proof.
  intros pg1 pg2 now reqBody Hw1 Hw2 Hf1 Hf2 Ha1 Ha2.
  unfold post_restore.
  destruct (member "projects" (nullish reqBody (JObj []))) as [[ | | | | ps | ] | ];
    cbn [isArray negb orb fst snd status];
    try (split; [reflexivity | discriminate]).
  destruct (member "models" (nullish reqBody (JObj []))) as [[ | | | | ms | ] | ];
    cbn [isArray negb orb fst snd status];
    try (split; [reflexivity | discriminate]).
  cbn [connect pg_pool]. rewrite Ha1, Ha2. cbn [negb].
  pose proof (restore_try_transfers now ps ms pg1 pg2 Hw1 Hw2 Hf2) as H12.
  pose proof (restore_try_transfers now ps ms pg2 pg1 Hw2 Hw1 Hf1) as H21.
  destruct (restore_try now ps ms pg1) as [r1 ok1].
  destruct (restore_try now ps ms pg2) as [r2 ok2].
  cbn [fst snd] in H12, H21.
  destruct ok1.
  - destruct (H12 eq_refl) as [-> Hc]. cbn [fst snd release pg_pool committed].
    split; [reflexivity | intros _; exact Hc].
  - destruct ok2.
    + destruct (H21 eq_refl) as [Habs _]. discriminate Habs.
    + destruct (client_query (mkQuery Rollback None) r1) as [r1' o1].
      destruct (client_query (mkQuery Rollback None) r2) as [r2' o2].
      cbn [fst snd]. split; [reflexivity | discriminate].
Qed.

(** The witness: the sample backup restored over the sample database and
    over an empty one. *)
Lemma restore_replaces_everything_witness :
  let empty := mkPg (mkDb [] []) None [] [] "2026-03-01T00:00:00.000Z" true 0 in
  let now := "2026-02-01T00:00:00.000Z"%string in
  committed ex_pg <> committed empty /\
  status (snd (post_restore now (Some ex_backup) ex_pg)) = 200 /\
  committed (fst (post_restore now (Some ex_backup) ex_pg)) =
  committed (fst (post_restore now (Some ex_backup) empty)).
Proof.
  intros empty now.
  split; [discriminate | split; [reflexivity | ]].
  refine (proj2 (restore_replaces_everything ex_pg empty now (Some ex_backup)
                   eq_refl eq_refl eq_refl eq_refl eq_refl eq_refl) _).
  reflexivity.
Defined.

End ServerProperties.

(* ===================================================================== *)
(** * Part V: properties across the layers *)
(* ===================================================================== *)

Section CrossLayerProperties.
Import Server Routes Client Backup.
Local Open Scope list_scope.

(** ** Trimming *)

(** The cases of [trim_start] on the head of a string. *)
Ltac head_cases s c1 r1 c2 r2 c3 r3 :=
  destruct s as [ | c1 r1]; cbn [trim_start];
  [ | destruct (is_space c1) eqn:?;
      [ | destruct (is_lead c1) eqn:?;
          [ destruct r1 as [ | c2 r2];
            [ | destruct (is_space2 c1 c2) eqn:?;
                [ | destruct r2 as [ | c3 r3];
                    [ | destruct (is_space3 c1 c2 c3) eqn:? ] ] ]
          | ] ] ].

(** [trim_start] never lengthens. *)
Lemma trim_start_length (s : string) :
  String.length (trim_start s) <= String.length s.
Proof.
  remember (String.length s) as n eqn:Hn.
  assert (Hle : String.length s <= n) by lia. clear Hn.
  revert s Hle. induction n as [ | n IH]; intros s Hle.
  - destruct s; [cbn; lia | cbn in Hle; lia].
  - head_cases s c1 r1 c2 r2 c3 r3; cbn [String.length] in *; try lia;
      match goal with
      | |- String.length (trim_start ?r) <= _ =>
          pose proof (IH r ltac:(lia)); lia
      end.
Qed.

Lemma trim_start_idempotent (s : string) :
  trim_start (trim_start s) = trim_start s.
Proof.
  remember (String.length s) as n eqn:Hn.
  assert (Hle : String.length s <= n) by lia. clear Hn.
  revert s Hle. induction n as [ | n IH]; intros s Hle.
  - destruct s; [reflexivity | cbn in Hle; lia].
  - head_cases s c1 r1 c2 r2 c3 r3; cbn [String.length] in *;
      try (apply IH; lia); try reflexivity;
      cbn [trim_start];
      repeat match goal with H : _ = _ |- _ => rewrite H end; reflexivity.
Qed.

(** White space at the head of a string is at the head of whatever the
    string is extended to. *)
Lemma blank_app (a b : string) :
  trim_start a = "" -> trim_start (a ++ b) = trim_start b.
Proof.
  remember (String.length a) as n eqn:Hn.
  assert (Hle : String.length a <= n) by lia. clear Hn.
  revert a Hle. induction n as [ | n IH]; intros a Hle.
  - destruct a; [reflexivity | cbn in Hle; lia].
  - head_cases a c1 r1 c2 r2 c3 r3; cbn [String.length append] in *;
      try discriminate; try reflexivity;
      intros Hb; cbn [trim_start];
      repeat match goal with H : _ = _ |- _ => rewrite H end;
      (apply IH; [lia | exact Hb]).
Qed.

(** A string that does not start with white space has no prefix that
    does. *)
Lemma trim_start_prefix (a b : string) :
  trim_start (a ++ b) = (a ++ b)%string -> trim_start a = a.
Proof.
  assert (Hshort : forall r x : string,
            String.length r < String.length x -> trim_start r <> x).
  { intros r x Hlt Heq. pose proof (trim_start_length r). rewrite Heq in *. lia. }
  head_cases a c1 r1 c2 r2 c3 r3; cbn [append]; try reflexivity;
    cbn [trim_start];
    repeat match goal with H : _ = _ |- _ => rewrite H end;
    intros Habs; exfalso; revert Habs; apply Hshort; cbn [String.length]; lia.
Qed.

Lemma trim_end_split (s : string) :
  exists w, s = (trim_end s ++ w)%string /\ trim_start w = "".
Proof.
  induction s as [ | c r (w & Hw & Hblank)]; [now exists "" | ].
  cbn [trim_end]. destruct (blank (String c r)) eqn:Hb.
  - exists (String c r). split; [reflexivity | ].
    unfold blank in Hb. now apply String.eqb_eq in Hb.
  - exists w. split; [cbn; now rewrite <- Hw | exact Hblank].
Qed.

Lemma trim_end_idempotent (s : string) : trim_end (trim_end s) = trim_end s.
Proof.
  induction s as [ | c r IH]; [reflexivity | ].
  cbn [trim_end]. destruct (blank (String c r)) eqn:Hb; [reflexivity | ].
  cbn [trim_end]. rewrite IH.
  destruct (blank (String c (trim_end r))) eqn:Hb'; [ | reflexivity].
  exfalso. destruct (trim_end_split r) as (w & Hw & Hblank).
  unfold blank in Hb, Hb'. apply String.eqb_eq in Hb'.
  pose proof (blank_app (String c (trim_end r)) w Hb') as Happ.
  cbn [append] in Happ. rewrite <- Hw, Hblank in Happ.
  rewrite Happ in Hb. discriminate Hb.
Qed.

Lemma trim_idempotent (s : string) : trim (trim s) = trim s.
Proof.
  unfold trim.
  destruct (trim_end_split (trim_start s)) as (w & Hw & _).
  assert (Hfix : trim_start (trim_end (trim_start s)) = trim_end (trim_start s)).
  { apply (trim_start_prefix _ w). rewrite <- Hw. apply trim_start_idempotent. }
  rewrite Hfix. apply trim_end_idempotent.
Qed.

(** ** From the dialog to the table *)

(** X21.  What the form dialog submits is what the server stores.
    [handleSave] submits nothing when the name typed is blank; otherwise
    the name it submits is trimmed and not empty, so the validation of
    [POST /api/projects] accepts it, the trimming the server applies
    leaves it as it is, and (the identifier being fresh and the statement
    not failing) the project is created under exactly that name, with the
    trimmed description, or none when that is blank. *)
Theorem dialog_submission_is_stored :
  forall (typedName typedDescription : string),
    (handleSave typedName typedDescription = None <-> trim typedName = ""%string) /\
    forall payload,
      handleSave typedName typedDescription = Some payload ->
      Controller.p_name payload = trim typedName /\
      trim (Controller.p_name payload) = Controller.p_name payload /\
      accepted_name (member "name" (json_of_payload payload)) =
        Some (Controller.p_name payload) /\
      forall (pg : Pg) (uuid : string),
        working pg = None ->
        existsb (Nat.eqb (List.length (log pg))) (faults pg) = false ->
        has_project uuid (committed pg) = false ->
        snd (post_projects uuid (Some (json_of_payload payload)) pg) =
        mkResponse 201
          (ProjectBody
             (mkProjectSummary uuid (trim typedName)
                (if (trim typedDescription =? "")%string then None
                 else Some (trim typedDescription))
                (clock pg) (clock pg) 0)).
Proof.
  intros typedName typedDescription. unfold handleSave.
  pose proof (trim_idempotent typedName) as Hidem.
  set (n := trim typedName) in *. set (dsc := trim typedDescription).
  destruct (n =? "")%string eqn:Hblank.
  - split; [split; [intros _; now apply String.eqb_eq | reflexivity] | ].
    intros payload Habs. discriminate Habs.
  - split.
    { split; [discriminate | ]. intros Habs. apply String.eqb_neq in Hblank.
      contradiction. }
    intros payload Hsome. injection Hsome as <-. cbn [Controller.p_name].
    split; [reflexivity | ]. split; [exact Hidem | ].
    split.
    { cbn. now rewrite Hblank. }
    intros pg uuid Hwork Hfault Hfresh.
    unfold post_projects, json_of_payload.
    cbn -[trim pool_query]. rewrite Hblank. cbn -[trim pool_query].
    cbn [pool_query pg_pool]. unfold pg_query. rewrite Hfault. cbn [text].
    rewrite Hwork. unfold run_statement. cbn [text params].
    unfold project_row. cbn -[trim]. unfold insert_project_row.
    cbn [row_id]. rewrite Hfresh, Hidem.
    destruct (dsc =? "")%string; reflexivity.
Qed.

(** A name of one no-break space is blank for the dialog: nothing is
    submitted. *)
Example dialog_refuses_unicode_blank :
  handleSave ex_nbsp "" = None /\
  handleSave (ex_nbsp ++ "Billing" ++ ex_line_separator) ex_bom =
    Some (Controller.mkPayload "Billing" (Some None)).
Proof. split; vm_compute; reflexivity. Qed.

(** The witness: a name and a description typed with spaces around. *)
Lemma dialog_submission_is_stored_witness :
  handleSave "  Billing " " " = Some (Controller.mkPayload "Billing" (Some None)) /\
  snd (post_projects "uuid-1"
         (Some (json_of_payload (Controller.mkPayload "Billing" (Some None)))) ex_pg) =
  mkResponse 201
    (ProjectBody
       (mkProjectSummary "uuid-1" "Billing" None
          "2026-02-01T00:00:00.000Z" "2026-02-01T00:00:00.000Z" 0)).
Proof.
  split; [reflexivity | ].
  destruct (dialog_submission_is_stored "  Billing " " ") as [_ H].
  destruct (H (Controller.mkPayload "Billing" (Some None)) eq_refl)
    as (_ & _ & _ & Hpost).
  exact (Hpost ex_pg "uuid-1" eq_refl eq_refl eq_refl).
Defined.

(** ** Renaming a project *)

(** X22.  Renaming a project zeroes its cached counter.  The statement of
    [PUT /api/projects/:projectId] returns the five columns of the project
    and no count, so the summary in a 200 answer carries [modelCount] 0
    however many models the project has (the models are not touched); and
    [handleUpdateProject] puts that summary in the place of every cached
    project with that id: after a successful rename the cached counter of
    the project is 0. *)
Theorem rename_resets_cached_counter :
  forall (clock projectId : string) (reqBody : Value) (d d' : Db)
         (p : ProjectSummary),
    put_project (update_project clock) projectId reqBody d =
      (d', mkResponse 200 (ProjectBody p)) ->
    id p = projectId /\ modelCount p = 0%Z /\ models_tbl d' = models_tbl d /\
    forall (s s2 : Controller.Ctl) (payload : Controller.EntityPayload),
    exists s1 k,
      Controller.handleUpdateProject projectId payload s =
        Controller.Susp s1 (Controller.updateProject projectId payload) k /\
      exists s3,
        k (Controller.Resolved (summary_of p)) s2 =
          Controller.Fin s3 (Some (summary_of p)) /\
        forall item,
          In item (Controller.projects (Controller.st s3)) ->
          Controller.id item = projectId ->
          Controller.modelCount item = 0%Z.
Proof.
  intros clock projectId reqBody d d' p Hput.
  unfold put_project in Hput.
  destruct (member "name" (nullish reqBody (JObj []))) as [[ | b | z | n | l | l] | ];
    cbn [js_truthy is_string negb orb] in Hput; try discriminate Hput.
  { destruct b; discriminate Hput. }
  { destruct (negb (z =? 0)%Z); discriminate Hput. }
  destruct (negb (n =? "")%string); cbn [negb orb] in Hput; [ | discriminate Hput].
  unfold update_project in Hput. cbn [sql_text] in Hput.
  destruct (filter (fun r => (row_id r =? projectId)%string) (projects_tbl d))
    as [ | row rest] eqn:Hrows; cbn [map] in Hput; [discriminate Hput | ].
  injection Hput as <- <-.
  assert (Hrow : In row (filter (fun r => (row_id r =? projectId)%string)
                           (projects_tbl d))) by (rewrite Hrows; now left).
  apply filter_In in Hrow. destruct Hrow as [_ Hid]. apply String.eqb_eq in Hid.
  cbn [mapProjectRow id modelCount row_id models_tbl].
  split; [exact Hid | split; [reflexivity | split; [reflexivity | ]]].
  intros s s2 payload. eexists. eexists. split; [reflexivity | ].
  eexists. split; [reflexivity | ].
  cbn. intros item Hin Hitem.
  apply in_map_iff in Hin. destruct Hin as (x & Hx & _).
  rewrite Hid in Hx.
  destruct (Controller.id x =? projectId)%string eqn:E; subst item; [reflexivity | ].
  apply String.eqb_neq in E. contradiction.
Qed.

(** The witness: the project of the sample database, which has a model,
    is renamed. *)
Lemma rename_resets_cached_counter_witness :
  let reqBody := Some (JObj [("name", JStr "Renamed")]) in
  existsb (fun m => (project_id m =? "old-1")%string) (models_tbl ex_db) = true /\
  exists d' p,
    put_project (update_project "2026-02-01T00:00:00.000Z") "old-1" reqBody ex_db =
      (d', mkResponse 200 (ProjectBody p)) /\
    name p = "Renamed"%string /\ modelCount p = 0%Z /\
    models_tbl d' = models_tbl ex_db.
Proof.
  intros reqBody. split; [reflexivity | ].
  eexists. eexists. split; [reflexivity | ].
  split; [reflexivity | ].
  match goal with
  | |- modelCount ?p = _ /\ models_tbl ?d' = _ =>
      destruct (rename_resets_cached_counter "2026-02-01T00:00:00.000Z" "old-1"
                  reqBody ex_db d' p eq_refl) as (_ & Hc & Hm & _)
  end.
  split; [exact Hc | exact Hm].
Defined.

(** ** Updating a model *)

Ltac pick_column :=
  first
    [ exists "name"%string, ""%string; eexists;
      split; [reflexivity | split; [reflexivity | ]];
      left; split; [reflexivity | split; [reflexivity | ]];
      eexists; split; reflexivity
    | exists "description"%string, ""%string; eexists;
      split; [reflexivity | split; [reflexivity | ]];
      right; left; split; [reflexivity | split; [reflexivity | ]];
      split; [discriminate | reflexivity]
    | exists "model_data"%string, "::jsonb"%string; eexists;
      split; [reflexivity | split; [reflexivity | ]];
      right; right; split; [reflexivity | split; [reflexivity | ]];
      eexists; split; reflexivity ].

(** X23.  The placeholders of [PUT /api/models/:modelId] designate their
    values.  Whatever the body, the first parameter is the id of the model,
    there is one parameter more than there are assignments, and the
    assignment at position i is that of one of the three columns, written
    with the placeholder number i+2, while the parameter at that number is
    the value the body gives for that column: the trimmed name, the
    description (null if it is null), the diagram as JSON text.  The answer
    is 400 "No fields to update." exactly when the name is not a string and
    neither a description nor a diagram is given. *)
Theorem put_model_placeholders :
  forall (modelId : string) (reqBody : Value),
    let b := put_model_build modelId reqBody in
    let body := nullish reqBody (JObj []) in
    nth_error (vals b) 0 = Some (Some (JStr modelId)) /\
    List.length (vals b) = S (List.length (updates b)) /\
    index b = S (List.length (vals b)) /\
    (forall i u,
       nth_error (updates b) i = Some u ->
       exists col cast v,
         u = (col ++ " = $" ++ string_of_Z (Z.of_nat (i + 2)) ++ cast)%string /\
         nth_error (vals b) (i + 1) = Some v /\
         ((col = "name"%string /\ cast = ""%string /\
           exists n, member "name" body = Some (JStr n) /\
                     v = Some (JStr (trim n))) \/
          (col = "description"%string /\ cast = ""%string /\
           member "description" body <> None /\
           v = Some (nullish (member "description" body) JNull)) \/
          (col = "model_data"%string /\ cast = "::jsonb"%string /\
           exists m, member "model" body = Some m /\
                     v = Some (JStr (stringify m))))) /\
    (put_model_query modelId reqBody =
       inl (mkResponse 400 (ErrorBody "No fields to update.")) <->
     is_string (member "name" body) = false /\
     member "description" body = None /\ member "model" body = None).
Proof.
  intros modelId reqBody b body. subst b body.
  unfold put_model_query, put_model_build.
  destruct (member "name" (nullish reqBody (JObj []))) as [[ | ? | ? | n | ? | ?] | ];
    destruct (member "description" (nullish reqBody (JObj []))) as [dsc | ];
    destruct (member "model" (nullish reqBody (JObj []))) as [m | ];
    cbn -[trim stringify nullish];
    (split; [reflexivity | split; [reflexivity | split; [reflexivity | split]]]);
    try (intros [ | [ | [ | i]]] u Hu; cbn in Hu; try discriminate Hu;
         try (destruct i; discriminate Hu);
         injection Hu as <-; pick_column);
    (split; [intros H; try discriminate H; repeat split
            | intros (H1 & H2 & H3); try discriminate; reflexivity]).
Qed.

(** X24.  Saving a diagram and renaming a model do not step on each other.
    The body an autosave sends, [{ model }], makes the server assign
    [model_data] alone; the body [handleUpdateModel] sends makes it assign
    the name, and the description when the payload has one, and never
    [model_data]: an autosave cannot rename, a rename cannot overwrite the
    diagram. *)
Theorem save_and_rename_are_disjoint :
  forall (enc : Controller.FlatC4Model -> Json) (modelId : string),
    (forall m,
       put_model_query modelId
         (Some (json_of_patch enc (Controller.save_patch m))) =
       inr (["model_data = $2::jsonb"; "updated_at = now()"]%string,
            [Some (JStr modelId); Some (JStr (stringify (enc m)))])) /\
    (forall payload,
       put_model_query modelId
         (Some (json_of_patch enc
                  (Controller.mkPatch (Some (Controller.p_name payload))
                     (Controller.p_description payload) None))) =
       inr (match Controller.p_description payload with
            | None =>
                (["name = $2"; "updated_at = now()"]%string,
                 [Some (JStr modelId);
                  Some (JStr (trim (Controller.p_name payload)))])
            | Some dsc =>
                (["name = $2"; "description = $3"; "updated_at = now()"]%string,
                 [Some (JStr modelId);
                  Some (JStr (trim (Controller.p_name payload)));
                  Some (json_of_option dsc)])
            end)).
Proof.
  intros enc modelId. split.
  - intros m. reflexivity.
  - intros [n [[dsc | ] | ]]; reflexivity.
Qed.

(** ** Errors *)

(** X25.  The message of the server is the message the user sees.  When a
    handler answers with an error body and a status outside 200-299,
    [requestJson] rejects with an [ApiError] whose message is the [error] of
    the body (the status text is not used) and whose status is that of the
    answer; [getErrorMessage] gives that message back, and it is what
    [handleCreateProject] records in the error cell, leaving everything
    else as it is.  An answer whose body is not JSON is reported with its
    status text instead. *)
Theorem server_errors_reach_the_user :
  forall (reason : nat -> string) (syntax : string) (r : Response) (e : string),
    body r = ErrorBody e -> e <> ""%string -> ok (wire reason r) = false ->
    requestJson syntax (wire reason r) =
      Controller.Rejected (Controller.ApiError e (status r)) /\
    requestJson syntax (mkHttp (status r) (reason (status r)) None) =
      Controller.Rejected (Controller.ApiError (reason (status r)) (status r)) /\
    forall (payload : Controller.EntityPayload) (s s2 : Controller.Ctl),
    exists s1 k,
      Controller.handleCreateProject payload s =
        Controller.Susp s1 (Controller.createProject payload) k /\
      k (Controller.Rejected (Controller.ApiError e (status r))) s2 =
        Controller.Fin (Controller.setError (Some e) s2) None.
Proof.
  intros reason syntax r e Hbody Hne Hok.
  apply String.eqb_neq in Hne.
  assert (Hok' : ok (mkHttp (status r) (reason (status r)) None) = false)
    by exact Hok.
  unfold requestJson. rewrite Hok, Hok'. cbn [negb].
  unfold error_message, wire. cbn [payload]. rewrite Hbody.
  cbn. rewrite Hne. cbn.
  split; [reflexivity | split; [reflexivity | ]].
  intros payload s s2. eexists. eexists. split; reflexivity.
Qed.

(** The witness: a project is created without a name. *)
Lemma server_errors_reach_the_user_witness :
  let r := snd (post_projects "uuid-1" (Some (JObj [])) ex_pg) in
  status r = 400 /\
  requestJson "Unexpected end of JSON input" (wire (fun _ => "Bad Request"%string) r) =
    Controller.Rejected (Controller.ApiError "Project name is required." 400).
Proof.
  intros r. split; [reflexivity | ].
  refine (proj1 (server_errors_reach_the_user (fun _ => "Bad Request"%string)
                   "Unexpected end of JSON input" r "Project name is required."
                   eq_refl _ eq_refl)).
  discriminate.
Defined.

(** ** Backup and restore *)

Lemma project_params_of_row (now : string) (r : ProjectRow) :
  project_params now (project_json r) =
  Some [Some (JStr (row_id r)); Some (JStr (row_name r));
        Some (json_of_option (row_description r));
        Some (JStr (created_at r)); Some (JStr (updated_at r))].
Proof.
  unfold project_json. cbn. destruct (row_description r); reflexivity.
Qed.

Lemma sql_text_of_option (o : option string) :
  sql_text (Some (json_of_option o)) = o.
Proof. destruct o; reflexivity. Qed.

Lemma has_project_fresh (i : string) (ps : list ProjectRow) (ms : list ModelRow) :
  ~ In i (map row_id ps) -> has_project i (mkDb ps ms) = false.
Proof.
  unfold has_project. cbn [projects_tbl].
  induction ps as [ | p ps IH]; cbn; [reflexivity | ].
  intros Hnot. destruct (row_id p =? i)%string eqn:E.
  - apply String.eqb_eq in E. elim Hnot. now left.
  - apply IH. intros Hin. apply Hnot. now right.
Qed.

Lemma has_model_fresh (i : string) (ps : list ProjectRow) (ms : list ModelRow) :
  ~ In i (map mrow_id ms) -> has_model i (mkDb ps ms) = false.
Proof.
  unfold has_model. cbn [models_tbl].
  induction ms as [ | m ms IH]; cbn; [reflexivity | ].
  intros Hnot. destruct (mrow_id m =? i)%string eqn:E.
  - apply String.eqb_eq in E. elim Hnot. now left.
  - apply IH. intros Hin. apply Hnot. now right.
Qed.

(** The inserts of the exported projects put the rows back, in order. *)
Lemma restore_inserts_projects (clock now : string) (rows : list ProjectRow) :
  forall (acc : list ProjectRow) (ms0 : list ModelRow) (rest : list Query),
    NoDup (map row_id (acc ++ rows)) ->
    (forall p, In p rows -> model_count p = None /\ row_modelCount p = None) ->
    db_run clock
      (inserts InsertProject (project_params now) (map project_json rows) ++ rest)
      (mkDb acc ms0) =
    db_run clock rest (mkDb (acc ++ rows) ms0).
Proof.
  induction rows as [ | r rows IH]; intros acc ms0 rest Hnd Hcols.
  - cbn. now rewrite app_nil_r.
  - cbn [map inserts]. rewrite project_params_of_row. cbn [app db_run].
    unfold run_statement. cbn [text params]. unfold project_row.
    rewrite sql_text_of_option. cbn [sql_text]. unfold insert_project_row.
    cbn [row_id].
    assert (Hfresh : ~ In (row_id r) (map row_id acc)).
    { rewrite map_app in Hnd. cbn [map] in Hnd.
      apply NoDup_remove_2 in Hnd. intros Hin. apply Hnd.
      apply in_or_app. now left. }
    rewrite (has_project_fresh _ _ _ Hfresh). cbn [projects_tbl models_tbl].
    destruct (Hcols r (or_introl eq_refl)) as [Hc1 Hc2].
    assert (Heta : mkProjectRow (row_id r) (row_name r) (row_description r)
                     (created_at r) (updated_at r) None None = r).
    { destruct r. cbn in Hc1, Hc2. subst. reflexivity. }
    rewrite Heta. rewrite (IH (acc ++ [r])).
    + now rewrite <- app_assoc.
    + now rewrite <- app_assoc.
    + intros p Hp. apply Hcols. now right.
Qed.

(** The inserts of the exported models put the rows back, each with its
    diagram printed anew. *)
Lemma restore_inserts_models (parse : string -> option Json)
    (ps : list ProjectRow) (rows : list ModelRow) :
  (forall m, In m rows -> exists fields, parse (model_data m) = Some (JObj fields)) ->
  (forall m, In m rows -> has_project (project_id m) (mkDb ps []) = true) ->
  exists js,
    models_json parse rows = Some js /\
    Forall (fun item => item <> JNull) js /\
    forall (clock now : string) (acc : list ModelRow) (rest : list Query),
      NoDup (map mrow_id (acc ++ rows)) ->
      db_run clock (inserts InsertModel (model_params now) js ++ rest) (mkDb ps acc) =
      db_run clock rest (mkDb ps (acc ++ map (reencode parse) rows)).
Proof.
  induction rows as [ | r rows IH]; intros Hobj Href.
  - exists []. split; [reflexivity | split; [constructor | ]].
    intros clock now acc rest _. cbn. now rewrite app_nil_r.
  - destruct IH as (js & Hjs & Hnn & Hrun).
    { intros m Hm. apply Hobj. now right. }
    { intros m Hm. apply Href. now right. }
    destruct (Hobj r (or_introl eq_refl)) as (fields & Hparse).
    eexists. split.
    { cbn [models_json]. unfold model_json, model_member. rewrite Hparse.
      cbn [js_truthy parseJson option_map]. rewrite Hjs. reflexivity. }
    split; [constructor; [discriminate | exact Hnn] | ].
    intros clock now acc rest Hnd.
    cbn -[stringify nullish run_statement].
    assert (Hdesc : nullish (Some (json_of_option (mrow_description r))) JNull =
                    json_of_option (mrow_description r))
      by (destruct (mrow_description r); reflexivity).
    rewrite Hdesc. cbn [nullish]. unfold run_statement. cbn [text params].
    unfold model_row.
    rewrite sql_text_of_option. cbn [sql_text]. unfold insert_model_row.
    cbn [mrow_id project_id].
    assert (Hfresh : ~ In (mrow_id r) (map mrow_id acc)).
    { rewrite map_app in Hnd. cbn [map] in Hnd.
      apply NoDup_remove_2 in Hnd. intros Hin. apply Hnd.
      apply in_or_app. now left. }
    rewrite (has_model_fresh _ _ _ Hfresh).
    assert (Hp : has_project (project_id r) (mkDb ps acc) = true)
      by exact (Href r (or_introl eq_refl)).
    rewrite Hp. cbn [negb projects_tbl models_tbl].
    assert (Hrow : mkModelRow (mrow_id r) (project_id r) (mrow_name r)
                     (mrow_description r) (stringify (JObj fields))
                     (mrow_created_at r) (mrow_updated_at r) = reencode parse r).
    { unfold reencode. now rewrite Hparse. }
    rewrite Hrow. rewrite (Hrun clock now (acc ++ [reencode parse r])).
    + now rewrite <- app_assoc.
    + rewrite <- app_assoc. cbn [app]. rewrite map_app in Hnd. rewrite map_app.
      exact Hnd.
Qed.

(** X26.  A backup can be restored, and gives the tables back.  On tables
    that satisfy the constraints of the schema and whose diagrams are JSON
    objects, [GET /api/backup] answers with a document that
    [POST /api/restore] accepts on any database (no transaction open, no
    statement made to fail): the answer is 200 and the committed tables are
    the projects that were exported, row for row and in the same order, and
    the models that were exported, each with the same id, project, name,
    description and time stamps, and with its diagram parsed and printed
    anew.  Nothing of the database restored into is left. *)
Theorem backup_restore_round_trip :
  forall (parse : string -> option Json) (now : string) (d : Db),
    WellFormed d ->
    (forall m, In m (models_tbl d) ->
       exists fields, parse (model_data m) = Some (JObj fields)) ->
    exists backup,
      get_backup parse now d = Some backup /\
      forall (pg : Pg) (now' : string),
        working pg = None -> faults pg = [] -> accepting pg = true ->
        status (snd (post_restore now' (Some backup) pg)) = 200 /\
        committed (fst (post_restore now' (Some backup) pg)) =
          mkDb (projects_tbl d) (map (reencode parse) (models_tbl d)).
Proof.
  intros parse now d (Hndp & Hndm & Href & Hcols) Hobj.
  assert (Href' : forall m, In m (models_tbl d) ->
                    has_project (project_id m) (mkDb (projects_tbl d) []) = true)
    by exact Href.
  destruct (restore_inserts_models parse (projects_tbl d) (models_tbl d)
              Hobj Href') as (js & Hjs & Hnn & Hrun).
  eexists. split.
  { unfold get_backup. rewrite Hjs. reflexivity. }
  intros pg now' Hw Hf Ha.
  set (pjs := map project_json (projects_tbl d)).
  assert (Hdata : db_run (clock pg) (restore_data now' pjs js) (committed pg) =
                  Some (mkDb (projects_tbl d) (map (reencode parse) (models_tbl d)))).
  { unfold restore_data. cbn [app db_run run_statement text params].
    unfold pjs.
    rewrite (restore_inserts_projects (clock pg) now' (projects_tbl d) [] []
               _ Hndp Hcols).
    cbn [app]. rewrite <- (app_nil_r (inserts InsertModel _ js)).
    rewrite (Hrun (clock pg) now' [] [] Hndm). reflexivity. }
  assert (Hpn : Forall (fun item => item <> JNull) pjs).
  { unfold pjs. apply Forall_forall. intros x Hx. apply in_map_iff in Hx.
    destruct Hx as (r & <- & _). discriminate. }
  pose proof (restore_try_succeeds now' pjs js pg _ Hw Hf Hpn Hnn Hdata) as Hok.
  destruct (restore_try_pg now' pjs js pg Hw)
    as [(_ & _ & _ & Hcommitted & _) | (Hfail & _)]; [ | congruence].
  rewrite Hdata in Hcommitted. injection Hcommitted as Hcommitted.
  unfold post_restore. cbn -[restore_try]. rewrite Ha. cbn -[restore_try].
  fold pjs. destruct (restore_try now' pjs js pg) as [r1 ok1].
  cbn [fst snd] in Hok, Hcommitted. subst ok1.
  cbn. split; [reflexivity | now symmetry].
Qed.

(** The witness: the sample database is exported, then restored into an
    empty database. *)
Lemma backup_restore_round_trip_witness :
  let empty := mkPg (mkDb [] []) None [] [] "2026-03-01T00:00:00.000Z" true 0 in
  WellFormed ex_db /\
  exists backup,
    get_backup ex_parse "2026-02-01T00:00:00.000Z" ex_db = Some backup /\
    committed (fst (post_restore "2026-03-01T00:00:00.000Z" (Some backup) empty))
      = ex_db.
Proof.
  intros empty.
  assert (Hwf : WellFormed ex_db).
  { split; [repeat constructor; intros [] | ].
    split; [repeat constructor; intros [] | ].
    split.
    - intros m [<- | []]. reflexivity.
    - intros p [<- | []]. split; reflexivity. }
  split; [exact Hwf | ].
  destruct (backup_restore_round_trip ex_parse "2026-02-01T00:00:00.000Z" ex_db Hwf)
    as (backup & Hb & Hr).
  { intros m [<- | []]. exists []. reflexivity. }
  exists backup. split; [exact Hb | ].
  destruct (Hr empty "2026-03-01T00:00:00.000Z" eq_refl eq_refl eq_refl) as [_ Hc].
  rewrite Hc. reflexivity.
Defined.

End CrossLayerProperties.
